(** * Edunext: hierarchical retrieval index and quiz parser

    A shallow embedding of [app/utils/rag_chain.py]: the module globals
    holding the FAISS stores, [create_vector_db], [merge_vector_dbs],
    [get_hierarchical_db], [get_answer_from_documents],
    [initialize_from_existing_documents], [get_vector_db_status] and
    [generate_quiz_questions] with its parsing loop, and of
    [allowed_file] of the upload routes, followed by the properties of
    the specification that concern them.  The ids are modelled as the
    routes pass them: as [int]s, and as the text of a form field. *)

From Stdlib Require Import ZArith Ascii String Lia.
From stdpp Require Import gmap strings list fin_maps pretty.

Local Open Scope string_scope.

(** ** Python [str] operations used by the module

    A Python [str] is modelled as a Rocq [string] whose characters are
    the code points below 256. *)
Module Py.

(** [str.isspace] on one character, which is also the class [\s] of
    [re] on [str] patterns: TAB..CR, FS..US, SPACE, NEL and NBSP. *)
Definition isspace (c : ascii) : bool :=
  let n := nat_of_ascii c in
  (Nat.leb 9 n && Nat.leb n 13) || (Nat.leb 28 n && Nat.leb n 32)
  || Nat.eqb n 133 || Nat.eqb n 160.

(** The class [\d] of [re]: the decimal digits. *)
Definition isdigit (c : ascii) : bool :=
  let n := nat_of_ascii c in Nat.leb 48 n && Nat.leb n 57.

Definition is_empty (s : string) : bool :=
  match s with EmptyString => true | String _ _ => false end.

Definition len (s : string) : nat := String.length s.

(** [s[n:]] and [s[:n]] for [0 <= n]. *)
Fixpoint drop (n : nat) (s : string) : string :=
  match n, s with
  | S k, String _ s' => drop k s'
  | _, _ => s
  end.

Fixpoint take (n : nat) (s : string) : string :=
  match n, s with
  | S k, String c s' => String c (take k s')
  | _, _ => EmptyString
  end.

(** [s.startswith(p)]. *)
Fixpoint startswith (p s : string) : bool :=
  match p, s with
  | EmptyString, _ => true
  | String a p', String b s' => Ascii.eqb a b && startswith p' s'
  | String _ _, EmptyString => false
  end.

(** [s.endswith(p)]. *)
Fixpoint endswith (p s : string) : bool :=
  String.eqb p s ||
  match s with
  | EmptyString => false
  | String _ s' => endswith p s'
  end.

(** [sub in s]. *)
Fixpoint contains (sub s : string) : bool :=
  startswith sub s ||
  match s with
  | EmptyString => false
  | String _ s' => contains sub s'
  end.

(** [s.find(sub)]: the lowest index where [sub] occurs, or [-1]. *)
Fixpoint find_from (sub s : string) (i : Z) : Z :=
  if startswith sub s then i
  else match s with
       | EmptyString => (-1)%Z
       | String _ s' => find_from sub s' (i + 1)%Z
       end.

Definition find (sub s : string) : Z := find_from sub s 0%Z.

(** [s.lstrip], [s.rstrip] and [s.strip] for a set of characters. *)
Fixpoint lstrip_with (p : ascii -> bool) (s : string) : string :=
  match s with
  | EmptyString => EmptyString
  | String c s' => if p c then lstrip_with p s' else s
  end.

Fixpoint rstrip_with (p : ascii -> bool) (s : string) : string :=
  match s with
  | EmptyString => EmptyString
  | String c s' =>
      let r := rstrip_with p s' in
      if is_empty r && p c then EmptyString else String c r
  end.

Definition strip_with (p : ascii -> bool) (s : string) : string :=
  rstrip_with p (lstrip_with p s).

(** [s.strip()]. *)
Definition strip (s : string) : string := strip_with isspace s.

Fixpoint char_in (c : ascii) (chars : string) : bool :=
  match chars with
  | EmptyString => false
  | String d chars' => Ascii.eqb c d || char_in c chars'
  end.

(** [s.strip(chars)]. *)
Definition strip_chars (chars s : string) : string :=
  strip_with (fun c => char_in c chars) s.

(** [s.split(sep)] for a non-empty separator: the pieces between the
    non-overlapping occurrences of [sep], found left to right.  [skip]
    counts the characters of the current occurrence still to pass. *)
Fixpoint split_go (sep s : string) (skip : nat) : list string :=
  match s with
  | EmptyString => [EmptyString]
  | String c s' =>
      match skip with
      | S k => split_go sep s' k
      | O =>
          if startswith sep s then EmptyString :: split_go sep s' (len sep - 1)
          else match split_go sep s' 0 with
               | piece :: pieces => String c piece :: pieces
               | [] => [String c EmptyString]
               end
      end
  end.

Definition split (sep s : string) : list string := split_go sep s 0.

(** [s.split(sep, 1)]. *)
Definition split_max1 (sep s : string) : list string :=
  let i := find sep s in
  if (i =? -1)%Z then [s]
  else [take (Z.to_nat i) s; drop (Z.to_nat i + len sep) s].

(** *** The fragment of [re] the module uses

    Backtracking matching in the order of Python's [re]: alternatives
    are tried greedily first, and the first success is kept. *)
Inductive regex : Type :=
| Bol                                  (* ^ *)
| Lit (l : string)                     (* literal text *)
| Cls (p : ascii -> bool)              (* one character of a class *)
| Cat (r1 r2 : regex)                  (* r1 r2 *)
| Opt (r : regex)                      (* r? and (?:r)? *)
| Star (p : ascii -> bool)             (* [class]* *)
| Grp (r : regex).                     (* (r), a capturing group *)

(** [[class]+] *)
Definition Plus (p : ascii -> bool) : regex := Cat (Cls p) (Star p).

Definition matched : Type := nat * list string.

(** [rmatch r s pos gs k]: match [r] at the head of [s], which starts
    at index [pos] of the subject, then continue with [k] on the rest;
    [gs] are the groups captured so far. *)
Fixpoint rmatch (r : regex) (s : string) (pos : nat) (gs : list string)
    (k : string -> nat -> list string -> option matched) : option matched :=
  match r with
  | Bol => if Nat.eqb pos 0 then k s pos gs else None
  | Lit l => if startswith l s then k (drop (len l) s) (pos + len l) gs else None
  | Cls p =>
      match s with
      | String c s' => if p c then k s' (S pos) gs else None
      | EmptyString => None
      end
  | Cat r1 r2 => rmatch r1 s pos gs (fun s1 p1 g1 => rmatch r2 s1 p1 g1 k)
  | Opt r1 =>
      match rmatch r1 s pos gs k with
      | Some m => Some m
      | None => k s pos gs
      end
  | Star p =>
      (fix star (s : string) (pos : nat) : option matched :=
         match s with
         | String c s' =>
             if p c then
               match star s' (S pos) with
               | Some m => Some m
               | None => k s pos gs
               end
             else k s pos gs
         | EmptyString => k s pos gs
         end) s pos
  | Grp r1 =>
      rmatch r1 s pos gs (fun s1 p1 g1 => k s1 p1 (g1 ++ [take (p1 - pos) s])%list)
  end.

(** A match of [r] starting at index [pos]: its end and its groups. *)
Definition match_at (r : regex) (s : string) (pos : nat) : option matched :=
  rmatch r s pos [] (fun _ p g => Some (p, g)).

(** [re.match(r, s)]. *)
Definition re_match (r : regex) (s : string) : option matched := match_at r s 0.

(** [re.search(r, s)]: the leftmost match, as (start, (end, groups)). *)
Fixpoint search_from (r : regex) (s : string) (pos : nat) : option (nat * matched) :=
  match match_at r s pos with
  | Some m => Some (pos, m)
  | None =>
      match s with
      | EmptyString => None
      | String _ s' => search_from r s' (S pos)
      end
  end.

Definition re_search (r : regex) (s : string) : option (nat * matched) :=
  search_from r s 0.

(** [match.group(1)]. *)
Definition group1 (m : nat * matched) : option string := (m.2.2) !! 0%nat.

(** [re.split(r, s)] for a pattern without capturing groups whose
    matches are non-empty. *)
Fixpoint re_split_go (r : regex) (s : string) (pos skip : nat) : list string :=
  match s with
  | EmptyString => [EmptyString]
  | String c s' =>
      match skip with
      | S k => re_split_go r s' (S pos) k
      | O =>
          let keep :=
            match re_split_go r s' (S pos) 0 with
            | piece :: pieces => String c piece :: pieces
            | [] => [String c EmptyString]
            end in
          match match_at r s pos with
          | Some (e, _) =>
              if Nat.ltb pos e then EmptyString :: re_split_go r s' (S pos) (e - pos - 1)
              else keep
          | None => keep
          end
      end
  end.

Definition re_split (r : regex) (s : string) : list string := re_split_go r s 0 0.

(** [re.split(r, s, 1)]. *)
Definition re_split_max1 (r : regex) (s : string) : list string :=
  match re_search r s with
  | Some (b, (e, _)) => [take b s; drop e s]
  | None => [s]
  end.

End Py.

(** ** Data model *)

(** A LangChain [Document]: the text of a chunk and the file it came from. *)
Record Document : Type := mkDocument {
  page_content : string;
  source : string
}.

(** A FAISS store: the documents of its docstore, in index order
    ([index_to_docstore_id.values()] looked up in [docstore]).  The
    vectors are a function of the documents and are not kept. *)
Record FAISS : Type := mkFAISS {
  docstore : list Document
}.

(** [len(db.index_to_docstore_id)] *)
Definition chunk_count (db : FAISS) : nat := length (docstore db).

(** [Answer] and [Question] of [app/models.py]; a question carries the
    answers of its [answers] relationship. *)
Record Answer : Type := mkAnswer {
  answer_text : string;
  is_correct : bool
}.

Record Question : Type := mkQuestion {
  quiz_id_of : Z;
  text : string;
  difficulty_level_of : Z;
  answers : list Answer
}.

Record Subject : Type := mkSubject {
  subject_name : string;
  subject_description : string
}.

Record Quiz : Type := mkQuiz {
  quiz_title : string
}.

Inductive exn : Type :=
| ValueError (msg : string)
| IndexError
| KeyError
| AttributeError.

Inductive result (A : Type) : Type :=
| Ok (a : A)
| Raise (e : exn).
Arguments Ok {A} a.
Arguments Raise {A} e.

(** An id as the callers of the module pass it: a Python [int], the
    primary key of a model object ([subject.id], [user.id], or
    [int(subject_id)] in [chat/routes.py]), or a Python [str], the text
    of the form field that the upload route of [dashboard/routes.py]
    hands on as it reads it.  As keys of a dict an [int] and a [str]
    never coincide: [3] and ["3"] are two keys. *)
Inductive PyId : Type :=
| IdInt (n : Z)
| IdStr (s : string).

Global Instance PyId_eq_dec : EqDecision PyId.
Proof. solve_decision. Defined.

Global Instance PyId_countable : Countable PyId.
Proof.
  apply (inj_countable'
           (fun id => match id with IdInt n => inl n | IdStr s => inr s end)
           (fun x => match x with inl n => IdInt n | inr s => IdStr s end)).
  intros []; reflexivity.
Defined.

(** What the module reads from outside and never changes: the
    environment variables, the [Subject] and [Quiz] tables and, where
    they return, [PyPDFLoader(path).load()], the text splitter and the
    retrieval chain of [generate_quiz_questions].  A loader, a splitter
    or a chain that raises is outside this model. *)
Record Env : Type := mkEnv {
  GOOGLE_API_KEY : option string;
  GROQ_API_KEY : option string;
  pdf_loader : string -> list Document;
  text_splitter : list Document -> list Document;
  subject_table : gmap Z Subject;
  quiz_table : gmap Z Quiz;
  retrieval_chain : FAISS -> string -> string -> Z -> string -> string
}.

(** The module globals, the file system under [VECTOR_DIR], and what the
    process emits.  [vector_store] maps a directory that holds an
    [index.faiss] to the store [FAISS.load_local] returns for it;
    [made_dirs] are the paths handed to [os.makedirs]; [embedded_texts]
    counts the texts handed to the embedding model; [stdout] are the
    lines printed and [db_session] the questions committed to the
    database. *)
Record World : Type := mkWorld {
  _base_vector_db : option FAISS;
  _subject_dbs : gmap PyId FAISS;
  _student_dbs : gmap PyId FAISS;
  _merged_dbs : gmap string FAISS;
  _llm : option string;
  vector_store : gmap string FAISS;
  made_dirs : gset string;
  embedded_texts : nat;
  stdout : list string;
  db_session : list Question
}.

Definition set_base (b : option FAISS) (w : World) : World :=
  mkWorld b (_subject_dbs w) (_student_dbs w) (_merged_dbs w) (_llm w)
          (vector_store w) (made_dirs w) (embedded_texts w) (stdout w) (db_session w).

Definition set_subject_dbs (m : gmap PyId FAISS) (w : World) : World :=
  mkWorld (_base_vector_db w) m (_student_dbs w) (_merged_dbs w) (_llm w)
          (vector_store w) (made_dirs w) (embedded_texts w) (stdout w) (db_session w).

Definition set_student_dbs (m : gmap PyId FAISS) (w : World) : World :=
  mkWorld (_base_vector_db w) (_subject_dbs w) m (_merged_dbs w) (_llm w)
          (vector_store w) (made_dirs w) (embedded_texts w) (stdout w) (db_session w).

Definition set_merged_dbs (m : gmap string FAISS) (w : World) : World :=
  mkWorld (_base_vector_db w) (_subject_dbs w) (_student_dbs w) m (_llm w)
          (vector_store w) (made_dirs w) (embedded_texts w) (stdout w) (db_session w).

Definition set_llm (l : option string) (w : World) : World :=
  mkWorld (_base_vector_db w) (_subject_dbs w) (_student_dbs w) (_merged_dbs w) l
          (vector_store w) (made_dirs w) (embedded_texts w) (stdout w) (db_session w).

Definition add_directory (path : string) (w : World) : World :=
  mkWorld (_base_vector_db w) (_subject_dbs w) (_student_dbs w) (_merged_dbs w) (_llm w)
          (vector_store w) ({[path]} ∪ made_dirs w) (embedded_texts w) (stdout w)
          (db_session w).

Definition add_embedded (n : nat) (w : World) : World :=
  mkWorld (_base_vector_db w) (_subject_dbs w) (_student_dbs w) (_merged_dbs w) (_llm w)
          (vector_store w) (made_dirs w) (embedded_texts w + n) (stdout w) (db_session w).

Definition add_stdout (line : string) (w : World) : World :=
  mkWorld (_base_vector_db w) (_subject_dbs w) (_student_dbs w) (_merged_dbs w) (_llm w)
          (vector_store w) (made_dirs w) (embedded_texts w) (stdout w ++ [line])%list
          (db_session w).

Definition add_db_session (qs : list Question) (w : World) : World :=
  mkWorld (_base_vector_db w) (_subject_dbs w) (_student_dbs w) (_merged_dbs w) (_llm w)
          (vector_store w) (made_dirs w) (embedded_texts w) (stdout w)
          (db_session w ++ qs)%list.

(** ** Computations that read and write the globals and may raise *)

Definition M (A : Type) : Type := World -> result A * World.

Definition ret {A} (a : A) : M A := fun w => (Ok a, w).

Definition raise {A} (e : exn) : M A := fun w => (Raise e, w).

Definition bind {A B} (m : M A) (k : A -> M B) : M B :=
  fun w =>
    match m w with
    | (Ok a, w') => k a w'
    | (Raise e, w') => (Raise e, w')
    end.

Definition get : M World := fun w => (Ok w, w).

Definition modify (f : World -> World) : M unit := fun w => (Ok tt, f w).

Notation "'let*' x ':=' m 'in' k" := (bind m (fun x => k))
  (at level 10, x name, m at level 100, k at level 200).
Notation "m ';;' k" := (bind m (fun _ => k))
  (at level 100, k at level 200, right associativity).

(** [print(line)] *)
Definition print (line : string) : M unit := modify (add_stdout line).

(** [not s] for an optional string: [None] and [""] are falsy. *)
Definition falsy (s : option string) : bool :=
  match s with
  | None => true
  | Some v => Py.is_empty v
  end.

(** [str(id)], which is also how an f-string formats the id: the
    decimal digits of an [int], the text itself of a [str]. *)
Definition str (id : PyId) : string :=
  match id with
  | IdInt n => pretty n
  | IdStr s => s
  end.

(** [os.path.join(a, b)]: an absolute [b] replaces [a]. *)
Definition path_join (a b : string) : string :=
  if Py.startswith "/" b then b
  else if Py.is_empty a || Py.endswith "/" a then a +:+ b
  else a +:+ "/" +:+ b.

(** The directories of the indexes, written from the directory of the
    [app] package. *)
Definition VECTOR_DIR : string := "static/vector_store".
Definition BASE_VECTOR_DIR : string := path_join VECTOR_DIR "base".
Definition SUBJECT_VECTOR_DIR : string := path_join VECTOR_DIR "subjects".
Definition STUDENT_VECTOR_DIR : string := path_join VECTOR_DIR "students".

(** The globals as the top level of the module leaves them, over the
    index files [files] found on disk: the four [os.makedirs] of the
    top level have run. *)
Definition initial_world (files : gmap string FAISS) : World :=
  mkWorld None ∅ ∅ ∅ None files
          {[VECTOR_DIR; BASE_VECTOR_DIR; SUBJECT_VECTOR_DIR; STUDENT_VECTOR_DIR]} 0 [] [].

(** [os.makedirs(path, exist_ok=True)] *)
Definition makedirs (path : string) : M unit := modify (add_directory path).

(** ** The retrieval core *)

Inductive Embeddings : Type :=
| GoogleGenerativeAIEmbeddings (model google_api_key : string).

Definition _initialize_embeddings (env : Env) : M Embeddings :=
  let google_api_key := GOOGLE_API_KEY env in
  if falsy google_api_key then
    raise (ValueError "GOOGLE_API_KEY not found in environment variables")
  else
    ret (GoogleGenerativeAIEmbeddings "models/text-embedding-004"
           (default "" google_api_key)).

Definition _initialize_llm (env : Env) : M string :=
  let* w := get in
  match _llm w with
  | Some llm => ret llm
  | None =>
      let groq_api_key := GROQ_API_KEY env in
      if falsy groq_api_key then
        raise (ValueError "GROQ_API_KEY not found in environment variables")
      else
        modify (set_llm (Some "Llama3-8b-8192")) ;;
        ret "Llama3-8b-8192"
  end.

(** [FAISS.from_documents(docs, embeddings)], where the embedding
    provider answers: every text of [docs] is handed to the embedding
    model, and the store is built over [docs].  The module calls it on
    the chunks of a build, which are not empty, and on the documents of
    two stores it holds.  What the library does on an empty list, or
    when the provider fails, is outside this model: the model follows
    the runs in which the call returns. *)
Definition from_documents (docs : list Document) (embeddings : Embeddings) : M FAISS :=
  modify (add_embedded (length docs)) ;;
  ret (mkFAISS docs).

(** The test [os.path.isfile(os.path.join(save_path, 'index.faiss'))]
    together with the store [FAISS.load_local(save_path, embeddings)]
    returns when the test succeeds: [None] when there is no such file.
    The module calls [load_local] with these two arguments only; a
    version of the library that asks for [allow_dangerous_deserialization]
    raises a [ValueError] there instead of returning.  The model follows
    the runs in which the load returns. *)
Definition index_file (save_path : string) (w : World) : option FAISS :=
  vector_store w !! save_path.

(** The save path the first branch chain of [create_vector_db] chooses;
    [None] where that chain raises. *)
Definition save_path_of (subject_id user_id : option PyId) (is_base : bool) : option string :=
  if is_base then Some BASE_VECTOR_DIR
  else match subject_id with
       | Some sid => Some (path_join SUBJECT_VECTOR_DIR (str sid))
       | None =>
           match user_id with
           | Some uid => Some (path_join STUDENT_VECTOR_DIR (str uid))
           | None => None
           end
       end.

Definition create_vector_db (env : Env) (file_paths : list string)
    (subject_id user_id : option PyId) (is_base : bool) : M nat :=
  (* the save path, by the type of the index *)
  let* save_path :=
    (if is_base then ret BASE_VECTOR_DIR
     else match subject_id with
          | Some sid =>
              let save_path := path_join SUBJECT_VECTOR_DIR (str sid) in
              makedirs save_path ;;
              ret save_path
          | None =>
              match user_id with
              | Some uid =>
                  let save_path := path_join STUDENT_VECTOR_DIR (str uid) in
                  makedirs save_path ;;
                  ret save_path
              | None =>
                  raise (ValueError "Must specify either is_base=True, subject_id, or user_id")
              end
          end) in
  let* w := get in
  match index_file save_path w with
  | Some vector_db =>
      (* the index exists on disk: load it *)
      let* embeddings := _initialize_embeddings env in
      (if is_base then modify (set_base (Some vector_db))
       else match subject_id with
            | Some sid => modify (fun w => set_subject_dbs (<[sid := vector_db]> (_subject_dbs w)) w)
            | None =>
                match user_id with
                | Some uid => modify (fun w => set_student_dbs (<[uid := vector_db]> (_student_dbs w)) w)
                | None => ret tt
                end
            end) ;;
      ret (chunk_count vector_db)
  | None =>
      let* embeddings := _initialize_embeddings env in
      let docs := flat_map (pdf_loader env) file_paths in
      let split_docs := text_splitter env docs in
      match split_docs with
      | [] => raise (ValueError "No document content found after splitting")
      | _ :: _ =>
          (if is_base then
             let* db := from_documents split_docs embeddings in
             modify (set_base (Some db)) ;;
             print ("Base vector DB created with " +:+ pretty (length split_docs) +:+ " document chunks") ;;
             modify (set_merged_dbs ∅)
           else match subject_id with
                | Some sid =>
                    let* db := from_documents split_docs embeddings in
                    modify (fun w => set_subject_dbs (<[sid := db]> (_subject_dbs w)) w) ;;
                    print ("Subject vector DB created with " +:+ pretty (length split_docs) +:+ " document chunks") ;;
                    modify (fun w => set_merged_dbs (delete ("subject_" +:+ str sid) (_merged_dbs w)) w)
                | None =>
                    match user_id with
                    | Some uid =>
                        let* db := from_documents split_docs embeddings in
                        modify (fun w => set_student_dbs (<[uid := db]> (_student_dbs w)) w) ;;
                        print ("Student vector DB created with " +:+ pretty (length split_docs) +:+ " document chunks") ;;
                        modify (fun w => set_merged_dbs (delete ("student_" +:+ str uid) (_merged_dbs w)) w)
                    | None => ret tt
                    end
                end) ;;
          ret (length split_docs)
      end
  end.

Definition merge_vector_dbs (env : Env) (db1 db2 : FAISS) (embeddings : option Embeddings) : M FAISS :=
  let* embeddings :=
    (match embeddings with
     | None => _initialize_embeddings env
     | Some e => ret e
     end) in
  let docs1 := docstore db1 in
  let docs2 := docstore db2 in
  let all_docs := (docs1 ++ docs2)%list in
  from_documents all_docs embeddings.

(** The lookup [id is not None and id in dbs]. *)
Definition lookup_id (id : option PyId) (dbs : gmap PyId FAISS) : option (PyId * FAISS) :=
  match id with
  | Some i => match dbs !! i with Some db => Some (i, db) | None => None end
  | None => None
  end.

Definition get_hierarchical_db (env : Env) (subject_id user_id : option PyId) : M (option FAISS) :=
  let* embeddings := _initialize_embeddings env in
  (* load the base store if it is not loaded *)
  let* w := get in
  (match _base_vector_db w, index_file BASE_VECTOR_DIR w with
   | None, Some db => modify (set_base (Some db))
   | _, _ => ret tt
   end) ;;
  match subject_id, user_id with
  | None, None => let* w := get in ret (_base_vector_db w)
  | _, _ =>
      let* w := get in
      match lookup_id user_id (_student_dbs w) with
      | Some (uid, student_db) =>
          (* Case 1: student-specific query *)
          let merged_key := "student_" +:+ str uid in
          (match _merged_dbs w !! merged_key, _base_vector_db w with
           | None, Some base =>
               let* merged := merge_vector_dbs env student_db base (Some embeddings) in
               modify (fun w => set_merged_dbs (<[merged_key := merged]> (_merged_dbs w)) w) ;;
               print ("Created merged DB for student " +:+ str uid)
           | _, _ => ret tt
           end) ;;
          let* w := get in
          match _merged_dbs w !! merged_key with
          | Some merged => ret (Some merged)
          | None => ret (Some student_db)
          end
      | None =>
          match lookup_id subject_id (_subject_dbs w) with
          | Some (sid, subject_db) =>
              (* Case 2: subject-specific query *)
              let merged_key := "subject_" +:+ str sid in
              (match _merged_dbs w !! merged_key, _base_vector_db w with
               | None, Some base =>
                   let* merged := merge_vector_dbs env subject_db base (Some embeddings) in
                   modify (fun w => set_merged_dbs (<[merged_key := merged]> (_merged_dbs w)) w) ;;
                   print ("Created merged DB for subject " +:+ str sid)
               | _, _ => ret tt
               end) ;;
              let* w := get in
              match _merged_dbs w !! merged_key with
              | Some merged => ret (Some merged)
              | None => ret (Some subject_db)
              end
          | None =>
              (* Case 3: general query *)
              match _base_vector_db w with
              | Some base => ret (Some base)
              | None => raise (ValueError "No vector database available for this context")
              end
          end
      end
  end.

(** ** The quiz generator *)

(** The patterns of the parsing loop. *)
Definition is_char (c : string) (a : ascii) : bool := Py.char_in a c.

(** The numbered header: two stars or nothing, [Question ], one or more
    digits, two stars or nothing. *)
Definition re_numbered_question : Py.regex :=
  Py.Cat (Py.Opt (Py.Lit "**"))
    (Py.Cat (Py.Lit "Question ")
       (Py.Cat (Py.Plus Py.isdigit) (Py.Opt (Py.Lit "**")))).

(** A label at the start of the line followed by a dot or a closing
    parenthesis. *)
Definition re_label_punct (label : string) : Py.regex :=
  Py.Cat Py.Bol (Py.Cat (Py.Lit label) (Py.Cls (is_char ".)"))).

(** A label at the start of the line followed by white space. *)
Definition re_label_space (label : string) : Py.regex :=
  Py.Cat Py.Bol (Py.Cat (Py.Lit label) (Py.Cls Py.isspace)).

(** [CORRECT:] in bold: two stars, [CORRECT:], white space or none, a
    captured letter from A to D, two stars. *)
Definition re_bold_correct : Py.regex :=
  Py.Cat (Py.Lit "**CORRECT:")
    (Py.Cat (Py.Star Py.isspace)
       (Py.Cat (Py.Grp (Py.Cls (is_char "ABCD"))) (Py.Lit "**"))).

(** A captured letter from A to D. *)
Definition re_letter : Py.regex := Py.Grp (Py.Cls (is_char "ABCD")).

Definition matches (r : Py.regex) (s : string) : bool :=
  match Py.re_match r s with Some _ => true | None => false end.

Definition found (r : Py.regex) (s : string) : bool :=
  match Py.re_search r s with Some _ => true | None => false end.

(** The [options] dict: keys in insertion order; assigning to a key that
    is present replaces its value in place. *)
Definition dict : Type := list (string * string).

Fixpoint dict_set (k v : string) (d : dict) : dict :=
  match d with
  | [] => [(k, v)]
  | (k', v') :: d' =>
      if String.eqb k' k then (k', v) :: d' else (k', v') :: dict_set k v d'
  end.

Definition keys (d : dict) : list string := map fst d.

(** [k in d] *)
Definition dict_in (k : string) (d : dict) : bool :=
  existsb (String.eqb k) (keys d).

(** [parts[1]]; [None] stands for the [IndexError]. *)
Definition item1 (parts : list string) : option string := parts !! 1%nat.

(** One line of a block in the alternative format: the branch chain
    that fills [options]. *)
Definition alt_option_line (line : string) (options : dict) : option dict :=
  let stripped := Py.strip line in
  if Py.startswith "A:" line || Py.startswith "A:" stripped then
    v ← item1 (Py.split_max1 ":" line); Some (dict_set "A" (Py.strip v) options)
  else if Py.startswith "B:" line || Py.startswith "B:" stripped then
    v ← item1 (Py.split_max1 ":" line); Some (dict_set "B" (Py.strip v) options)
  else if Py.startswith "C:" line || Py.startswith "C:" stripped then
    v ← item1 (Py.split_max1 ":" line); Some (dict_set "C" (Py.strip v) options)
  else if Py.startswith "D:" line || Py.startswith "D:" stripped then
    v ← item1 (Py.split_max1 ":" line); Some (dict_set "D" (Py.strip v) options)
  else if matches (re_label_punct "A") stripped then
    v ← item1 (Py.re_split_max1 (re_label_punct "A") stripped);
    Some (dict_set "A" (Py.strip v) options)
  else if matches (re_label_punct "B") stripped then
    v ← item1 (Py.re_split_max1 (re_label_punct "B") stripped);
    Some (dict_set "B" (Py.strip v) options)
  else if matches (re_label_punct "C") stripped then
    v ← item1 (Py.re_split_max1 (re_label_punct "C") stripped);
    Some (dict_set "C" (Py.strip v) options)
  else if matches (re_label_punct "D") stripped then
    v ← item1 (Py.re_split_max1 (re_label_punct "D") stripped);
    Some (dict_set "D" (Py.strip v) options)
  else if matches (re_label_space "A") stripped then
    v ← item1 (Py.re_split_max1 (re_label_space "A") stripped);
    Some (dict_set "A" (Py.strip v) options)
  else if matches (re_label_space "B") stripped then
    v ← item1 (Py.re_split_max1 (re_label_space "B") stripped);
    Some (dict_set "B" (Py.strip v) options)
  else if matches (re_label_space "C") stripped then
    v ← item1 (Py.re_split_max1 (re_label_space "C") stripped);
    Some (dict_set "C" (Py.strip v) options)
  else if matches (re_label_space "D") stripped then
    v ← item1 (Py.re_split_max1 (re_label_space "D") stripped);
    Some (dict_set "D" (Py.strip v) options)
  else Some options.

(** The branch chain of the same line that looks for the correct answer. *)
Definition alt_correct_line (line : string) (correct_answer : option string)
    : option (option string) :=
  if Py.contains "**CORRECT:" line then
    part ← item1 (Py.split_max1 "**CORRECT:" line);
    let correct_part := Py.strip part in
    if Py.is_empty correct_part then Some correct_answer
    else Some (Some (Py.strip_chars "* " correct_part))
  else if Py.contains "CORRECT:" line then
    part ← item1 (Py.split_max1 "CORRECT:" line);
    let correct_part := Py.strip part in
    if Py.is_empty correct_part then Some correct_answer
    else Some (Some (Py.strip_chars "* " correct_part))
  else if found re_bold_correct line then
    match Py.re_search re_bold_correct line with
    | Some m => g ← Py.group1 m; Some (Some g)
    | None => Some correct_answer
    end
  else if Py.contains "CORRECT ANSWER:" line then
    part ← item1 (Py.split_max1 "CORRECT ANSWER:" line);
    let correct_part := Py.strip part in
    if Py.is_empty correct_part then Some correct_answer
    else match Py.re_search re_letter correct_part with
         | Some m => g ← Py.group1 m; Some (Some g)
         | None => Some correct_answer
         end
  else Some correct_answer.

(** The loop over the lines of a block in the alternative format. *)
Fixpoint alt_lines (lines : list string) (options : dict) (correct_answer : option string)
    : option (dict * option string) :=
  match lines with
  | [] => Some (options, correct_answer)
  | line :: rest =>
      options' ← alt_option_line line options;
      correct_answer' ← alt_correct_line line correct_answer;
      alt_lines rest options' correct_answer'
  end.

(** One part of a block in the original format. *)
Definition orig_part (part : string) (st : dict * option string) : dict * option string :=
  let '(options, correct_answer) := st in
  if Py.startswith "A:" part then (dict_set "A" (Py.strip (Py.drop 2 part)) options, correct_answer)
  else if Py.startswith "B:" part then (dict_set "B" (Py.strip (Py.drop 2 part)) options, correct_answer)
  else if Py.startswith "C:" part then (dict_set "C" (Py.strip (Py.drop 2 part)) options, correct_answer)
  else if Py.startswith "D:" part then (dict_set "D" (Py.strip (Py.drop 2 part)) options, correct_answer)
  else if Py.startswith "CORRECT:" part then (options, Some (Py.strip (Py.drop 8 part)))
  else (options, correct_answer).

(** What the body of the [try] does with one block before it creates
    the records: it goes on with a question, its options and the key of
    the correct one, or hits a [continue], or raises into the [except]. *)
Inductive parsed : Type :=
| Accepted (question_text : string) (options : dict) (correct_answer : string)
| Skipped
| Raised.

Definition option_markers : list string := ["A:"; "B:"; "C:"; "D:"; "CORRECT:"].

Definition parse_block (block : string) : parsed :=
  let option_start := Py.find (String "010"%char "A:") block in
  if (option_start =? -1)%Z then
    (* alternative format *)
    let question_parts := Py.split (String "010"%char "") block in
    let question_text :=
      match question_parts with
      | first :: _ =>
          if negb (existsb (fun marker => Py.contains marker first) option_markers)
          then Some (Py.strip first) else None
      | [] => None
      end in
    match alt_lines question_parts [] None with
    | None => Raised
    | Some (options, correct_answer) =>
        if falsy question_text || negb (Nat.eqb (length options) 4) || falsy correct_answer
        then Skipped
        else if negb (dict_in (default "" correct_answer) options) then Skipped
        else Accepted (default "" question_text) options (default "" correct_answer)
    end
  else
    (* original format *)
    let question_text := Py.strip (Py.take (Z.to_nat option_start) block) in
    let options_text := Py.strip (Py.drop (Z.to_nat option_start) block) in
    let options_parts := Py.split (String "010"%char "") options_text in
    let '(options, correct_answer) :=
      fold_left (fun st part => orig_part part st) options_parts ([], None) in
    if negb (Nat.eqb (length options) 4) || falsy correct_answer
       || negb (dict_in (default "" correct_answer) options)
    then Skipped
    else Accepted question_text options (default "" correct_answer).

(** The [Question] created for an accepted block, with one [Answer] for
    each item of [options]. *)
Definition make_question (quiz_id difficulty_level : Z)
    (question_text : string) (options : dict) (correct_answer : string) : Question :=
  mkQuestion quiz_id question_text difficulty_level
    (map (fun '(option_key, option_text) =>
            mkAnswer option_text (String.eqb option_key correct_answer)) options).

(** The text cut into blocks: the preamble dropped, split at
    [QUESTION:] or else at the numbered headers, stripped, the empty
    blocks removed. *)
Definition question_blocks (raw_output : string) : list string :=
  let raw_output :=
    if Py.contains "QUESTION:" raw_output
    then "QUESTION:" +:+ default "" (item1 (Py.split_max1 "QUESTION:" raw_output))
    else raw_output in
  let question_blocks := Py.split "QUESTION:" raw_output in
  let question_blocks :=
    if Nat.leb (length question_blocks) 1
    then Py.re_split re_numbered_question raw_output
    else question_blocks in
  map Py.strip (filter (fun block => negb (Py.is_empty (Py.strip block)) = true) question_blocks).

(** The loop over the blocks; [generated_questions] grows until it
    holds [num_questions] questions. *)
Fixpoint process_blocks (quiz_id num_questions difficulty_level : Z)
    (blocks : list string) (generated_questions : list Question) : list Question :=
  match blocks with
  | [] => generated_questions
  | block :: rest =>
      match parse_block block with
      | Accepted question_text options correct_answer =>
          let db_question :=
            make_question quiz_id difficulty_level question_text options correct_answer in
          let generated_questions := (generated_questions ++ [db_question])%list in
          if (num_questions <=? Z.of_nat (length generated_questions))%Z
          then generated_questions
          else process_blocks quiz_id num_questions difficulty_level rest generated_questions
      | Skipped | Raised =>
          process_blocks quiz_id num_questions difficulty_level rest generated_questions
      end
  end.

(** The parse step: from the answer of the chain to the questions. *)
Definition parse_response (raw_output : string) (quiz_id num_questions difficulty_level : Z)
    : list Question :=
  process_blocks quiz_id num_questions difficulty_level (question_blocks raw_output) [].

Definition difficulty_descriptions (level : Z) : option string :=
  if (level =? 1)%Z then Some "very easy (basic recall of facts)"
  else if (level =? 2)%Z then Some "easy (simple understanding of concepts)"
  else if (level =? 3)%Z then Some "medium (application of concepts)"
  else if (level =? 4)%Z then Some "hard (analysis and evaluation)"
  else if (level =? 5)%Z then Some "very hard (synthesis and deep understanding)"
  else None.

(** The function after its two parameter checks.  [subject_id] is the
    [int] the route passes ([subject.id] in [admin/routes.py]). *)
Definition generate_after_validation (env : Env)
    (subject_id quiz_id num_questions difficulty_level : Z) : M (list Question) :=
  let* w := get in
  match _subject_dbs w !! IdInt subject_id with
  | None =>
      raise (ValueError ("No vector database found for subject ID: " +:+ str (IdInt subject_id)))
  | Some _ =>
      match subject_table env !! subject_id with
      | None => raise (ValueError ("Subject with ID " +:+ str (IdInt subject_id) +:+ " not found"))
      | Some subject =>
          match quiz_table env !! quiz_id with
          | None => raise (ValueError ("Quiz with ID " +:+ str (IdInt quiz_id) +:+ " not found"))
          | Some quiz =>
              let* llm := _initialize_llm env in
              let* vector_db := get_hierarchical_db env (Some (IdInt subject_id)) None in
              match vector_db with
              | None => raise AttributeError
              | Some retriever =>
                  match difficulty_descriptions difficulty_level with
                  | None => raise KeyError
                  | Some description =>
                      let raw_output :=
                        retrieval_chain env retriever
                          ("Generate quiz questions about " +:+ subject_name subject
                             +:+ ": " +:+ subject_description subject)
                          (subject_name subject) num_questions description in
                      let generated_questions :=
                        parse_response raw_output quiz_id num_questions difficulty_level in
                      (match generated_questions with
                       | [] => ret tt
                       | _ :: _ => modify (add_db_session generated_questions)
                       end) ;;
                      ret generated_questions
                  end
              end
          end
      end
  end.

Definition generate_quiz_questions (env : Env)
    (subject_id quiz_id num_questions difficulty_level : Z) : M (list Question) :=
  if (num_questions <=? 0)%Z || (20 <? num_questions)%Z then
    raise (ValueError "Number of questions must be between 1 and 20")
  else if (difficulty_level <? 1)%Z || (5 <? difficulty_level)%Z then
    raise (ValueError "Difficulty level must be between 1 and 5")
  else generate_after_validation env subject_id quiz_id num_questions difficulty_level.

(** ** Scopes of the hierarchy

    A (tier, scope key) pair other than Base, with the names the code
    gives it: its handle among the globals, its key in [_merged_dbs],
    its directory on disk, and the calls that build and resolve it.  A
    scope is told by the id that keys its handle in [_subject_dbs] or
    [_student_dbs]; its key in [_merged_dbs] and its directory are made
    from the text of that id. *)
Inductive Scope : Type :=
| Topic (subject_id : PyId)
| Individual (user_id : PyId).

Global Instance Scope_eq_dec : EqDecision Scope.
Proof. solve_decision. Defined.

Definition merged_key (S : Scope) : string :=
  match S with
  | Topic sid => "subject_" +:+ str sid
  | Individual uid => "student_" +:+ str uid
  end.

Definition handle (S : Scope) (w : World) : option FAISS :=
  match S with
  | Topic sid => _subject_dbs w !! sid
  | Individual uid => _student_dbs w !! uid
  end.

Definition scope_path (S : Scope) : string :=
  match S with
  | Topic sid => path_join SUBJECT_VECTOR_DIR (str sid)
  | Individual uid => path_join STUDENT_VECTOR_DIR (str uid)
  end.

Definition build (env : Env) (file_paths : list string) (S : Scope) : M nat :=
  match S with
  | Topic sid => create_vector_db env file_paths (Some sid) None false
  | Individual uid => create_vector_db env file_paths None (Some uid) false
  end.

Definition resolve (env : Env) (S : Scope) : M (option FAISS) :=
  match S with
  | Topic sid => get_hierarchical_db env (Some sid) None
  | Individual uid => get_hierarchical_db env None (Some uid)
  end.

Definition set_handle (S : Scope) (db : FAISS) (w : World) : World :=
  match S with
  | Topic sid => set_subject_dbs (<[sid := db]> (_subject_dbs w)) w
  | Individual uid => set_student_dbs (<[uid := db]> (_student_dbs w)) w
  end.

Definition tier_name (S : Scope) : string :=
  match S with
  | Topic _ => "Subject"
  | Individual _ => "Student"
  end.

Definition merged_line (S : Scope) : string :=
  match S with
  | Topic sid => "Created merged DB for subject " +:+ str sid
  | Individual uid => "Created merged DB for student " +:+ str uid
  end.

(** The embedding model can be initialised. *)
Definition configured (env : Env) : Prop := falsy (GOOGLE_API_KEY env) = false.

(** The chunks a build would index. *)
Definition chunks_of (env : Env) (file_paths : list string) : list Document :=
  text_splitter env (flat_map (pdf_loader env) file_paths).

(** The first step of [get_hierarchical_db]: Base is read from disk when
    it is not in memory. *)
Definition load_base (w : World) : World :=
  match _base_vector_db w, index_file BASE_VECTOR_DIR w with
  | None, Some db => set_base (Some db) w
  | _, _ => w
  end.

(** The store a merge of [h] with Base [b] produces. *)
Definition merge_of (h b : FAISS) : FAISS := mkFAISS (docstore h ++ docstore b)%list.

(** The world after [get_hierarchical_db] has merged scope [S]. *)
Definition after_merge (S : Scope) (h b : FAISS) (w : World) : World :=
  add_stdout (merged_line S)
    (set_merged_dbs (<[merged_key S := merge_of h b]> (_merged_dbs w))
       (add_embedded (length (docstore h ++ docstore b)%list) w)).

(** Unfolding of the monadic operations of the retrieval core. *)
Ltac run :=
  unfold create_vector_db, get_hierarchical_db, merge_vector_dbs, from_documents,
    _initialize_embeddings, makedirs, print, bind, ret, raise, get, modify, configured in *;
  simpl in *.

(** Splitting of a conjunction, and of nothing else. *)
Ltac conj := match goal with |- _ /\ _ => split end.

(** A tier of the hierarchy, and the call that builds it. *)
Inductive Tier : Type :=
| Base
| Scoped (S : Scope).

Global Instance Tier_eq_dec : EqDecision Tier.
Proof. solve_decision. Defined.

Definition tier_path (t : Tier) : string :=
  match t with
  | Base => BASE_VECTOR_DIR
  | Scoped sc => scope_path sc
  end.

Definition build_tier (env : Env) (file_paths : list string) (t : Tier) : M nat :=
  match t with
  | Base => create_vector_db env file_paths None None true
  | Scoped sc => build env file_paths sc
  end.

(** The tier a call of [create_vector_db] addresses, and the handle of
    a tier among the globals. *)
Definition tier_of (subject_id user_id : option PyId) (is_base : bool) : option Tier :=
  if is_base then Some Base
  else match subject_id with
       | Some sid => Some (Scoped (Topic sid))
       | None =>
           match user_id with
           | Some uid => Some (Scoped (Individual uid))
           | None => None
           end
       end.

Definition tier_handle (t : Tier) (w : World) : option FAISS :=
  match t with
  | Base => _base_vector_db w
  | Scoped sc => handle sc w
  end.

Definition set_tier_handle (t : Tier) (db : FAISS) (w : World) : World :=
  match t with
  | Base => set_base (Some db) w
  | Scoped sc => set_handle sc db w
  end.

(** The name of the tier in the line a fresh build prints. *)
Definition tier_label (t : Tier) : string :=
  match t with
  | Base => "Base"
  | Scoped sc => tier_name sc
  end.

(** What a fresh build of the tier does to [_merged_dbs]. *)
Definition invalidate (t : Tier) (w : World) : World :=
  match t with
  | Base => set_merged_dbs ∅ w
  | Scoped sc => set_merged_dbs (delete (merged_key sc) (_merged_dbs w)) w
  end.

(** The directory [create_vector_db] creates before it looks for the
    index: that of the subject or of the student. *)
Definition made (t : Tier) (w : World) : World :=
  match t with
  | Base => w
  | Scoped sc => add_directory (scope_path sc) w
  end.

(** What [create_vector_db] does once the tier it addresses is known:
    the directory is made, the embedding model is initialised, and the
    index on disk is loaded or, when there is none, the chunks of the
    files are embedded, registered and announced, and the merges that
    involve the tier are dropped. *)
Definition build_outcome (env : Env) (file_paths : list string) (t : Tier) (w : World)
    : result nat * World :=
  if falsy (GOOGLE_API_KEY env) then
    (Raise (ValueError "GOOGLE_API_KEY not found in environment variables"), made t w)
  else
    match index_file (tier_path t) w with
    | Some db => (Ok (chunk_count db), set_tier_handle t db (made t w))
    | None =>
        match chunks_of env file_paths with
        | [] => (Raise (ValueError "No document content found after splitting"), made t w)
        | d :: ds =>
            (Ok (length (d :: ds)),
             invalidate t
               (add_stdout (tier_label t +:+ " vector DB created with "
                              +:+ pretty (length (d :: ds)) +:+ " document chunks")
                  (set_tier_handle t (mkFAISS (d :: ds))
                     (add_embedded (length (d :: ds)) (made t w)))))
        end
    end.

(** The id is a Python [int]; the scope is named by one. *)
Definition is_int (id : PyId) : bool :=
  match id with
  | IdInt _ => true
  | IdStr _ => false
  end.

Definition int_scope (S : Scope) : Prop :=
  match S with
  | Topic id => is_int id = true
  | Individual id => is_int id = true
  end.

(** The next [get_hierarchical_db] for [S] answers from the cache with
    [m]: nothing is merged, embedded or printed. *)
Definition served (env : Env) (S : Scope) (m : FAISS) (w : World) : Prop :=
  fst (resolve env S w) = Ok (Some m) /\
  _merged_dbs (snd (resolve env S w)) = _merged_dbs w /\
  embedded_texts (snd (resolve env S w)) = embedded_texts w /\
  stdout (snd (resolve env S w)) = stdout w.

(** The next [get_hierarchical_db] for [S] computes the merge of the
    handle of [S] with Base, stores it and returns it. *)
Definition recomputed (env : Env) (S : Scope) (w : World) : Prop :=
  exists h b,
    handle S w = Some h /\ _base_vector_db (load_base w) = Some b /\
    resolve env S w = (Ok (Some (merge_of h b)), after_merge S h b (load_base w)).

Definition newline : string := String "010"%char "".

(** An answer of the chain with a preamble, a well-formed block, a
    block with three options, and a block whose labels are punctuated
    otherwise and whose correct answer is set in bold. *)
Definition demo_answer : string :=
  "Here are your questions." +:+ newline +:+
  "QUESTION: What is 2 + 2?" +:+ newline +:+
  "A: 3" +:+ newline +:+ "B: 4" +:+ newline +:+ "C: 5" +:+ newline +:+ "D: 6" +:+ newline +:+
  "CORRECT: B" +:+ newline +:+
  "QUESTION: What is 1 + 1?" +:+ newline +:+
  "A: 1" +:+ newline +:+ "B: 2" +:+ newline +:+ "C: 3" +:+ newline +:+
  "CORRECT: B" +:+ newline +:+
  "QUESTION: What is 3 - 3?" +:+ newline +:+
  "A) 0" +:+ newline +:+ "B. 1" +:+ newline +:+ " C 2" +:+ newline +:+ "D: 3" +:+ newline +:+
  "**CORRECT: A**".

Definition demo_question : Question :=
  mkQuestion 7 "What is 2 + 2?" 3
    [mkAnswer "3" false; mkAnswer "4" true; mkAnswer "5" false; mkAnswer "6" false].

(** A small environment and world used to exercise the statements. *)
Definition demo_env : Env :=
  mkEnv (Some "google-key") (Some "groq-key")
        (fun path => [mkDocument ("text of " +:+ path) path])
        (fun docs => docs)
        (<[1%Z := mkSubject "Algebra" "Groups and rings"]> ∅)
        (<[7%Z := mkQuiz "Week 1"]> ∅)
        (fun _ _ _ _ _ => demo_answer).

Definition demo_world : World :=
  snd (resolve demo_env (Individual (IdInt 5))
    (snd (resolve demo_env (Topic (IdInt 1))
      (snd (build demo_env ["notes.pdf"] (Individual (IdInt 5))
        (snd (build demo_env ["algebra.pdf"] (Topic (IdInt 1))
          (snd (create_vector_db demo_env ["handbook.pdf"] None None true
                  (initial_world ∅)))))))))).

Definition demo_disk_world : World :=
  initial_world
    (<[scope_path (Topic (IdInt 1)) :=
         mkFAISS [mkDocument "chunk one" "algebra.pdf";
                  mkDocument "chunk two" "algebra.pdf"]]> ∅).

(** The world before any merge: Base and subject 1 built from one file
    each. *)
Definition demo_unmerged_world : World :=
  snd (build demo_env ["algebra.pdf"] (Topic (IdInt 1))
    (snd (create_vector_db demo_env ["handbook.pdf"] None None true (initial_world ∅)))).

(** The scope a call of [get_hierarchical_db] resolves: the student
    when [user_id] has a handle, else the subject when [subject_id] has
    one. *)
Definition target (subject_id user_id : option PyId) (w : World) : option Scope :=
  match lookup_id user_id (_student_dbs w) with
  | Some (uid, _) => Some (Individual uid)
  | None =>
      match lookup_id subject_id (_subject_dbs w) with
      | Some (sid, _) => Some (Topic sid)
      | None => None
      end
  end.

(** ** Consistency of the merge cache

    Every entry of [_merged_dbs] sits under the key of a scope named by
    an [int] and is the merge of the present handle of that scope with
    the present Base, and a handle whose directory holds an index
    agrees with that index. *)
Definition consistent (w : World) : Prop :=
  (forall k m, _merged_dbs w !! k = Some m ->
     exists S h b,
       int_scope S /\ k = merged_key S /\
       handle S w = Some h /\ _base_vector_db w = Some b /\ m = merge_of h b)
  /\ (forall S h d, handle S w = Some h -> index_file (scope_path S) w = Some d -> h = d)
  /\ (forall b d, _base_vector_db w = Some b -> index_file BASE_VECTOR_DIR w = Some d -> b = d).

(** The calls the routes make on the module, and the worlds they lead
    to.  [create_vector_db] receives an [int] ([user.id], and
    [subject.id] through [initialize_from_existing_documents]) or the
    text of the form field [subject_id] (the upload route of
    [dashboard/routes.py]); [get_hierarchical_db] is reached through
    [get_answer_from_documents] and [generate_quiz_questions] only, with
    ids that are [int]s ([int(subject_id)] and [user.id] in
    [chat/routes.py], [subject.id] in [admin/routes.py]) or absent. *)
Inductive call : Type :=
| CreateVectorDb (file_paths : list string) (subject_id user_id : option PyId) (is_base : bool)
| GetHierarchicalDb (subject_id user_id : option Z)
| GenerateQuizQuestions (subject_id quiz_id num_questions difficulty_level : Z).

Definition run_call (env : Env) (w : World) (c : call) : World :=
  match c with
  | CreateVectorDb file_paths subject_id user_id is_base =>
      snd (create_vector_db env file_paths subject_id user_id is_base w)
  | GetHierarchicalDb subject_id user_id =>
      snd (get_hierarchical_db env (IdInt <$> subject_id) (IdInt <$> user_id) w)
  | GenerateQuizQuestions subject_id quiz_id num_questions difficulty_level =>
      snd (generate_quiz_questions env subject_id quiz_id num_questions difficulty_level w)
  end.

Definition run_calls (env : Env) (calls : list call) (w : World) : World :=
  fold_left (run_call env) calls w.

(** The world an upload to a subject in use meets: Base and subject 3
    were built from the documents of the database (the initialisation
    route passes [subject.id]) and a question on subject 3 was
    answered, so that the merge of subject 3 is cached. *)
Definition demo_upload_world : World :=
  run_calls demo_env
    [CreateVectorDb ["handbook.pdf"] None None true;
     CreateVectorDb ["algebra.pdf"] (Some (IdInt 3)) None false;
     GetHierarchicalDb (Some 3%Z) None] (initial_world ∅).

(** That world after the upload route of the dashboard has built
    subject 3 under the text of its id. *)
Definition demo_reupload_world : World :=
  snd (create_vector_db demo_env ["upload.pdf"] (Some (IdStr "3")) None false
         demo_upload_world).

(** ** Notions used to state the parser's properties *)

(** The option labels. *)
Definition label_keys : list string := ["A"; "B"; "C"; "D"].

(** The keys are distinct and are option labels. *)
Definition labels_ok (d : dict) : Prop :=
  List.NoDup (keys d) /\ forall k, In k (keys d) -> In k label_keys.

(** The question a block yields, if the loop goes on with it. *)
Definition accept (quiz_id difficulty_level : Z) (block : string) : option Question :=
  match parse_block block with
  | Accepted question_text options correct_answer =>
      Some (make_question quiz_id difficulty_level question_text options correct_answer)
  | Skipped | Raised => None
  end.

(** ** The other functions of the module and of its callers *)

(** [str(e)] for the exceptions met in the module; [KeyError] does not
    record its key, and the [AttributeError] is that of calling
    [as_retriever] on [None]. *)
Definition exn_str (e : exn) : string :=
  match e with
  | ValueError msg => msg
  | IndexError => "list index out of range"
  | KeyError => ""
  | AttributeError => "'NoneType' object has no attribute 'as_retriever'"
  end.

(** [try: body except Exception as e: handler(e)] *)
Definition try_except {A : Type} (body : M A) (handler : exn -> M A) : M A :=
  fun w =>
    match body w with
    | (Ok a, w') => (Ok a, w')
    | (Raise e, w') => handler e w'
    end.

(** The response of the question-answering chain: a dict that may hold
    an ["answer"] and a ["context"]. *)
Record Response : Type := mkResponse {
  response_answer : option string;
  response_context : option (list Document)
}.

(** One entry of the context list handed back to the chat routes. *)
Record ContextItem : Type := mkContextItem {
  index : nat;
  content : string
}.

(** [[{"index": i + 1, "content": doc.page_content} for i, doc in enumerate(docs)]],
    with [i] starting at [start]. *)
Fixpoint enumerate_context (start : nat) (docs : list Document) : list ContextItem :=
  match docs with
  | [] => []
  | doc :: rest => mkContextItem (start + 1) (page_content doc) :: enumerate_context (S start) rest
  end.

(** [get_answer_from_documents]; [invoke] is the retrieval chain built
    over the store, which answers or raises. *)
Definition get_answer_from_documents (env : Env)
    (invoke : FAISS -> string -> result Response)
    (question : string) (subject_id user_id : option PyId) : M (string * list ContextItem) :=
  try_except
    (let* vector_db := get_hierarchical_db env subject_id user_id in
     let* llm := _initialize_llm env in
     match vector_db with
     | None => raise AttributeError
     | Some retriever =>
         match invoke retriever question with
         | Raise e => raise e
         | Ok response =>
             let answer := default "No answer found" (response_answer response) in
             let context_list :=
               match response_context response with
               | Some (doc :: docs) => enumerate_context 0 (doc :: docs)
               | _ => []
               end in
             ret (answer, context_list)
         end
     end)
    (fun e =>
       match e with
       | ValueError msg => ret (msg, [])
       | _ => ret ("Error processing question: " +:+ exn_str e, [])
       end).

(** [KnowledgeDocument] of [app/models.py], with the columns the module
    reads. *)
Record KnowledgeDocument : Type := mkKnowledgeDocument {
  file_path : string;
  document_subject_id : option Z;
  is_public : bool;
  uploaded_by : option Z
}.

(** [x == y] for an optional integer column and an integer. *)
Definition column_eq (column : option Z) (value : Z) : bool :=
  match column with
  | Some v => (v =? value)%Z
  | None => false
  end.

(** The formatting of an optional integer and of a boolean in an
    f-string. *)
Definition str_option (id : option Z) : string :=
  match id with
  | Some i => str (IdInt i)
  | None => "None"
  end.

Definition str_bool (b : bool) : string := if b then "True" else "False".

(** The documents [initialize_from_existing_documents] keeps. *)
Definition filter_documents (documents : list KnowledgeDocument)
    (subject_id user_id : option Z) (is_base : bool) : list KnowledgeDocument :=
  if is_base then
    List.filter (fun doc => match document_subject_id doc with None => true | Some _ => false end
                            && Bool.eqb (is_public doc) true) documents
  else match subject_id with
       | Some sid => List.filter (fun doc => column_eq (document_subject_id doc) sid) documents
       | None =>
           match user_id with
           | Some uid => List.filter (fun doc => column_eq (uploaded_by doc) uid) documents
           | None => documents
           end
       end.

(** [initialize_from_existing_documents]; the routes pass [subject.id]
    and [student.id], which are [int]s. *)
Definition initialize_from_existing_documents (env : Env)
    (documents : list KnowledgeDocument) (subject_id user_id : option Z) (is_base : bool)
    : M nat :=
  let filtered_documents := filter_documents documents subject_id user_id is_base in
  let file_paths := map file_path filtered_documents in
  match file_paths with
  | [] =>
      print ("No documents found for initialization with params: subject_id="
               +:+ str_option subject_id +:+ ", user_id=" +:+ str_option user_id
               +:+ ", is_base=" +:+ str_bool is_base) ;;
      ret 0%nat
  | _ :: _ => create_vector_db env file_paths (IdInt <$> subject_id) (IdInt <$> user_id) is_base
  end.

(** The rows [get_vector_db_status] reads: the subjects with their
    [documents], and the users of role student with their
    [uploaded_documents]. *)
Record SubjectRow : Type := mkSubjectRow {
  subject_row_id : Z;
  subject_row_name : string;
  subject_row_code : string;
  subject_documents : list KnowledgeDocument
}.

Record StudentRow : Type := mkStudentRow {
  student_row_id : Z;
  student_row_name : string;
  student_row_email : string;
  uploaded_documents : list KnowledgeDocument
}.

(** The entries of the status dict; [status_label] is the code of a
    subject and the email of a student. *)
Record BaseStatus : Type := mkBaseStatus {
  base_status : string;
  base_document_count : Z;
  base_chunk_count : nat
}.

Record ScopeStatus : Type := mkScopeStatus {
  status_id : Z;
  status_name : string;
  status_label : string;
  status : string;
  document_count : nat;
  status_chunk_count : nat;
  merged_with_base : bool
}.

Record VectorDbStatus : Type := mkVectorDbStatus {
  status_base : BaseStatus;
  status_subjects : gmap Z ScopeStatus;
  status_students : gmap Z ScopeStatus;
  status_merged : nat
}.

(** [key in d] for a dict. *)
Definition has_key {K V : Type} `{Countable K} (key : K) (d : gmap K V) : bool :=
  match d !! key with
  | Some _ => true
  | None => false
  end.

Definition subject_status (w : World) (subject : SubjectRow) : ScopeStatus :=
  let merged := has_key ("subject_" +:+ str (IdInt (subject_row_id subject))) (_merged_dbs w) in
  match _subject_dbs w !! IdInt (subject_row_id subject) with
  | Some db =>
      mkScopeStatus (subject_row_id subject) (subject_row_name subject)
        (subject_row_code subject) "Ready" (length (subject_documents subject))
        (chunk_count db) merged
  | None =>
      mkScopeStatus (subject_row_id subject) (subject_row_name subject)
        (subject_row_code subject) "Not initialized" (length (subject_documents subject))
        0 merged
  end.

Definition student_status (w : World) (student : StudentRow) : ScopeStatus :=
  let merged := has_key ("student_" +:+ str (IdInt (student_row_id student))) (_merged_dbs w) in
  match _student_dbs w !! IdInt (student_row_id student) with
  | Some db =>
      mkScopeStatus (student_row_id student) (student_row_name student)
        (student_row_email student) "Ready" (length (uploaded_documents student))
        (chunk_count db) merged
  | None =>
      mkScopeStatus (student_row_id student) (student_row_name student)
        (student_row_email student) "Not initialized" 0 0 merged
  end.

(** [get_vector_db_status] over the rows of [Subject.query.all()] and of
    [User.query.filter_by(role="student").all()].  The [except]
    branches, entered only if taking the length of a store fails, are
    left out. *)
Definition get_vector_db_status (subjects : list SubjectRow) (students : list StudentRow)
    (w : World) : VectorDbStatus :=
  let base :=
    match _base_vector_db w with
    | Some db => mkBaseStatus "Ready" (-1) (chunk_count db)
    | None => mkBaseStatus "Not initialized" 0 0
    end in
  mkVectorDbStatus base
    (fold_left (fun d subject => <[subject_row_id subject := subject_status w subject]> d)
       subjects ∅)
    (fold_left (fun d student => <[student_row_id student := student_status w student]> d)
       students ∅)
    (size (_merged_dbs w)).

(** What the status says of a scope apart from the merge flag: the
    label, the number of documents and the chunk count. *)
Definition status_view (st : ScopeStatus) : string * nat * nat :=
  (status st, document_count st, status_chunk_count st).

(** [s.lower()] on one character: the capital letters of ASCII and of
    Latin-1 move up by 32. *)
Definition lower_char (c : ascii) : ascii :=
  let n := nat_of_ascii c in
  if (Nat.leb 65 n && Nat.leb n 90)
     || (Nat.leb 192 n && Nat.leb n 222 && negb (Nat.eqb n 215))
  then ascii_of_nat (n + 32) else c.

Fixpoint lower (s : string) : string :=
  match s with
  | EmptyString => EmptyString
  | String c s' => String (lower_char c) (lower s')
  end.

(** The text before and after the last occurrence of [sep], if any. *)
Fixpoint rpartition (sep s : string) : option (string * string) :=
  match s with
  | EmptyString => None
  | String c s' =>
      match rpartition sep s' with
      | Some (before, after) => Some (String c before, after)
      | None =>
          if Py.startswith sep s then Some (EmptyString, Py.drop (Py.len sep) s) else None
      end
  end.

(** [s.rsplit(sep, 1)] for a non-empty separator. *)
Definition rsplit_max1 (sep s : string) : list string :=
  match rpartition sep s with
  | Some (before, after) => [before; after]
  | None => [s]
  end.

(** [allowed_file] of the upload routes. *)
Definition allowed_file (filename : string) : result bool :=
  if Py.contains "." filename then
    match item1 (rsplit_max1 "." filename) with
    | Some extension => Ok (String.eqb (lower extension) "pdf")
    | None => Raise IndexError
    end
  else Ok false.

(** The language model is initialised or can be. *)
Definition llm_ready (env : Env) (w : World) : Prop :=
  is_Some (_llm w) \/ falsy (GROQ_API_KEY env) = false.

(** ["\n".join(lines)] *)
Fixpoint join_lines (lines : list string) : string :=
  match lines with
  | [] => EmptyString
  | [line] => line
  | line :: rest => line +:+ newline +:+ join_lines rest
  end.

(** A block in the format the prompt asks for: the question, the four
    options and the letter of the correct one, each on its line. *)
Definition well_formed_block (question a b c d letter : string) : string :=
  join_lines [question; "A: " +:+ a; "B: " +:+ b; "C: " +:+ c; "D: " +:+ d;
              "CORRECT: " +:+ letter].

(** The text has no newline. *)
Definition one_line (s : string) : Prop := Py.char_in "010"%char s = false.

(** The last character of a text is outside the class [p]. *)
Fixpoint last_outside (p : ascii -> bool) (s : string) : bool :=
  match s with
  | EmptyString => false
  | String c EmptyString => negb (p c)
  | String _ s' => last_outside p s'
  end.

(** * Properties *)

(** ** The string operations on examples *)

Example split_example :
  Py.split "QUESTION:" "introQUESTION: aQUESTION:" = ["intro"; " a"; ""].
Proof. reflexivity. Qed.

Example split_max1_example :
  Py.split_max1 ":" "A: one: two" = ["A"; " one: two"].
Proof. reflexivity. Qed.

Example strip_example : Py.strip (" a b " +:+ newline) = "a b".
Proof. reflexivity. Qed.

Example strip_chars_example : Py.strip_chars "* " "B**" = "B".
Proof. reflexivity. Qed.

Example find_example : Py.find "A:" "xyA:A:" = 2%Z /\ Py.find "A:" "xyz" = (-1)%Z.
Proof. split; reflexivity. Qed.

Example re_split_example :
  Py.re_split re_numbered_question "a**Question 12**b Question 3c Question x"
    = ["a"; "b "; "c Question x"].
Proof. reflexivity. Qed.

Example re_match_example :
  matches (re_label_punct "A") "A) yes" = true
  /\ matches (re_label_punct "A") "xA) no" = false
  /\ matches (re_label_space "B") "B yes" = true
  /\ Py.re_split_max1 (re_label_punct "A") "A) yes" = [""; " yes"].
Proof. repeat split; reflexivity. Qed.

Example re_search_example :
  (Py.re_search re_letter "The answer is C" ≫= Py.group1) = Some "C"
  /\ (Py.re_search re_bold_correct "so **CORRECT:  D** it is" ≫= Py.group1) = Some "D".
Proof. split; reflexivity. Qed.

Example str_example :
  str (IdInt 12) = "12" /\ str (IdInt (-3)) = "-3" /\ str (IdStr "12") = "12".
Proof. repeat split; reflexivity. Qed.

Example path_join_example :
  path_join SUBJECT_VECTOR_DIR (str (IdInt 3)) = "static/vector_store/subjects/3"
  /\ path_join SUBJECT_VECTOR_DIR (str (IdStr "3")) = "static/vector_store/subjects/3"
  /\ path_join SUBJECT_VECTOR_DIR "/srv/data" = "/srv/data".
Proof. repeat split; reflexivity. Qed.

(** ** Facts about the retrieval core *)

(** The keys of [_merged_dbs] tell apart the scopes named by an [int].
    They do not tell an [int] from its text: [3] and ["3"] share a key. *)
Lemma merged_key_inj (S S' : Scope) :
  int_scope S -> int_scope S' -> merged_key S = merged_key S' -> S = S'.
Proof.
  destruct S as [[a|a]|[a|a]], S' as [[b|b]|[b|b]]; simpl; intros HS HS' H;
    try discriminate HS; try discriminate HS'; try discriminate H.
  - do 2 f_equal. apply pretty_Z_inj. now inversion H.
  - do 2 f_equal. apply pretty_Z_inj. now inversion H.
Qed.

Lemma merged_key_int_str :
  merged_key (Topic (IdStr "3")) = merged_key (Topic (IdInt 3))
  /\ scope_path (Topic (IdStr "3")) = scope_path (Topic (IdInt 3))
  /\ Topic (IdStr "3") <> Topic (IdInt 3).
Proof. repeat split; try reflexivity. discriminate. Qed.

(** [create_vector_db] raises when no tier is named, and else does
    what [build_outcome] says for the tier it addresses. *)
Lemma create_vector_db_eq (env : Env) fp sid uid b (w : World) :
  create_vector_db env fp sid uid b w =
    match tier_of sid uid b with
    | None => (Raise (ValueError "Must specify either is_base=True, subject_id, or user_id"), w)
    | Some t => build_outcome env fp t w
    end.
Proof.
  unfold create_vector_db, tier_of, save_path_of, build_outcome, chunks_of, index_file.
  unfold makedirs, from_documents, _initialize_embeddings, print, bind, ret, raise, get, modify.
  destruct b; [|destruct sid as [sid|]; [|destruct uid as [uid|]; [|reflexivity]]];
    cbn [tier_path scope_path made vector_store add_directory fst snd];
    (destruct (vector_store w !! _) as [db|];
     destruct (falsy (GOOGLE_API_KEY env)); try reflexivity;
     destruct (text_splitter env (flat_map (pdf_loader env) fp)) as [|d ds]; reflexivity).
Qed.

Lemma build_tier_eq (env : Env) fp (t : Tier) (w : World) :
  build_tier env fp t w = build_outcome env fp t w.
Proof.
  destruct t as [|[sid|uid]]; unfold build_tier, build; now rewrite create_vector_db_eq.
Qed.

Lemma made_fields (t : Tier) (w : World) :
  _base_vector_db (made t w) = _base_vector_db w /\
  _subject_dbs (made t w) = _subject_dbs w /\
  _student_dbs (made t w) = _student_dbs w /\
  _merged_dbs (made t w) = _merged_dbs w /\
  _llm (made t w) = _llm w /\
  vector_store (made t w) = vector_store w /\
  embedded_texts (made t w) = embedded_texts w /\
  stdout (made t w) = stdout w /\
  db_session (made t w) = db_session w.
Proof. destruct t; simpl; auto 10. Qed.

Lemma handle_ext (S : Scope) (w w' : World) :
  _subject_dbs w' = _subject_dbs w -> _student_dbs w' = _student_dbs w ->
  handle S w' = handle S w.
Proof. intros H1 H2. destruct S; simpl; congruence. Qed.

Lemma handle_set_handle_eq (S : Scope) (db : FAISS) (w : World) :
  handle S (set_handle S db w) = Some db.
Proof. destruct S; simpl; apply lookup_insert_eq. Qed.

Lemma handle_set_handle_ne (S S' : Scope) (db : FAISS) (w : World) :
  S' <> S -> handle S' (set_handle S db w) = handle S' w.
Proof.
  intros Hne. destruct S as [a|a], S' as [b|b]; simpl; try reflexivity;
    apply lookup_insert_ne; congruence.
Qed.

Lemma set_handle_fields (S : Scope) (db : FAISS) (w : World) :
  _base_vector_db (set_handle S db w) = _base_vector_db w /\
  _merged_dbs (set_handle S db w) = _merged_dbs w /\
  vector_store (set_handle S db w) = vector_store w /\
  embedded_texts (set_handle S db w) = embedded_texts w /\
  stdout (set_handle S db w) = stdout w.
Proof. destruct S; simpl; auto. Qed.

(** A call that returns went through the initialisation of the
    embedding model. *)
Lemma create_ok_configured (env : Env) fp sid uid b (w w' : World) (n : nat) :
  create_vector_db env fp sid uid b w = (Ok n, w') -> configured env.
Proof.
  rewrite create_vector_db_eq. unfold build_outcome, configured.
  destruct (tier_of sid uid b); [|discriminate].
  destruct (falsy (GOOGLE_API_KEY env)); [discriminate|reflexivity].
Qed.

(** [get_hierarchical_db] on a scope that has a handle. *)
Lemma resolve_handle (env : Env) (S : Scope) (w : World) (h : FAISS) :
  configured env ->
  handle S w = Some h ->
  resolve env S w =
    match _merged_dbs w !! merged_key S, _base_vector_db (load_base w) with
    | Some m, _ => (Ok (Some m), load_base w)
    | None, Some b => (Ok (Some (merge_of h b)), after_merge S h b (load_base w))
    | None, None => (Ok (Some h), load_base w)
    end.
Proof.
  intros Hc Hh. unfold resolve, load_base, after_merge, merge_of.
  destruct S as [sid|uid]; run; rewrite Hc; simpl in *;
    destruct (_base_vector_db w) eqn:Eb; simpl;
    try destruct (index_file BASE_VECTOR_DIR w) eqn:Ed; simpl;
    rewrite ?Hh; simpl;
    destruct (_merged_dbs w !! _) eqn:Em; simpl; rewrite ?Eb; simpl;
    rewrite ?Em, ?lookup_insert_eq; reflexivity.
Qed.

Lemma load_base_fields (w : World) :
  _merged_dbs (load_base w) = _merged_dbs w /\
  _subject_dbs (load_base w) = _subject_dbs w /\
  _student_dbs (load_base w) = _student_dbs w /\
  embedded_texts (load_base w) = embedded_texts w /\
  stdout (load_base w) = stdout w /\
  vector_store (load_base w) = vector_store w.
Proof.
  unfold load_base.
  destruct (_base_vector_db w), (index_file BASE_VECTOR_DIR w); simpl; auto 10.
Qed.

Lemma load_base_some (w : World) (b : FAISS) :
  _base_vector_db w = Some b -> load_base w = w.
Proof. intros H. unfold load_base. now rewrite H. Qed.

(** Invalidation by a fresh build.  When [create_vector_db] builds a
    tier that has no index on disk and returns: for Base the whole of
    [_merged_dbs] is emptied, and the next [get_hierarchical_db] of
    every scope that has a handle computes its merge again; for a
    subject or a student the entry under that scope's key is removed,
    the entry of every scope with another key stays and is what the
    next [get_hierarchical_db] of that scope returns without merging,
    while the rebuilt scope is merged again as soon as Base is there. *)
Lemma fresh_build_invalidates
    (env : Env) (file_paths : list string) (t : Tier) (n : nat) (w w' : World) :
  build_tier env file_paths t w = (Ok n, w') ->
  index_file (tier_path t) w = None ->
  _merged_dbs w' =
    match t with
    | Base => ∅
    | Scoped sc => delete (merged_key sc) (_merged_dbs w)
    end
  /\ (t = Base -> forall S h, handle S w' = Some h -> recomputed env S w')
  /\ (forall S, t = Scoped S ->
        (forall b, _base_vector_db (load_base w') = Some b -> recomputed env S w')
        /\ (forall S' m h, merged_key S' <> merged_key S ->
              _merged_dbs w !! merged_key S' = Some m ->
              handle S' w = Some h ->
              _merged_dbs w' !! merged_key S' = Some m /\
              handle S' w' = Some h /\
              served env S' m w')).
Proof.
  intros Hrun Hdisk.
  assert (Hc : configured env).
  { destruct t as [|[sid|uid]]; simpl in Hrun; eapply create_ok_configured; exact Hrun. }
  rewrite build_tier_eq in Hrun. unfold build_outcome in Hrun.
  rewrite Hc, Hdisk in Hrun.
  destruct (chunks_of env file_paths) as [|d ds]; [discriminate Hrun|].
  inversion Hrun; subst; clear Hrun.
  destruct t as [|S].
  - split; [reflexivity|]. split; [|intros S HS; discriminate HS].
    intros _ S h Hh. exists h, (mkFAISS (d :: ds)).
    split; [exact Hh|]. split; [reflexivity|].
    rewrite (resolve_handle env S _ h Hc Hh). simpl. rewrite lookup_empty. reflexivity.
  - split; [destruct S; reflexivity|]. split; [intros HB; discriminate HB|].
    intros S0 HS0. inversion HS0; subst S0; clear HS0.
    set (w1 := invalidate (Scoped S) _) in *.
    assert (Hw1 : forall S', handle S' w1
                    = handle S' (set_handle S (mkFAISS (d :: ds)) w)).
    { intros S'. subst w1. destruct S, S'; reflexivity. }
    split.
    + intros b Hb.
      assert (Hh : handle S w1 = Some (mkFAISS (d :: ds)))
        by (rewrite Hw1; apply handle_set_handle_eq).
      exists (mkFAISS (d :: ds)), b.
      split; [exact Hh|]. split; [exact Hb|].
      rewrite (resolve_handle env S _ _ Hc Hh), Hb.
      replace (_merged_dbs w1 !! merged_key S) with (@None FAISS); [reflexivity|].
      subst w1. simpl. symmetry. apply lookup_delete_eq.
    + intros S' m h Hne Hm Hh.
      assert (Hm1 : _merged_dbs w1 !! merged_key S' = Some m).
      { subst w1. simpl. rewrite lookup_delete_ne by congruence.
        destruct S; exact Hm. }
      assert (Hh1 : handle S' w1 = Some h).
      { rewrite Hw1, handle_set_handle_ne; [exact Hh|]. intros ->. now apply Hne. }
      split; [exact Hm1|]. split; [exact Hh1|].
      unfold served. rewrite (resolve_handle env S' _ h Hc Hh1), Hm1. simpl.
      destruct (load_base_fields w1) as (H1 & _ & _ & H4 & H5 & _). auto.
Qed.

(** No call of [create_vector_db] writes an index file. *)
Lemma create_vector_db_keeps_disk (env : Env) fp sid uid b (w : World) :
  vector_store (snd (create_vector_db env fp sid uid b w)) = vector_store w.
Proof.
  rewrite create_vector_db_eq. unfold build_outcome.
  destruct (tier_of sid uid b) as [t|]; [|reflexivity].
  destruct (falsy (GOOGLE_API_KEY env)); [apply made_fields|].
  destruct (index_file (tier_path t) w).
  - destruct t as [|[a|a]]; reflexivity.
  - destruct (chunks_of env fp); [apply made_fields|].
    destruct t as [|[a|a]]; reflexivity.
Qed.

(** [merge_vector_dbs] as [get_hierarchical_db] calls it: the store over
    the documents of both arguments, each of them embedded again. *)
Lemma merge_vector_dbs_run (env : Env) (db1 db2 : FAISS) (embeddings : Embeddings) (w : World) :
  merge_vector_dbs env db1 db2 (Some embeddings) w =
    (Ok (merge_of db1 db2), add_embedded (chunk_count db1 + chunk_count db2) w).
Proof.
  run. unfold merge_of, chunk_count. now rewrite length_app.
Qed.

(** C3, as stated, fails: resolving subject 1 for the first time merges
    two one-chunk stores and hands two texts to the embedding model. *)
Lemma C3_merge_embeds_counterexample :
  embedded_texts (snd (get_hierarchical_db demo_env (Some (IdInt 1)) None demo_unmerged_world))
    = (embedded_texts demo_unmerged_world + 2)%nat
  /\ ~ (forall (env : Env) (db1 db2 : FAISS) (e : Embeddings) (w : World),
          embedded_texts (snd (merge_vector_dbs env db1 db2 (Some e) w)) = embedded_texts w).
Proof.
  split; [vm_compute; reflexivity|].
  intros H.
  specialize (H demo_env (mkFAISS [mkDocument "a" "f"]) (mkFAISS []) 
                (GoogleGenerativeAIEmbeddings "m" "k") (initial_world ∅)).
  vm_compute in H. discriminate H.
Qed.

(** C3, amended — a merge embeds its sources again.  When
    [get_hierarchical_db] merges a scope with Base (the scope has a
    handle, no cached entry, and Base is there), it returns the store
    over the documents of the scope followed by those of Base, and the
    embedding model receives every one of those documents once more. *)
Theorem C3_merge_embeds_sources (env : Env) (S : Scope) (w : World) (h b : FAISS) :
  configured env ->
  handle S w = Some h ->
  _merged_dbs w !! merged_key S = None ->
  _base_vector_db (load_base w) = Some b ->
  fst (resolve env S w) = Ok (Some (merge_of h b))
  /\ docstore (merge_of h b) = (docstore h ++ docstore b)%list
  /\ embedded_texts (snd (resolve env S w))
       = (embedded_texts w + (chunk_count h + chunk_count b))%nat.
Proof.
  intros Hc Hh Hm Hb.
  rewrite (resolve_handle env S w h Hc Hh), Hm, Hb. simpl.
  split; [reflexivity|]. split; [reflexivity|].
  destruct (load_base_fields w) as (_ & _ & _ & He & _).
  rewrite He. unfold chunk_count. now rewrite length_app.
Qed.

Lemma C3_merge_embeds_sources_witness :
  configured demo_env
  /\ handle (Topic (IdInt 1)) demo_unmerged_world
       = Some (mkFAISS [mkDocument "text of algebra.pdf" "algebra.pdf"])
  /\ embedded_texts (snd (resolve demo_env (Topic (IdInt 1)) demo_unmerged_world))
       = (embedded_texts demo_unmerged_world + (1 + 1))%nat.
Proof.
  assert (Hc : configured demo_env) by reflexivity.
  assert (Hh : handle (Topic (IdInt 1)) demo_unmerged_world
               = Some (mkFAISS [mkDocument "text of algebra.pdf" "algebra.pdf"])).
  { vm_compute. reflexivity. }
  split; [exact Hc|]. split; [exact Hh|].
  refine (proj2 (proj2 (C3_merge_embeds_sources demo_env (Topic (IdInt 1)) demo_unmerged_world
    (mkFAISS [mkDocument "text of algebra.pdf" "algebra.pdf"])
    (mkFAISS [mkDocument "text of handbook.pdf" "handbook.pdf"]) Hc Hh _ _))).
  - vm_compute. reflexivity.
  - vm_compute. reflexivity.
Defined.

(** [get_hierarchical_db] by cases on its arguments. *)
Lemma get_hierarchical_db_cases (env : Env) (subject_id user_id : option PyId) (w : World) :
  configured env ->
  get_hierarchical_db env subject_id user_id w =
    match subject_id, user_id with
    | None, None => (Ok (_base_vector_db (load_base w)), load_base w)
    | _, _ =>
        match target subject_id user_id w with
        | Some sc => resolve env sc w
        | None =>
            match _base_vector_db (load_base w) with
            | Some b => (Ok (Some b), load_base w)
            | None =>
                (Raise (ValueError "No vector database available for this context"),
                 load_base w)
            end
        end
    end.
Proof.
  intros Hc.
  unfold target, resolve, load_base, lookup_id. run. rewrite Hc. simpl.
  destruct subject_id as [sid|], user_id as [uid|]; simpl;
    destruct (_base_vector_db w) eqn:Eb; simpl;
    try destruct (index_file BASE_VECTOR_DIR w) eqn:Ed; simpl;
    try destruct (_student_dbs w !! uid) eqn:Eu; simpl;
    try destruct (_subject_dbs w !! sid) eqn:Es; simpl;
    rewrite ?Eb, ?Ed, ?Eu, ?Es; simpl;
    rewrite ?Eb, ?Ed, ?Eu, ?Es; simpl;
    try destruct (_merged_dbs w !! _) eqn:Em; simpl;
    rewrite ?Eb, ?Ed, ?Em, ?Eu, ?Es; simpl; rewrite ?Em, ?lookup_insert_eq; reflexivity.
Qed.

(** A call whose ids are [int]s resolves a scope named by an [int]. *)
Lemma target_int (subject_id user_id : option Z) (w : World) (S : Scope) :
  target (IdInt <$> subject_id) (IdInt <$> user_id) w = Some S -> int_scope S.
Proof.
  unfold target, lookup_id. intros H.
  destruct user_id as [u|]; simpl in H;
    [destruct (_student_dbs w !! IdInt u); [inversion H; reflexivity|]|];
    (destruct subject_id as [s|]; simpl in H; [|discriminate H];
     destruct (_subject_dbs w !! IdInt s); [inversion H; reflexivity|discriminate H]).
Qed.

Lemma consistent_ext (w w' : World) :
  _base_vector_db w' = _base_vector_db w ->
  _subject_dbs w' = _subject_dbs w ->
  _student_dbs w' = _student_dbs w ->
  _merged_dbs w' = _merged_dbs w ->
  vector_store w' = vector_store w ->
  consistent w -> consistent w'.
Proof.
  intros Hb Hs Ht Hm Hv (H1 & H2 & H3).
  unfold consistent, index_file. rewrite Hb, Hm, Hv.
  repeat split.
  - intros k m Hl. destruct (H1 k m Hl) as (S & h & b & Hi & Hk & Hh & Hbb & Hmm).
    exists S, h, b. rewrite (handle_ext S w w' Hs Ht). auto.
  - intros S h d. rewrite (handle_ext S w w' Hs Ht). apply H2.
  - exact H3.
Qed.

Lemma consistent_initial (files : gmap string FAISS) : consistent (initial_world files).
Proof.
  repeat split.
  - intros k m H. simpl in H. rewrite lookup_empty in H. discriminate H.
  - intros S h d H. destruct S; simpl in H; rewrite lookup_empty in H; discriminate H.
  - intros b d H. discriminate H.
Qed.

Lemma consistent_set_base_loaded (w : World) (db : FAISS) :
  consistent w -> index_file BASE_VECTOR_DIR w = Some db ->
  consistent (set_base (Some db) w).
Proof.
  intros (H1 & H2 & H3) Hd. repeat split.
  - intros k m Hm. simpl in Hm.
    destruct (H1 k m Hm) as (S & h & b & Hi & Hk & Hh & Hb & ->).
    exists S, h, db. split; [exact Hi|]. split; [exact Hk|].
    split; [rewrite <- Hh; now apply handle_ext|].
    split; [reflexivity|]. now rewrite (H3 b db Hb Hd).
  - intros S h d Hh Hi. apply (H2 S h d); [|exact Hi].
    rewrite <- Hh. symmetry. now apply handle_ext.
  - intros b d Hb Hi. simpl in Hb. unfold index_file in *. simpl in Hi. congruence.
Qed.

Lemma consistent_set_handle_loaded (S : Scope) (w : World) (db : FAISS) :
  consistent w -> index_file (scope_path S) w = Some db ->
  consistent (set_handle S db w).
Proof.
  intros (H1 & H2 & H3) Hd.
  destruct (set_handle_fields S db w) as (Fb & Fm & Fv & _).
  unfold consistent, index_file in *. rewrite Fb, Fm, Fv. repeat split.
  - intros k m Hm. destruct (H1 k m Hm) as (S' & h & b & Hi & Hk & Hh & Hb & ->).
    exists S', h, b. split; [exact Hi|]. split; [exact Hk|]. split; [|auto].
    destruct (decide (S' = S)) as [->|Hne].
    + rewrite handle_set_handle_eq. f_equal. symmetry. now apply (H2 S h db).
    + now rewrite handle_set_handle_ne.
  - intros S' h d Hh Hi.
    destruct (decide (S' = S)) as [->|Hne].
    + rewrite handle_set_handle_eq in Hh. congruence.
    + rewrite handle_set_handle_ne in Hh by exact Hne. now apply (H2 S' h d).
  - exact H3.
Qed.

Lemma consistent_fresh_base (w : World) (db : FAISS) :
  consistent w -> index_file BASE_VECTOR_DIR w = None ->
  consistent (set_merged_dbs ∅ (set_base (Some db) w)).
Proof.
  intros (H1 & H2 & H3) Hd. repeat split.
  - intros k m Hm. simpl in Hm. rewrite lookup_empty in Hm. discriminate Hm.
  - intros S h d Hh Hi. apply (H2 S h d); [|exact Hi].
    rewrite <- Hh. symmetry. now apply handle_ext.
  - intros b d _ Hi. unfold index_file in *. simpl in Hi. congruence.
Qed.

(** A fresh build of a scope, whatever names it: the entry under its
    key goes, so that every entry left belongs to another scope, whose
    handle the build has not touched. *)
Lemma consistent_fresh_scope (S : Scope) (w : World) (db : FAISS) :
  consistent w -> index_file (scope_path S) w = None ->
  consistent (set_merged_dbs (delete (merged_key S) (_merged_dbs w)) (set_handle S db w)).
Proof.
  intros (H1 & H2 & H3) Hd.
  destruct (set_handle_fields S db w) as (Fb & Fm & Fv & _).
  repeat split.
  - intros k m Hm. simpl in Hm.
    apply lookup_delete_Some in Hm as [Hk Hm].
    destruct (H1 k m Hm) as (S' & h & b & Hi & -> & Hh & Hb & ->).
    assert (Hne : S' <> S) by (intros ->; now apply Hk).
    exists S', h, b. split; [exact Hi|]. split; [reflexivity|].
    split; [|split; [|reflexivity]].
    + rewrite <- Hh. rewrite <- (handle_set_handle_ne S S' db w Hne).
      now apply handle_ext.
    + simpl. now rewrite Fb.
  - intros S' h d Hh Hi.
    assert (Hh' : handle S' (set_handle S db w) = Some h)
      by (rewrite <- Hh; symmetry; now apply handle_ext).
    assert (Hi' : index_file (scope_path S') w = Some d)
      by (unfold index_file in *; simpl in Hi; now rewrite Fv in Hi).
    destruct (decide (S' = S)) as [->|Hne]; [congruence|].
    rewrite handle_set_handle_ne in Hh' by exact Hne. now apply (H2 S' h d).
  - intros b d Hb Hi. simpl in Hb. rewrite Fb in Hb.
    unfold index_file in *. simpl in Hi. rewrite Fv in Hi. now apply (H3 b d).
Qed.

Lemma consistent_load_base (w : World) : consistent w -> consistent (load_base w).
Proof.
  intros H. unfold load_base.
  destruct (_base_vector_db w) eqn:Eb; [exact H|].
  destruct (index_file BASE_VECTOR_DIR w) eqn:Ed; [|exact H].
  now apply consistent_set_base_loaded.
Qed.

(** A merge stored by [get_hierarchical_db] for a scope named by an
    [int]: the entry it overwrites, if any, is that of the same scope. *)
Lemma consistent_after_merge (S : Scope) (h b : FAISS) (w : World) :
  int_scope S ->
  consistent w -> handle S w = Some h -> _base_vector_db w = Some b ->
  consistent (after_merge S h b w).
Proof.
  intros HS (H1 & H2 & H3) Hh Hb. repeat split.
  - intros k m Hm. simpl in Hm.
    destruct (decide (merged_key S = k)) as [<-|Hne].
    + rewrite lookup_insert_eq in Hm. inversion Hm; subst m.
      exists S, h, b. split; [exact HS|]. split; [reflexivity|].
      split; [|auto]. rewrite <- Hh. now apply handle_ext.
    + rewrite lookup_insert_ne in Hm by exact Hne.
      destruct (H1 k m Hm) as (S' & h' & b' & Hi & Hk & Hh' & Hb' & ->).
      exists S', h', b'. split; [exact Hi|]. split; [exact Hk|].
      split; [|auto]. rewrite <- Hh'. now apply handle_ext.
  - intros S' h' d Hh' Hi. apply (H2 S' h' d); [|exact Hi].
    rewrite <- Hh'. symmetry. now apply handle_ext.
  - exact H3.
Qed.

Lemma get_hierarchical_db_unconfigured (env : Env) sid uid (w : World) :
  ~ configured env ->
  get_hierarchical_db env sid uid w =
    (Raise (ValueError "GOOGLE_API_KEY not found in environment variables"), w).
Proof.
  intros Hc. run. destruct (falsy (GOOGLE_API_KEY env)); [reflexivity|].
  exfalso. now apply Hc.
Qed.

Lemma configured_dec (env : Env) : {configured env} + {~ configured env}.
Proof.
  unfold configured. destruct (falsy (GOOGLE_API_KEY env)); [right|left]; congruence.
Qed.

Lemma consistent_resolve (env : Env) (S : Scope) (w : World) (h : FAISS) :
  int_scope S ->
  configured env -> handle S w = Some h -> consistent w ->
  consistent (snd (resolve env S w)).
Proof.
  intros HS Hc Hh Hw. rewrite (resolve_handle env S w h Hc Hh).
  pose proof (consistent_load_base w Hw) as Hl.
  destruct (_merged_dbs w !! merged_key S); [exact Hl|].
  destruct (_base_vector_db (load_base w)) eqn:Eb; [|exact Hl].
  simpl. apply consistent_after_merge; [exact HS|exact Hl| |exact Eb].
  rewrite <- Hh. apply handle_ext; apply (load_base_fields w).
Qed.

Lemma target_handle (subject_id user_id : option PyId) (w : World) (sc : Scope) :
  target subject_id user_id w = Some sc -> exists h, handle sc w = Some h.
Proof.
  unfold target, lookup_id. intros H.
  destruct user_id as [u|]; [destruct (_student_dbs w !! u) as [h|] eqn:Eu|].
  - inversion H; subst. now exists h.
  - destruct subject_id as [s|]; [|discriminate H].
    destruct (_subject_dbs w !! s) as [h|] eqn:Es; [|discriminate H].
    inversion H; subst. now exists h.
  - destruct subject_id as [s|]; [|discriminate H].
    destruct (_subject_dbs w !! s) as [h|] eqn:Es; [|discriminate H].
    inversion H; subst. now exists h.
Qed.

(** The calls of [get_hierarchical_db] the routes lead to keep the
    cache consistent. *)
Lemma consistent_get_hierarchical_db (env : Env) (sid uid : option Z) (w : World) :
  consistent w ->
  consistent (snd (get_hierarchical_db env (IdInt <$> sid) (IdInt <$> uid) w)).
Proof.
  intros Hw. destruct (configured_dec env) as [Hc|Hc].
  2: { now rewrite (get_hierarchical_db_unconfigured env _ _ w Hc). }
  rewrite (get_hierarchical_db_cases env _ _ w Hc).
  pose proof (consistent_load_base w Hw) as Hl.
  assert (Ht : match target (IdInt <$> sid) (IdInt <$> uid) w with
               | Some sc => consistent (snd (resolve env sc w))
               | None => True
               end).
  { destruct (target (IdInt <$> sid) (IdInt <$> uid) w) as [sc|] eqn:Et; [|exact I].
    destruct (target_handle _ _ _ _ Et) as [h Hh].
    apply (consistent_resolve env sc w h); auto. eapply target_int. exact Et. }
  destruct sid, uid; try exact Hl;
    (destruct (target _ _ w); [exact Ht|];
     destruct (_base_vector_db (load_base w)); exact Hl).
Qed.

Lemma consistent_build_outcome (env : Env) fp (t : Tier) (w : World) :
  consistent w -> consistent (snd (build_outcome env fp t w)).
Proof.
  intros Hw. unfold build_outcome.
  assert (Hmade : consistent (made t w)).
  { eapply consistent_ext; [| | | | |exact Hw]; apply made_fields. }
  destruct (falsy (GOOGLE_API_KEY env)); [exact Hmade|].
  destruct (index_file (tier_path t) w) as [db|] eqn:Ed.
  - destruct t as [|S]; simpl.
    + now apply consistent_set_base_loaded.
    + eapply consistent_ext;
        [| | | | |apply (consistent_set_handle_loaded S w db Hw Ed)];
        destruct S; reflexivity.
  - destruct (chunks_of env fp) as [|d ds]; [exact Hmade|].
    destruct t as [|S]; simpl.
    + eapply consistent_ext;
        [| | | | | apply (consistent_fresh_base w (mkFAISS (d :: ds)) Hw Ed)]; reflexivity.
    + eapply consistent_ext;
        [| | | | | apply (consistent_fresh_scope S w (mkFAISS (d :: ds)) Hw Ed)];
        destruct S; reflexivity.
Qed.

(** Every call of [create_vector_db] keeps the cache consistent,
    whether its id is an [int] or a text. *)
Lemma consistent_create_vector_db (env : Env) fp sid uid b (w : World) :
  consistent w -> consistent (snd (create_vector_db env fp sid uid b w)).
Proof.
  intros Hw. rewrite create_vector_db_eq.
  destruct (tier_of sid uid b); [now apply consistent_build_outcome|exact Hw].
Qed.

Lemma consistent_generate_quiz_questions (env : Env) sid qid n d (w : World) :
  consistent w -> consistent (snd (generate_quiz_questions env sid qid n d w)).
Proof.
  intros Hw. unfold generate_quiz_questions.
  destruct (_ || _); [exact Hw|]. destruct (_ || _); [exact Hw|].
  unfold generate_after_validation. unfold bind at 1, get at 1.
  destruct (_subject_dbs w !! IdInt sid); [|exact Hw].
  destruct (subject_table env !! sid); [|exact Hw].
  destruct (quiz_table env !! qid); [|exact Hw].
  unfold bind at 1.
  assert (Hllm : consistent (snd (_initialize_llm env w))).
  { unfold _initialize_llm, bind, get, modify, ret, raise.
    destruct (_llm w); [exact Hw|]. destruct (falsy (GROQ_API_KEY env)); [exact Hw|].
    simpl. eapply consistent_ext; [| | | | | exact Hw]; reflexivity. }
  destruct (_initialize_llm env w) as [[llm|e] w1]; simpl in Hllm; [|exact Hllm].
  unfold bind at 1.
  pose proof (consistent_get_hierarchical_db env (Some sid) None w1 Hllm) as Hget.
  change (IdInt <$> Some sid) with (Some (IdInt sid)) in Hget.
  change (IdInt <$> @None Z) with (@None PyId) in Hget.
  destruct (get_hierarchical_db env (Some (IdInt sid)) None w1) as [[vdb|e] w2]; simpl in Hget;
    [|exact Hget].
  destruct vdb as [retriever|]; [|exact Hget].
  destruct (difficulty_descriptions d); [|exact Hget].
  unfold bind, modify, ret.
  destruct (parse_response _ qid n d); simpl; [exact Hget|].
  eapply consistent_ext; [| | | | | exact Hget]; reflexivity.
Qed.

Lemma consistent_run_calls (env : Env) (calls : list call) (w : World) :
  consistent w -> consistent (run_calls env calls w).
Proof.
  revert w. induction calls as [|c calls IH]; intros w Hw; [exact Hw|].
  simpl. apply IH. destruct c; simpl.
  - now apply consistent_create_vector_db.
  - now apply consistent_get_hierarchical_db.
  - now apply consistent_generate_quiz_questions.
Qed.

(** C4 — merge consistency.  In any world reached from the initial
    globals by the calls the routes make — [create_vector_db] with an
    [int] or with the text of the upload form, [get_hierarchical_db]
    and [generate_quiz_questions] with [int]s — when
    [get_hierarchical_db] resolves scope [S] and returns the entry of
    [S] in [_merged_dbs], that store holds the documents of the handle
    of [S] followed by those of Base as they are at that moment: a
    chunk is in it exactly when it is in one of the two. *)
Theorem C4_merge_consistency
    (env : Env) (files : gmap string FAISS) (calls : list call)
    (subject_id user_id : option Z) (w w' : World) (S : Scope) (m : FAISS) :
  w = run_calls env calls (initial_world files) ->
  target (IdInt <$> subject_id) (IdInt <$> user_id) w = Some S ->
  get_hierarchical_db env (IdInt <$> subject_id) (IdInt <$> user_id) w = (Ok (Some m), w') ->
  _merged_dbs w' !! merged_key S = Some m ->
  exists h b,
    handle S w' = Some h /\ _base_vector_db w' = Some b /\
    docstore m = (docstore h ++ docstore b)%list /\
    forall d, d ∈ docstore m <-> d ∈ docstore b \/ d ∈ docstore h.
Proof.
  intros Hw Ht Hrun Hm.
  assert (Hc : consistent w').
  { replace w' with (snd (get_hierarchical_db env (IdInt <$> subject_id) (IdInt <$> user_id) w))
      by now rewrite Hrun.
    apply consistent_get_hierarchical_db. subst w.
    apply consistent_run_calls, consistent_initial. }
  destruct Hc as (H1 & _ & _).
  destruct (H1 _ m Hm) as (S' & h & b & Hi & Hk & Hh & Hb & ->).
  assert (E : S' = S).
  { apply merged_key_inj; [exact Hi|eapply target_int; exact Ht|now symmetry]. }
  subst S'.
  exists h, b. repeat split; try assumption.
  - simpl. rewrite elem_of_app. tauto.
  - simpl. rewrite elem_of_app. tauto.
Qed.

(** C4 exercised on subject 3 after Base was built, the subject was
    built under its [int] id and resolved, and the upload form then
    built under the text of that id: the next resolve merges again, the
    handle of the subject with Base. *)
Lemma C4_merge_consistency_witness :
  demo_reupload_world
    = run_calls demo_env
        [CreateVectorDb ["handbook.pdf"] None None true;
         CreateVectorDb ["algebra.pdf"] (Some (IdInt 3)) None false;
         GetHierarchicalDb (Some 3%Z) None;
         CreateVectorDb ["upload.pdf"] (Some (IdStr "3")) None false] (initial_world ∅)
  /\ target (Some (IdInt 3)) None demo_reupload_world = Some (Topic (IdInt 3))
  /\ exists h b,
       handle (Topic (IdInt 3))
         (snd (get_hierarchical_db demo_env (Some (IdInt 3)) None demo_reupload_world)) = Some h
       /\ _base_vector_db
            (snd (get_hierarchical_db demo_env (Some (IdInt 3)) None demo_reupload_world))
          = Some b
       /\ docstore (merge_of (mkFAISS [mkDocument "text of algebra.pdf" "algebra.pdf"])
                             (mkFAISS [mkDocument "text of handbook.pdf" "handbook.pdf"]))
            = (docstore h ++ docstore b)%list
       /\ forall d,
            d ∈ docstore (merge_of (mkFAISS [mkDocument "text of algebra.pdf" "algebra.pdf"])
                                   (mkFAISS [mkDocument "text of handbook.pdf" "handbook.pdf"]))
            <-> d ∈ docstore b \/ d ∈ docstore h.
Proof.
  assert (H1 : demo_reupload_world
    = run_calls demo_env
        [CreateVectorDb ["handbook.pdf"] None None true;
         CreateVectorDb ["algebra.pdf"] (Some (IdInt 3)) None false;
         GetHierarchicalDb (Some 3%Z) None;
         CreateVectorDb ["upload.pdf"] (Some (IdStr "3")) None false] (initial_world ∅))
    by reflexivity.
  assert (H2 : target (Some (IdInt 3)) None demo_reupload_world = Some (Topic (IdInt 3))).
  { vm_compute. reflexivity. }
  split; [exact H1|]. split; [exact H2|].
  refine (C4_merge_consistency demo_env ∅ _ (Some 3%Z) None demo_reupload_world
            (snd (get_hierarchical_db demo_env (Some (IdInt 3)) None demo_reupload_world))
            (Topic (IdInt 3)) _ H1 H2 _ _).
  - vm_compute. reflexivity.
  - vm_compute. reflexivity.
Defined.

(** [get_hierarchical_db] without a subject and without a user returns
    whatever [_base_vector_db] holds, [None] included. *)
Lemma no_context_returns_base (env : Env) (w : World) :
  configured env ->
  get_hierarchical_db env None None w = (Ok (_base_vector_db (load_base w)), load_base w).
Proof. intros Hc. now rewrite (get_hierarchical_db_cases env None None w Hc). Qed.

(** A scope without a handle falls back to Base. *)
Lemma fallback_to_base (env : Env) subject_id user_id (w : World) (b : FAISS) :
  configured env ->
  subject_id <> None \/ user_id <> None ->
  target subject_id user_id w = None ->
  _base_vector_db (load_base w) = Some b ->
  get_hierarchical_db env subject_id user_id w = (Ok (Some b), load_base w).
Proof.
  intros Hc Hid Ht Hb. rewrite (get_hierarchical_db_cases env _ _ w Hc), Ht, Hb.
  destruct subject_id, user_id; reflexivity.
Qed.

(** A scope without a handle, and no Base: the call raises. *)
Lemma no_index_raises (env : Env) subject_id user_id (w : World) :
  configured env ->
  subject_id <> None \/ user_id <> None ->
  target subject_id user_id w = None ->
  _base_vector_db (load_base w) = None ->
  get_hierarchical_db env subject_id user_id w =
    (Raise (ValueError "No vector database available for this context"), load_base w).
Proof.
  intros Hc Hid Ht Hb. rewrite (get_hierarchical_db_cases env _ _ w Hc), Ht, Hb.
  destruct subject_id, user_id; try reflexivity. destruct Hid; congruence.
Qed.

(** C1 — invalidation by a fresh build, at the input where the code
    departs from it.  Subject 3 was built and resolved under its [int]
    id, and its merge with Base is cached and served.  The upload route
    of the dashboard then calls [create_vector_db] with the text of the
    form field, ["3"].  The build returns and registers its store under
    the key ["3"], another key of [_subject_dbs]: the handle under the
    key 3 and Base are as before.  Yet the entry of the scope of key 3
    is gone from [_merged_dbs], and the next [get_hierarchical_db] of
    subject 3 embeds the two chunks again to return the store it had
    cached, in which the upload does not appear. *)
Theorem C1_text_id_build_discards_int_entry :
  let w := demo_upload_world in
  let upload := create_vector_db demo_env ["upload.pdf"] (Some (IdStr "3")) None false w in
  let cached := merge_of (mkFAISS [mkDocument "text of algebra.pdf" "algebra.pdf"])
                         (mkFAISS [mkDocument "text of handbook.pdf" "handbook.pdf"]) in
  Topic (IdStr "3") <> Topic (IdInt 3)
  /\ _merged_dbs w !! merged_key (Topic (IdInt 3)) = Some cached
  /\ served demo_env (Topic (IdInt 3)) cached w
  /\ index_file (scope_path (Topic (IdStr "3"))) w = None
  /\ fst upload = Ok 1%nat
  /\ handle (Topic (IdStr "3")) (snd upload)
     = Some (mkFAISS [mkDocument "text of upload.pdf" "upload.pdf"])
  /\ handle (Topic (IdInt 3)) (snd upload) = handle (Topic (IdInt 3)) w
  /\ _base_vector_db (snd upload) = _base_vector_db w
  /\ _merged_dbs (snd upload) !! merged_key (Topic (IdInt 3)) = None
  /\ fst (resolve demo_env (Topic (IdInt 3)) (snd upload)) = Ok (Some cached)
  /\ embedded_texts (snd (resolve demo_env (Topic (IdInt 3)) (snd upload)))
     = (embedded_texts (snd upload) + 2)%nat.
Proof.
  cbv zeta. split; [discriminate|].
  unfold served. repeat conj; vm_compute; reflexivity.
Qed.

(** C2 — idempotence, at the input where the code departs from it.
    Subject 1 is built from one file and then built again by the same
    call.  No index was written in between, so the second call is a
    fresh build again: it returns the same count, but hands the chunk
    to the embedding model a second time and prints its line again.
    Made when the merge of subject 1 is cached, the repeated call also
    removes that merge. *)
Theorem C2_repeated_build_embeds_again :
  let first :=
    create_vector_db demo_env ["algebra.pdf"] (Some (IdInt 1)) None false (initial_world ∅) in
  let second :=
    create_vector_db demo_env ["algebra.pdf"] (Some (IdInt 1)) None false (snd first) in
  let again :=
    create_vector_db demo_env ["algebra.pdf"] (Some (IdInt 1)) None false demo_world in
  fst first = Ok 1%nat
  /\ fst second = Ok 1%nat
  /\ index_file (scope_path (Topic (IdInt 1))) (snd first) = None
  /\ embedded_texts (snd first) = 1%nat
  /\ embedded_texts (snd second) = 2%nat
  /\ stdout (snd second)
     = ["Subject vector DB created with 1 document chunks";
        "Subject vector DB created with 1 document chunks"]
  /\ handle (Topic (IdInt 1)) demo_world
     = Some (mkFAISS [mkDocument "text of algebra.pdf" "algebra.pdf"])
  /\ is_Some (_merged_dbs demo_world !! merged_key (Topic (IdInt 1)))
  /\ fst again = Ok 1%nat
  /\ embedded_texts (snd again) = (embedded_texts demo_world + 1)%nat
  /\ _merged_dbs (snd again) !! merged_key (Topic (IdInt 1)) = None.
Proof.
  cbv zeta. repeat conj; try (vm_compute; reflexivity).
  vm_compute. eauto.
Qed.

(** C5 — the fallback, at the input where the code departs from it:
    with no subject, no user and no Base ever built, [get_hierarchical_db]
    does not raise but returns [None]; the same world with a subject
    asked for raises. *)
Theorem C5_no_context_without_base_returns_none :
  get_hierarchical_db demo_env None None (initial_world ∅) = (Ok None, initial_world ∅)
  /\ get_hierarchical_db demo_env (Some (IdInt 1)) None (initial_world ∅)
     = (Raise (ValueError "No vector database available for this context"), initial_world ∅).
Proof. split; vm_compute; reflexivity. Qed.

(** C6 — persistence of a fresh build, at the input where the code
    departs from it: the first build of Base returns its chunk count
    and registers the handle, yet no index file exists afterwards, so
    the same call made again builds and embeds a second time. *)
Theorem C6_fresh_build_writes_no_index :
  let first := create_vector_db demo_env ["handbook.pdf"] None None true (initial_world ∅) in
  let second := create_vector_db demo_env ["handbook.pdf"] None None true (snd first) in
  fst first = Ok 1%nat
  /\ _base_vector_db (snd first)
     = Some (mkFAISS [mkDocument "text of handbook.pdf" "handbook.pdf"])
  /\ vector_store (snd first) = ∅
  /\ index_file BASE_VECTOR_DIR (snd first) = None
  /\ embedded_texts (snd first) = 1%nat
  /\ embedded_texts (snd second) = 2%nat.
Proof. repeat split; vm_compute; reflexivity. Qed.

(** C9 — the student tier comes first.  When [user_id] has a student
    store, a call given a subject as well does exactly what the call
    without the subject does, and (the embedding model being available)
    returns the cached student merge if there is one, else the merge of
    the student store with Base if Base is there, else the student
    store itself. *)
Theorem C9_student_takes_precedence
    (env : Env) (subject_id user_id : PyId) (w : World) (h : FAISS) :
  _student_dbs w !! user_id = Some h ->
  get_hierarchical_db env (Some subject_id) (Some user_id) w
    = get_hierarchical_db env None (Some user_id) w
  /\ (configured env ->
      fst (get_hierarchical_db env (Some subject_id) (Some user_id) w) =
        Ok (Some match _merged_dbs w !! ("student_" +:+ str user_id) with
                 | Some m => m
                 | None =>
                     match _base_vector_db (load_base w) with
                     | Some b => merge_of h b
                     | None => h
                     end
                 end)).
Proof.
  intros Hh.
  assert (Ht : forall sid, target sid (Some user_id) w = Some (Individual user_id)).
  { intros sid. unfold target, lookup_id. now rewrite Hh. }
  destruct (configured_dec env) as [Hc|Hc].
  - rewrite !(get_hierarchical_db_cases env _ _ w Hc), !Ht.
    split; [reflexivity|]. intros _.
    rewrite (resolve_handle env (Individual user_id) w h Hc Hh). simpl.
    destruct (_merged_dbs w !! _); [reflexivity|].
    destruct (_base_vector_db (load_base w)); reflexivity.
  - rewrite !(get_hierarchical_db_unconfigured env _ _ w Hc). split; [reflexivity|].
    intros Hc'. now destruct Hc.
Qed.

(** C9 exercised in the demonstration world, where subject 1 and
    student 5 both have a store and a cached merge. *)
Lemma C9_student_takes_precedence_witness :
  _student_dbs demo_world !! IdInt 5
    = Some (mkFAISS [mkDocument "text of notes.pdf" "notes.pdf"])
  /\ get_hierarchical_db demo_env (Some (IdInt 1)) (Some (IdInt 5)) demo_world
     = get_hierarchical_db demo_env None (Some (IdInt 5)) demo_world.
Proof.
  assert (H : _student_dbs demo_world !! IdInt 5
              = Some (mkFAISS [mkDocument "text of notes.pdf" "notes.pdf"])).
  { vm_compute. reflexivity. }
  split; [exact H|].
  exact (proj1 (C9_student_takes_precedence demo_env (IdInt 1) (IdInt 5) demo_world _ H)).
Defined.

(** ** Facts about the string operations *)

Lemma lstrip_head (p : ascii -> bool) (s : string) (c : ascii) (r : string) :
  Py.lstrip_with p s = String c r -> p c = false.
Proof.
  induction s as [|a s IH]; simpl; [discriminate|].
  destruct (p a) eqn:E; [exact IH|]. intros H. inversion H; subst. exact E.
Qed.

Lemma rstrip_head (p : ascii -> bool) (c : ascii) (s : string) :
  p c = false -> Py.rstrip_with p (String c s) = String c (Py.rstrip_with p s).
Proof. intros H. simpl. rewrite H. now rewrite andb_false_r. Qed.

Lemma strip_head (p : ascii -> bool) (s : string) (c : ascii) (r : string) :
  Py.strip_with p s = String c r -> p c = false.
Proof.
  unfold Py.strip_with. destruct (Py.lstrip_with p s) as [|a t] eqn:E; [discriminate|].
  pose proof (lstrip_head p s a t E) as Ha.
  rewrite (rstrip_head p a t Ha). intros H. inversion H; subst. exact Ha.
Qed.

Lemma strip_keeps_head (p : ascii -> bool) (c : ascii) (s : string) :
  p c = false -> Py.is_empty (Py.strip_with p (String c s)) = false.
Proof.
  intros H. unfold Py.strip_with. simpl Py.lstrip_with. rewrite H.
  now rewrite (rstrip_head p c s H).
Qed.

Lemma find_from_range (sub s : string) (i : Z) :
  Py.find_from sub s i = (-1)%Z \/ (i <= Py.find_from sub s i)%Z.
Proof.
  revert i. induction s as [|a s IH]; intros i; simpl.
  - destruct (Py.startswith sub ""); [right; lia | now left].
  - destruct (Py.startswith sub (String a s)); [right; lia|].
    destruct (IH (i + 1)%Z) as [H|H]; [now left | right; lia].
Qed.

(** A needle that starts with a newline is not found at the head of a
    stripped text. *)
Lemma find_after_head (sub : string) (c : ascii) (r : string) :
  Py.isspace c = false ->
  Py.find (String "010"%char sub) (String c r) = Py.find_from (String "010"%char sub) r 1.
Proof.
  intros Hc. unfold Py.find. cbn [Py.find_from Py.startswith].
  assert (Hnl : Ascii.eqb "010"%char c = false).
  { destruct (Ascii.eqb "010"%char c) eqn:E; [|reflexivity].
    apply Ascii.eqb_eq in E. subst c. discriminate Hc. }
  rewrite Hnl. reflexivity.
Qed.

(** ** Facts about the [options] dict *)

Lemma keys_dict_set (k v : string) (d : dict) (k' : string) :
  In k' (keys (dict_set k v d)) <-> k' = k \/ In k' (keys d).
Proof.
  induction d as [|[k0 v0] d IH]; simpl.
  - intuition.
  - destruct (String.eqb k0 k) eqn:E; simpl.
    + apply String.eqb_eq in E. subst k0. unfold keys. intuition.
    + unfold keys in *. rewrite IH. intuition.
Qed.

Lemma labels_ok_dict_set (k v : string) (d : dict) :
  In k label_keys -> labels_ok d -> labels_ok (dict_set k v d).
Proof.
  intros Hk [Hn Hl]. split.
  - clear Hl. induction d as [|[k0 v0] d IH]; simpl.
    + constructor; [intros []|constructor].
    + simpl in Hn. apply List.NoDup_cons_iff in Hn as [Hnot Hn].
      destruct (String.eqb k0 k) eqn:E; simpl.
      * constructor; assumption.
      * constructor; [|now apply IH].
        intros Hin. apply keys_dict_set in Hin as [->|Hin]; [|now apply Hnot].
        rewrite String.eqb_refl in E. discriminate E.
  - intros k' Hin. apply keys_dict_set in Hin as [->|Hin]; [exact Hk | now apply Hl].
Qed.

Lemma labels_ok_nil : labels_ok [].
Proof. split; [constructor | intros k []]. Qed.

Lemma dict_in_keys (k : string) (d : dict) : dict_in k d = true <-> In k (keys d).
Proof.
  unfold dict_in. rewrite existsb_exists. split.
  - intros (x & Hx & E). apply String.eqb_eq in E. now subst.
  - intros H. exists k. split; [exact H | apply String.eqb_refl].
Qed.

(** The answers made from a dict with distinct keys hold exactly one
    correct answer when the correct key is among them. *)
Lemma one_correct_answer (quiz_id difficulty_level : Z) (question_text correct : string) (d : dict) :
  List.NoDup (keys d) -> In correct (keys d) ->
  length (List.filter is_correct
            (answers (make_question quiz_id difficulty_level question_text d correct))) = 1%nat.
Proof.
  simpl. induction d as [|[k v] d IH]; simpl; [intros _ []|].
  intros Hn Hin. apply List.NoDup_cons_iff in Hn as [Hnot Hn].
  destruct (String.eqb k correct) eqn:E; simpl.
  - apply String.eqb_eq in E. subst k. f_equal.
    assert (Hz : forall d', ~ In correct (keys d') ->
      List.filter is_correct
        (map (fun '(option_key, option_text) =>
                mkAnswer option_text (String.eqb option_key correct)) d') = []).
    { clear. induction d' as [|[k v] d' IH]; simpl; [reflexivity|]. intros H.
      destruct (String.eqb k correct) eqn:E; simpl.
      - apply String.eqb_eq in E. subst. exfalso. apply H. now left.
      - apply IH. intros Hin. apply H. now right. }
    now rewrite Hz.
  - destruct Hin as [->|Hin]; [rewrite String.eqb_refl in E; discriminate E|].
    now apply IH.
Qed.

(** ** Facts about the parsing loop *)

Lemma alt_option_line_ok (line : string) (d d' : dict) :
  alt_option_line line d = Some d' -> labels_ok d -> labels_ok d'.
Proof.
  unfold alt_option_line. intros H Hd.
  assert (HA : In "A" label_keys) by (simpl; auto).
  assert (HB : In "B" label_keys) by (simpl; auto).
  assert (HC : In "C" label_keys) by (simpl; auto).
  assert (HD : In "D" label_keys) by (simpl; auto).
  repeat match type of H with
         | (if ?b then _ else _) = _ => destruct b
         end;
    try (destruct (item1 _); simpl in H; [|discriminate H]);
    inversion H; subst; try assumption; now apply labels_ok_dict_set.
Qed.

Lemma alt_lines_ok (lines : list string) (d d' : dict) (c c' : option string) :
  alt_lines lines d c = Some (d', c') -> labels_ok d -> labels_ok d'.
Proof.
  revert d c. induction lines as [|line lines IH]; intros d c H Hd; simpl in H.
  - inversion H; now subst.
  - destruct (alt_option_line line d) as [d1|] eqn:E1; simpl in H; [|discriminate H].
    destruct (alt_correct_line line c) as [c1|]; simpl in H; [|discriminate H].
    eapply IH; [exact H|]. eapply alt_option_line_ok; eassumption.
Qed.

Lemma orig_part_ok (part : string) (st : dict * option string) :
  labels_ok (fst st) -> labels_ok (fst (orig_part part st)).
Proof.
  destruct st as [d c]. unfold orig_part. intros Hd.
  repeat match goal with
         | |- context [if ?b then _ else _] => destruct b
         end; simpl; try assumption; apply labels_ok_dict_set; simpl; auto.
Qed.

Lemma orig_parts_ok (parts : list string) (st : dict * option string) :
  labels_ok (fst st) ->
  labels_ok (fst (fold_left (fun st part => orig_part part st) parts st)).
Proof.
  revert st. induction parts as [|part parts IH]; intros st H; simpl; [exact H|].
  apply IH. now apply orig_part_ok.
Qed.

Lemma falsy_false (s : option string) :
  falsy s = false -> default "" s <> "".
Proof. destruct s as [[|a s]|]; simpl; congruence. Qed.

(** The validation gate: what holds of a block the loop goes on with. *)
Lemma parse_block_accepted (block : string) (c : ascii) (r : string)
    (question_text : string) (options : dict) (correct_answer : string) :
  block = String c r -> Py.isspace c = false ->
  parse_block block = Accepted question_text options correct_answer ->
  question_text <> "" /\ length options = 4%nat /\ labels_ok options
  /\ In correct_answer (keys options).
Proof.
  intros Hblock Hc. unfold parse_block.
  destruct (Py.find (String "010"%char "A:") block =? -1)%Z eqn:Ef.
  - (* alternative format *)
    set (qt := match Py.split _ block with [] => None | _ => _ end).
    destruct (alt_lines _ [] None) as [[o ca]|] eqn:Ea; [|discriminate].
    destruct (falsy qt) eqn:Eq; simpl; [discriminate|].
    destruct (Nat.eqb (length o) 4) eqn:El; simpl; [|discriminate].
    destruct (falsy ca) eqn:Eca; simpl; [discriminate|].
    destruct (dict_in (default "" ca) o) eqn:Ed; simpl; [|discriminate].
    intros H. inversion H; subst.
    split; [now apply falsy_false|].
    split; [now apply Nat.eqb_eq|].
    split; [eapply alt_lines_ok; [exact Ea | apply labels_ok_nil]|].
    now apply dict_in_keys.
  - (* original format *)
    destruct (fold_left _ _ _) as [o ca] eqn:Efold.
    destruct (Nat.eqb (length o) 4) eqn:El; simpl; [|discriminate].
    destruct (falsy ca) eqn:Eca; simpl; [discriminate|].
    destruct (dict_in (default "" ca) o) eqn:Ed; simpl; [|discriminate].
    intros H. inversion H; subst question_text options correct_answer.
    split; [|split; [now apply Nat.eqb_eq|split; [|now apply dict_in_keys]]].
    + apply Z.eqb_neq in Ef. subst block.
      rewrite (find_after_head "A:" c r Hc) in *.
      destruct (find_from_range (String "010"%char "A:") r 1) as [Hr|Hr]; [congruence|].
      destruct (Z.to_nat (Py.find_from (String "010"%char "A:") r 1)) as [|k] eqn:Ek; [lia|].
      cbn [Py.take]. intros Hempty.
      pose proof (strip_keeps_head Py.isspace c (Py.take k r) Hc) as Hk.
      unfold Py.strip in Hempty. rewrite Hempty in Hk. discriminate Hk.
    + pose proof (orig_parts_ok
        (Py.split (String "010"%char "")
           (Py.strip (Py.drop (Z.to_nat (Py.find (String "010"%char "A:") block)) block)))
        ([], None) labels_ok_nil) as Hok.
      rewrite Efold in Hok. exact Hok.
Qed.

(** Every block of [question_blocks] starts with a character that is not
    white space. *)
Lemma question_blocks_head (raw_output block : string) :
  In block (question_blocks raw_output) ->
  exists c r, block = String c r /\ Py.isspace c = false.
Proof.
  unfold question_blocks. intros H.
  apply in_map_iff in H as (b0 & <- & Hin).
  apply list_elem_of_In, list_elem_of_filter in Hin as [Hne _].
  destruct (Py.strip b0) as [|c r] eqn:E; [discriminate Hne|].
  exists c, r. split; [reflexivity|]. exact (strip_head _ _ _ _ E).
Qed.

(** The loop keeps the questions of the accepted blocks, in order, and
    stops when it holds [num_questions] of them; a loop entered with
    nothing yet takes at least one. *)
Lemma process_blocks_take (quiz_id num_questions difficulty_level : Z)
    (blocks : list string) (generated : list Question) :
  (length generated < Z.to_nat (Z.max 1 num_questions))%nat ->
  process_blocks quiz_id num_questions difficulty_level blocks generated =
    (generated ++
     firstn (Z.to_nat (Z.max 1 num_questions) - length generated)
       (omap (accept quiz_id difficulty_level) blocks))%list.
Proof.
  revert generated. induction blocks as [|block blocks IH]; intros generated Hlen; simpl.
  - rewrite firstn_nil. now rewrite app_nil_r.
  - unfold accept at 1.
    destruct (parse_block block) as [qt o ca| |]; simpl; try (now apply IH).
    rewrite length_app. simpl.
    destruct (Z.to_nat (Z.max 1 num_questions) - length generated)%nat as [|k] eqn:Ek; [lia|].
    simpl. destruct (num_questions <=? Z.of_nat (length generated + 1))%Z eqn:En.
    + apply Z.leb_le in En. replace k with 0%nat by lia. reflexivity.
    + apply Z.leb_gt in En. rewrite IH by (rewrite length_app; simpl; lia).
      rewrite length_app. simpl. rewrite <- app_assoc. simpl.
      do 3 f_equal. lia.
Qed.

Lemma parse_response_take (raw_output : string) (quiz_id num_questions difficulty_level : Z) :
  parse_response raw_output quiz_id num_questions difficulty_level =
    firstn (Z.to_nat (Z.max 1 num_questions))
      (omap (accept quiz_id difficulty_level) (question_blocks raw_output)).
Proof.
  unfold parse_response. rewrite process_blocks_take by (simpl; lia).
  simpl. now rewrite Nat.sub_0_r.
Qed.

Example demo_answer_parsed :
  parse_response demo_answer 7 5 3 =
    [demo_question;
     mkQuestion 7 "What is 3 - 3?" 3
       [mkAnswer "0" true; mkAnswer "1" false; mkAnswer "2" false; mkAnswer "3" false]].
Proof. vm_compute. reflexivity. Qed.

Example generate_quiz_questions_example :
  fst (generate_quiz_questions demo_env 1 7 5 3 demo_world)
    = Ok (parse_response demo_answer 7 5 3)
  /\ db_session (snd (generate_quiz_questions demo_env 1 7 5 3 demo_world))
    = parse_response demo_answer 7 5 3
  /\ fst (generate_quiz_questions demo_env 2 7 5 3 demo_world)
    = Raise (ValueError "No vector database found for subject ID: 2").
Proof. repeat split; vm_compute; reflexivity. Qed.

(** C7 — the result guarantee of the parse step.  Every question the
    parse step returns has a non-empty text and four answers, made from
    four options with distinct labels among A, B, C and D; the declared
    correct label is one of those four labels, and exactly one of the
    four answers is marked correct. *)
Theorem C7_parsed_questions_well_formed
    (raw_output : string) (quiz_id num_questions difficulty_level : Z) (q : Question) :
  In q (parse_response raw_output quiz_id num_questions difficulty_level) ->
  text q <> ""
  /\ length (answers q) = 4%nat
  /\ (exists (options : dict) (correct_answer : string),
        answers q = map (fun '(option_key, option_text) =>
                           mkAnswer option_text (String.eqb option_key correct_answer)) options
        /\ length (keys options) = 4%nat
        /\ List.NoDup (keys options)
        /\ (forall k, In k (keys options) -> In k label_keys)
        /\ In correct_answer (keys options))
  /\ length (List.filter is_correct (answers q)) = 1%nat.
Proof.
  rewrite parse_response_take. intros Hq.
  apply list_elem_of_In in Hq. apply subseteq_take in Hq.
  apply list_elem_of_omap in Hq as (block & Hblock & Hacc).
  apply list_elem_of_In, question_blocks_head in Hblock as (c & r & Hb & Hc).
  unfold accept in Hacc.
  destruct (parse_block block) as [qt o ca| |] eqn:Ep; try discriminate Hacc.
  inversion Hacc; subst q; clear Hacc.
  destruct (parse_block_accepted block c r qt o ca Hb Hc Ep) as (Hqt & Hlen & [Hn Hl] & Hin).
  split; [exact Hqt|].
  split; [simpl; now rewrite length_map|].
  split.
  - exists o, ca. unfold keys. rewrite length_map. auto.
  - now apply one_correct_answer.
Qed.

Lemma C7_parsed_questions_well_formed_witness :
  In demo_question (parse_response demo_answer 7 5 3)
  /\ text demo_question <> ""
  /\ length (List.filter is_correct (answers demo_question)) = 1%nat.
Proof.
  assert (H : In demo_question (parse_response demo_answer 7 5 3)).
  { rewrite demo_answer_parsed. left. reflexivity. }
  split; [exact H|].
  pose proof (C7_parsed_questions_well_formed demo_answer 7 5 3 demo_question H) as (H1 & _ & _ & H4).
  split; [exact H1 | exact H4].
Defined.

(** C8, as stated, fails: the parse step returns the list of questions
    and nothing else, so the number of blocks it passed over cannot be
    read from what it returns.  Two texts, of one and of two malformed
    blocks, both yield the empty list. *)
Lemma C8_no_skipped_count_counterexample :
  ~ exists skipped_count : list Question -> nat,
      forall (raw_output : string) (quiz_id num_questions difficulty_level : Z),
        parse_response raw_output quiz_id num_questions difficulty_level = [] ->
        skipped_count (parse_response raw_output quiz_id num_questions difficulty_level)
          = length (question_blocks raw_output).
Proof.
  intros [skipped_count H].
  pose proof (H "no question here" 7%Z 5%Z 3%Z) as H1.
  pose proof (H "QUESTION: one QUESTION: two" 7%Z 5%Z 3%Z) as H2.
  assert (E1 : parse_response "no question here" 7 5 3 = []) by (vm_compute; reflexivity).
  assert (E2 : parse_response "QUESTION: one QUESTION: two" 7 5 3 = [])
    by (vm_compute; reflexivity).
  specialize (H1 E1). specialize (H2 E2). rewrite E1 in H1. rewrite E2 in H2.
  assert (L1 : length (question_blocks "no question here") = 1%nat)
    by (vm_compute; reflexivity).
  assert (L2 : length (question_blocks "QUESTION: one QUESTION: two") = 2%nat)
    by (vm_compute; reflexivity).
  congruence.
Qed.

(** C8, amended — malformed blocks are passed over.  For every text the
    parse step returns a list of questions and no count: the questions
    of the blocks that pass the validation gate, in order, up to
    [num_questions] of them (at least one); a block that fails the gate
    or raises contributes nothing and does not stop the loop, and when
    every block fails the list is empty. *)
Theorem C8_parse_skips_malformed_blocks
    (raw_output : string) (quiz_id num_questions difficulty_level : Z) :
  parse_response raw_output quiz_id num_questions difficulty_level =
    firstn (Z.to_nat (Z.max 1 num_questions))
      (omap (accept quiz_id difficulty_level) (question_blocks raw_output))
  /\ (forall q, In q (parse_response raw_output quiz_id num_questions difficulty_level) ->
        exists block question_text options correct_answer,
          In block (question_blocks raw_output) /\
          parse_block block = Accepted question_text options correct_answer /\
          q = make_question quiz_id difficulty_level question_text options correct_answer)
  /\ ((forall block, In block (question_blocks raw_output) ->
         accept quiz_id difficulty_level block = None) ->
      parse_response raw_output quiz_id num_questions difficulty_level = []).
Proof.
  split; [apply parse_response_take|]. split.
  - rewrite parse_response_take. intros q Hq.
    apply list_elem_of_In in Hq. apply subseteq_take in Hq.
    apply list_elem_of_omap in Hq as (block & Hblock & Hacc).
    unfold accept in Hacc.
    destruct (parse_block block) as [qt o ca| |] eqn:Ep; try discriminate Hacc.
    inversion Hacc; subst q. exists block, qt, o, ca.
    split; [now apply list_elem_of_In | auto].
  - intros Hall. rewrite parse_response_take.
    assert (E : omap (accept quiz_id difficulty_level) (question_blocks raw_output) = []).
    { induction (question_blocks raw_output) as [|b bs IH]; [reflexivity|].
      simpl. rewrite (Hall b) by now left. apply IH. intros b' Hb'. apply Hall. now right. }
    rewrite E. apply firstn_nil.
Qed.

(** The two messages of the parameter checks. *)
Lemma validation_message_not_later (env : Env) (subject_id quiz_id n d : Z)
    (w w' : World) (msg : string) :
  generate_after_validation env subject_id quiz_id n d w = (Raise (ValueError msg), w') ->
  msg <> "Number of questions must be between 1 and 20"
  /\ msg <> "Difficulty level must be between 1 and 5".
Proof.
  unfold generate_after_validation, bind at 1, get at 1.
  destruct (_subject_dbs w !! IdInt subject_id);
    [|unfold raise; intros H; inversion H; subst; split; discriminate].
  destruct (subject_table env !! subject_id);
    [|unfold raise; intros H; inversion H; subst; split; discriminate].
  destruct (quiz_table env !! quiz_id);
    [|unfold raise; intros H; inversion H; subst; split; discriminate].
  unfold bind at 1.
  assert (Hllm : forall e w1, _initialize_llm env w = (Raise e, w1) ->
            e = ValueError "GROQ_API_KEY not found in environment variables").
  { unfold _initialize_llm, bind, get, modify, ret, raise.
    destruct (_llm w); [discriminate|].
    destruct (falsy (GROQ_API_KEY env)); intros e w1 H; now inversion H. }
  destruct (_initialize_llm env w) as [[llm|e] w1];
    [|intros H; inversion H; subst e; specialize (Hllm _ _ eq_refl);
      inversion Hllm; subst; split; discriminate].
  clear Hllm. unfold bind at 1.
  assert (Hget : forall e w2, get_hierarchical_db env (Some (IdInt subject_id)) None w1 = (Raise e, w2) ->
            e = ValueError "GOOGLE_API_KEY not found in environment variables"
            \/ e = ValueError "No vector database available for this context").
  { intros e w2. destruct (configured_dec env) as [Hc|Hc].
    - rewrite (get_hierarchical_db_cases env _ _ w1 Hc).
      destruct (target (Some (IdInt subject_id)) None w1) as [sc|] eqn:Et.
      + unfold target, lookup_id in Et.
        destruct (_subject_dbs w1 !! IdInt subject_id) as [h|] eqn:Eh; [|discriminate Et].
        inversion Et; subst sc.
        rewrite (resolve_handle env (Topic (IdInt subject_id)) w1 h Hc Eh).
        destruct (_merged_dbs w1 !! _); [discriminate|].
        destruct (_base_vector_db (load_base w1)); discriminate.
      + destruct (_base_vector_db (load_base w1)); [discriminate|].
        intros H; inversion H; auto.
    - rewrite (get_hierarchical_db_unconfigured env _ _ w1 Hc).
      intros H; inversion H; auto. }
  destruct (get_hierarchical_db env (Some (IdInt subject_id)) None w1) as [[vdb|e] w2].
  - clear Hget. destruct vdb as [retriever|]; [|discriminate].
    destruct (difficulty_descriptions d); [|discriminate].
    unfold bind, modify, ret. destruct (parse_response _ quiz_id n d); discriminate.
  - intros H; inversion H; subst e.
    destruct (Hget _ _ eq_refl) as [E|E]; inversion E; subst; split; discriminate.
Qed.

(** C10 — the parameter checks.  [generate_quiz_questions] raises a
    [ValueError] and leaves the globals and the database as they are
    whenever [num_questions] is outside 1..20 or [difficulty_level] is
    outside 1..5; inside both ranges the checks pass: the function goes
    on with the rest of its body, and whatever that raises is not one
    of the two errors of the checks. *)
Theorem C10_parameter_validation
    (env : Env) (subject_id quiz_id num_questions difficulty_level : Z) (w : World) :
  ((num_questions < 1 \/ 20 < num_questions \/ difficulty_level < 1 \/ 5 < difficulty_level)%Z ->
     (exists msg,
        generate_quiz_questions env subject_id quiz_id num_questions difficulty_level w
          = (Raise (ValueError msg), w))
     /\ (fst (generate_quiz_questions env subject_id quiz_id num_questions difficulty_level w)
           = Raise (ValueError "Number of questions must be between 1 and 20")
         \/ fst (generate_quiz_questions env subject_id quiz_id num_questions difficulty_level w)
           = Raise (ValueError "Difficulty level must be between 1 and 5")))
  /\ ((1 <= num_questions <= 20 /\ 1 <= difficulty_level <= 5)%Z ->
      generate_quiz_questions env subject_id quiz_id num_questions difficulty_level w
        = generate_after_validation env subject_id quiz_id num_questions difficulty_level w
      /\ forall msg w',
           generate_quiz_questions env subject_id quiz_id num_questions difficulty_level w
             = (Raise (ValueError msg), w') ->
           msg <> "Number of questions must be between 1 and 20"
           /\ msg <> "Difficulty level must be between 1 and 5").
Proof.
  split.
  - unfold generate_quiz_questions, raise. intros H.
    destruct (num_questions <=? 0)%Z eqn:E1; simpl; [eauto|].
    destruct (20 <? num_questions)%Z eqn:E2; simpl; [eauto|].
    destruct (difficulty_level <? 1)%Z eqn:E3; simpl; [eauto|].
    destruct (5 <? difficulty_level)%Z eqn:E4; simpl; [eauto|].
    apply Z.leb_gt in E1. apply Z.ltb_ge in E2, E3, E4. lia.
  - intros (Hn & Hd).
    assert (E : generate_quiz_questions env subject_id quiz_id num_questions difficulty_level w
      = generate_after_validation env subject_id quiz_id num_questions difficulty_level w).
    { unfold generate_quiz_questions.
      replace (num_questions <=? 0)%Z with false by (symmetry; apply Z.leb_gt; lia).
      replace (20 <? num_questions)%Z with false by (symmetry; apply Z.ltb_ge; lia).
      replace (difficulty_level <? 1)%Z with false by (symmetry; apply Z.ltb_ge; lia).
      replace (5 <? difficulty_level)%Z with false by (symmetry; apply Z.ltb_ge; lia).
      reflexivity. }
    split; [exact E|]. intros msg w' H. rewrite E in H.
    eapply validation_message_not_later; exact H.
Qed.

Lemma C10_parameter_validation_witness :
  (exists msg,
     generate_quiz_questions demo_env 1 7 21 3 demo_world = (Raise (ValueError msg), demo_world))
  /\ generate_quiz_questions demo_env 1 7 20 5 demo_world
     = generate_after_validation demo_env 1 7 20 5 demo_world.
Proof.
  split.
  - apply (proj1 (C10_parameter_validation demo_env 1 7 21 3 demo_world)). lia.
  - apply (proj2 (C10_parameter_validation demo_env 1 7 20 5 demo_world)). lia.
Defined.


(** * Further properties of the module *)

(** ** [create_vector_db] *)

Lemma tier_handle_ext (t : Tier) (w w' : World) :
  _base_vector_db w' = _base_vector_db w ->
  _subject_dbs w' = _subject_dbs w -> _student_dbs w' = _student_dbs w ->
  tier_handle t w' = tier_handle t w.
Proof. intros Hb Hs Ht. destruct t as [|sc]; simpl; [exact Hb|now apply handle_ext]. Qed.

Lemma tier_handle_set_eq (t : Tier) (db : FAISS) (w : World) :
  tier_handle t (set_tier_handle t db w) = Some db.
Proof. destruct t as [|sc]; simpl; [reflexivity|apply handle_set_handle_eq]. Qed.

Lemma tier_handle_set_ne (t t0 : Tier) (db : FAISS) (w : World) :
  t <> t0 -> tier_handle t (set_tier_handle t0 db w) = tier_handle t w.
Proof.
  intros Hne. destruct t as [|sc], t0 as [|sc0]; simpl; try congruence.
  - destruct sc0; reflexivity.
  - destruct sc; reflexivity.
  - apply handle_set_handle_ne. congruence.
Qed.

(** A call of [create_vector_db] that raises has changed no global and
    no index file. *)
Lemma create_vector_db_raise_globals
    (env : Env) (file_paths : list string) (subject_id user_id : option PyId)
    (is_base : bool) (w w' : World) (e : exn) :
  create_vector_db env file_paths subject_id user_id is_base w = (Raise e, w') ->
  _base_vector_db w' = _base_vector_db w /\ _subject_dbs w' = _subject_dbs w
  /\ _student_dbs w' = _student_dbs w /\ _merged_dbs w' = _merged_dbs w
  /\ _llm w' = _llm w /\ vector_store w' = vector_store w.
Proof.
  rewrite create_vector_db_eq.
  destruct (tier_of subject_id user_id is_base) as [t|];
    [|intros H; inversion H; subst; auto 10].
  unfold build_outcome.
  pose proof (made_fields t w) as (F1 & F2 & F3 & F4 & F5 & F6 & _).
  destruct (falsy (GOOGLE_API_KEY env)); [intros H; inversion H; subst; auto 10|].
  destruct (index_file (tier_path t) w); [discriminate|].
  destruct (chunks_of env file_paths); [intros H; inversion H; subst; auto 10|discriminate].
Qed.

(** X1 — the failures of [create_vector_db].  With no tier named the
    call raises the [ValueError] that asks for one and the world is
    untouched.  With a tier named and no embedding key it raises the
    [ValueError] of the key.  With the key set, no index of the tier on
    disk and no chunk coming out of the files, it raises the
    [ValueError] of the empty split.  In these two cases the directory
    of the subject or of the student has been created by then, and
    nothing else has changed.  Whatever exception the call raises, the
    globals and the index files are as before the call. *)
Theorem X1_create_vector_db_raises
    (env : Env) (file_paths : list string) (subject_id user_id : option PyId)
    (is_base : bool) (w : World) :
  (tier_of subject_id user_id is_base = None ->
     create_vector_db env file_paths subject_id user_id is_base w
       = (Raise (ValueError "Must specify either is_base=True, subject_id, or user_id"), w))
  /\ (forall t, tier_of subject_id user_id is_base = Some t -> ~ configured env ->
        create_vector_db env file_paths subject_id user_id is_base w
          = (Raise (ValueError "GOOGLE_API_KEY not found in environment variables"),
             made t w))
  /\ (forall t, tier_of subject_id user_id is_base = Some t -> configured env ->
        index_file (tier_path t) w = None -> chunks_of env file_paths = [] ->
        create_vector_db env file_paths subject_id user_id is_base w
          = (Raise (ValueError "No document content found after splitting"), made t w))
  /\ (forall e w',
        create_vector_db env file_paths subject_id user_id is_base w = (Raise e, w') ->
        _base_vector_db w' = _base_vector_db w /\ _subject_dbs w' = _subject_dbs w
        /\ _student_dbs w' = _student_dbs w /\ _merged_dbs w' = _merged_dbs w
        /\ _llm w' = _llm w /\ vector_store w' = vector_store w).
Proof.
  rewrite create_vector_db_eq. repeat conj.
  - intros ->. reflexivity.
  - intros t -> Hc. unfold build_outcome, configured in *.
    destruct (falsy (GOOGLE_API_KEY env)); [reflexivity|now destruct Hc].
  - intros t -> Hc Hd Hn. unfold build_outcome. now rewrite Hc, Hd, Hn.
  - intros e w'. rewrite <- create_vector_db_eq. apply create_vector_db_raise_globals.
Qed.

(** X1 exercised on an upload whose file yields no chunk, for subject
    ["3"] as the form names it. *)
Lemma X1_create_vector_db_raises_witness :
  tier_of (Some (IdStr "3")) None false = Some (Scoped (Topic (IdStr "3")))
  /\ configured demo_env
  /\ chunks_of demo_env [] = []
  /\ create_vector_db demo_env [] (Some (IdStr "3")) None false (initial_world ∅)
     = (Raise (ValueError "No document content found after splitting"),
        add_directory "static/vector_store/subjects/3" (initial_world ∅)).
Proof.
  assert (Ht : tier_of (Some (IdStr "3")) None false = Some (Scoped (Topic (IdStr "3"))))
    by reflexivity.
  assert (Hc : configured demo_env) by reflexivity.
  assert (Hn : chunks_of demo_env [] = []) by reflexivity.
  split; [exact Ht|]. split; [exact Hc|]. split; [exact Hn|].
  refine (proj1 (proj2 (proj2 (X1_create_vector_db_raises demo_env [] (Some (IdStr "3")) None
                                 false (initial_world ∅)))) _ Ht Hc _ Hn).
  vm_compute. reflexivity.
Defined.

(** A call of [create_vector_db] that returns has registered a handle
    with the count it returns. *)
Lemma create_vector_db_registers
    (env : Env) (file_paths : list string) (subject_id user_id : option PyId)
    (is_base : bool) (w w' : World) (n : nat) :
  create_vector_db env file_paths subject_id user_id is_base w = (Ok n, w') ->
  exists t db,
    tier_of subject_id user_id is_base = Some t
    /\ tier_handle t w' = Some db
    /\ chunk_count db = n.
Proof.
  rewrite create_vector_db_eq.
  destruct (tier_of subject_id user_id is_base) as [t|]; [|discriminate].
  unfold build_outcome.
  destruct (falsy (GOOGLE_API_KEY env)); [discriminate|].
  destruct (index_file (tier_path t) w) as [db|].
  - intros H; inversion H; subst. exists t, db.
    split; [reflexivity|]. split; [apply tier_handle_set_eq|reflexivity].
  - destruct (chunks_of env file_paths) as [|d ds]; [discriminate|].
    intros H; inversion H; subst. exists t, (mkFAISS (d :: ds)).
    split; [reflexivity|]. split; [|reflexivity].
    destruct t as [|[a|a]]; simpl; rewrite ?lookup_insert_eq; reflexivity.
Qed.

(** X2 — the count returned is the count registered.  When
    [create_vector_db] returns, the tier it addressed has a handle among
    the globals and the number returned is the chunk count of that
    handle. *)
Theorem X2_create_vector_db_registers
    (env : Env) (file_paths : list string) (subject_id user_id : option PyId)
    (is_base : bool) (w w' : World) (n : nat) :
  create_vector_db env file_paths subject_id user_id is_base w = (Ok n, w') ->
  exists t db,
    tier_of subject_id user_id is_base = Some t
    /\ tier_handle t w' = Some db
    /\ chunk_count db = n.
Proof. apply create_vector_db_registers. Qed.

Lemma X2_create_vector_db_registers_witness :
  create_vector_db demo_env ["more.pdf"; "notes.pdf"] None (Some (IdInt 5)) false demo_world
    = (Ok 2%nat,
       snd (create_vector_db demo_env ["more.pdf"; "notes.pdf"] None (Some (IdInt 5)) false
              demo_world))
  /\ exists t db,
       tier_of None (Some (IdInt 5)) false = Some t
       /\ tier_handle t
            (snd (create_vector_db demo_env ["more.pdf"; "notes.pdf"] None (Some (IdInt 5)) false
                    demo_world)) = Some db
       /\ chunk_count db = 2%nat.
Proof.
  assert (H : create_vector_db demo_env ["more.pdf"; "notes.pdf"] None (Some (IdInt 5)) false
                demo_world
    = (Ok 2%nat,
       snd (create_vector_db demo_env ["more.pdf"; "notes.pdf"] None (Some (IdInt 5)) false
              demo_world))).
  { vm_compute. reflexivity. }
  split; [exact H|].
  exact (X2_create_vector_db_registers _ _ _ _ _ _ _ _ H).
Defined.

(** [create_vector_db] changes the handle of no other tier. *)
Lemma create_vector_db_frame
    (env : Env) (file_paths : list string) (subject_id user_id : option PyId)
    (is_base : bool) (w : World) (t : Tier) :
  tier_of subject_id user_id is_base <> Some t ->
  tier_handle t (snd (create_vector_db env file_paths subject_id user_id is_base w))
    = tier_handle t w.
Proof.
  intros Ht. rewrite create_vector_db_eq.
  destruct (tier_of subject_id user_id is_base) as [t0|]; [|reflexivity].
  assert (Hne : t <> t0) by congruence.
  assert (Hmade : tier_handle t (made t0 w) = tier_handle t w)
    by (apply tier_handle_ext; apply made_fields).
  unfold build_outcome.
  destruct (falsy (GOOGLE_API_KEY env)); [exact Hmade|].
  destruct (index_file (tier_path t0) w) as [db|].
  - simpl. now rewrite tier_handle_set_ne.
  - destruct (chunks_of env file_paths) as [|d ds]; [exact Hmade|]. simpl.
    transitivity (tier_handle t (set_tier_handle t0 (mkFAISS (d :: ds)) (made t0 w))).
    + apply tier_handle_ext; destruct t0 as [|[a|a]]; reflexivity.
    + now rewrite tier_handle_set_ne.
Qed.

(** X3 — a build touches one tier.  Whatever [create_vector_db] does,
    the handle of every tier other than the one it addresses is the
    handle that tier had before the call. *)
Theorem X3_create_vector_db_frame
    (env : Env) (file_paths : list string) (subject_id user_id : option PyId)
    (is_base : bool) (w : World) (t : Tier) :
  tier_of subject_id user_id is_base <> Some t ->
  tier_handle t (snd (create_vector_db env file_paths subject_id user_id is_base w))
    = tier_handle t w.
Proof. apply create_vector_db_frame. Qed.

Lemma X3_create_vector_db_frame_witness :
  tier_of None (Some (IdInt 5)) false <> Some (Scoped (Topic (IdInt 1)))
  /\ tier_handle (Scoped (Topic (IdInt 1)))
       (snd (create_vector_db demo_env ["more.pdf"] None (Some (IdInt 5)) false demo_world))
     = tier_handle (Scoped (Topic (IdInt 1))) demo_world.
Proof.
  assert (H : tier_of None (Some (IdInt 5)) false <> Some (Scoped (Topic (IdInt 1))))
    by discriminate.
  split; [exact H|].
  exact (X3_create_vector_db_frame demo_env ["more.pdf"] None (Some (IdInt 5)) false
           demo_world _ H).
Defined.

(** ** [get_hierarchical_db] *)

Lemma load_base_idempotent (w : World) : load_base (load_base w) = load_base w.
Proof.
  unfold load_base at 2 3.
  destruct (_base_vector_db w) eqn:Eb;
    [|destruct (index_file BASE_VECTOR_DIR w) eqn:Ed].
  - unfold load_base. now rewrite Eb.
  - reflexivity.
  - unfold load_base. now rewrite Eb, Ed.
Qed.

Lemma target_ext (subject_id user_id : option PyId) (w w' : World) :
  _subject_dbs w' = _subject_dbs w -> _student_dbs w' = _student_dbs w ->
  target subject_id user_id w' = target subject_id user_id w.
Proof. intros H1 H2. unfold target. now rewrite H1, H2. Qed.

(** The world a call of [get_hierarchical_db] leaves: the world it
    found, or that world with Base loaded, or with Base loaded and the
    merge of the scope it resolves stored. *)
Lemma get_hierarchical_db_world (env : Env) (subject_id user_id : option PyId) (w : World) :
  snd (get_hierarchical_db env subject_id user_id w) = w
  \/ snd (get_hierarchical_db env subject_id user_id w) = load_base w
  \/ exists sc h b,
       target subject_id user_id w = Some sc
       /\ handle sc w = Some h /\ _base_vector_db (load_base w) = Some b
       /\ _merged_dbs w !! merged_key sc = None
       /\ snd (get_hierarchical_db env subject_id user_id w) = after_merge sc h b (load_base w).
Proof.
  destruct (configured_dec env) as [Hc|Hc].
  2: { left. now rewrite (get_hierarchical_db_unconfigured env _ _ w Hc). }
  rewrite (get_hierarchical_db_cases env _ _ w Hc).
  assert (Hres : forall sc, target subject_id user_id w = Some sc ->
    snd (resolve env sc w) = load_base w
    \/ exists sc0 h b,
         Some sc = Some sc0
         /\ handle sc0 w = Some h /\ _base_vector_db (load_base w) = Some b
         /\ _merged_dbs w !! merged_key sc0 = None
         /\ snd (resolve env sc w) = after_merge sc0 h b (load_base w)).
  { intros sc Ht. destruct (target_handle _ _ _ _ Ht) as [h Hh].
    rewrite (resolve_handle env sc w h Hc Hh).
    destruct (_merged_dbs w !! merged_key sc) eqn:Em; [now left|].
    destruct (_base_vector_db (load_base w)) as [b|] eqn:Eb; [|now left].
    right. exists sc, h, b. auto. }
  destruct (target subject_id user_id w) as [sc|] eqn:Et.
  - destruct subject_id, user_id; try (right; apply Hres; reflexivity).
    right. now left.
  - destruct subject_id, user_id; destruct (_base_vector_db (load_base w));
      right; now left.
Qed.

(** X4 — resolving twice.  A second call of [get_hierarchical_db] with
    the same arguments, made right after the first, gives the same
    result — the same store or the same error — and leaves the world
    as the first call left it: nothing is loaded, merged, embedded or
    printed again. *)
Theorem X4_get_hierarchical_db_idempotent
    (env : Env) (subject_id user_id : option PyId) (w : World) :
  get_hierarchical_db env subject_id user_id
    (snd (get_hierarchical_db env subject_id user_id w))
  = get_hierarchical_db env subject_id user_id w.
Proof.
  destruct (configured_dec env) as [Hc|Hc].
  2: { now rewrite !(get_hierarchical_db_unconfigured env _ _ _ Hc). }
  destruct (load_base_fields w) as (Fm & Fs & Ft & _).
  assert (Tl : target subject_id user_id (load_base w) = target subject_id user_id w)
    by now apply target_ext.
  assert (Hnone : forall r,
    get_hierarchical_db env subject_id user_id w = (r, load_base w) ->
    get_hierarchical_db env subject_id user_id (load_base w) = (r, load_base w) ->
    get_hierarchical_db env subject_id user_id
      (snd (get_hierarchical_db env subject_id user_id w))
    = get_hierarchical_db env subject_id user_id w).
  { intros r H1 H2. rewrite H1. simpl. exact H2. }
  assert (Hres : forall sc, target subject_id user_id w = Some sc ->
    resolve env sc (snd (resolve env sc w)) = resolve env sc w).
  { intros sc Ht. destruct (target_handle _ _ _ _ Ht) as [h Hh].
    rewrite (resolve_handle env sc w h Hc Hh).
    destruct (_merged_dbs w !! merged_key sc) as [m|] eqn:Em.
    - simpl. assert (Hh' : handle sc (load_base w) = Some h)
        by (rewrite <- Hh; now apply handle_ext).
      rewrite (resolve_handle env sc _ h Hc Hh'), Fm, Em. now rewrite load_base_idempotent.
    - destruct (_base_vector_db (load_base w)) as [b|] eqn:Eb; simpl.
      + assert (Hh' : handle sc (after_merge sc h b (load_base w)) = Some h)
          by (rewrite <- Hh; now apply handle_ext).
        rewrite (resolve_handle env sc _ h Hc Hh'). simpl.
        rewrite lookup_insert_eq.
        rewrite (load_base_some (after_merge sc h b (load_base w)) b); [reflexivity|exact Eb].
      + assert (Hh' : handle sc (load_base w) = Some h)
          by (rewrite <- Hh; now apply handle_ext).
        rewrite (resolve_handle env sc _ h Hc Hh'), Fm, Em.
        rewrite load_base_idempotent, Eb. reflexivity. }
  destruct (target subject_id user_id w) as [sc|] eqn:Et.
  - specialize (Hres sc eq_refl).
    assert (Tr : target subject_id user_id (snd (resolve env sc w)) = Some sc).
    { destruct (target_handle _ _ _ _ Et) as [h Hh].
      rewrite (resolve_handle env sc w h Hc Hh).
      destruct (_merged_dbs w !! merged_key sc); [exact Tl|].
      destruct (_base_vector_db (load_base w)); [|exact Tl].
      simpl. etransitivity; [|exact Tl]. now apply target_ext. }
    destruct subject_id as [s|], user_id as [u|];
      try (rewrite (get_hierarchical_db_cases env _ _ w Hc), Et;
           rewrite (get_hierarchical_db_cases env _ _ _ Hc), Tr; exact Hres).
    unfold target in Et. simpl in Et. discriminate Et.
  - apply (Hnone (fst (get_hierarchical_db env subject_id user_id w))).
    + rewrite (get_hierarchical_db_cases env _ _ w Hc), Et.
      destruct subject_id, user_id; destruct (_base_vector_db (load_base w)); reflexivity.
    + rewrite (get_hierarchical_db_cases env _ _ w Hc), Et.
      rewrite (get_hierarchical_db_cases env _ _ _ Hc), Tl, load_base_idempotent.
      destruct subject_id, user_id; destruct (_base_vector_db (load_base w)); reflexivity.
Qed.

(** With an id given the call returns a store or raises; a call that
    raises has changed nothing. *)
Lemma get_hierarchical_db_store_or_error
    (env : Env) (subject_id user_id : option PyId) (w : World) :
  (subject_id <> None \/ user_id <> None ->
     (exists db, fst (get_hierarchical_db env subject_id user_id w) = Ok (Some db))
     \/ (exists msg, get_hierarchical_db env subject_id user_id w = (Raise (ValueError msg), w)))
  /\ (forall e w', get_hierarchical_db env subject_id user_id w = (Raise e, w') -> w' = w).
Proof.
  destruct (configured_dec env) as [Hc|Hc].
  2: { rewrite (get_hierarchical_db_unconfigured env _ _ w Hc). split.
       - intros _. right. eauto.
       - intros e w' H. now inversion H. }
  assert (Hres : forall sc, target subject_id user_id w = Some sc ->
    exists db, fst (resolve env sc w) = Ok (Some db)).
  { intros sc Ht. destruct (target_handle _ _ _ _ Ht) as [h Hh].
    rewrite (resolve_handle env sc w h Hc Hh).
    destruct (_merged_dbs w !! merged_key sc); [eauto|].
    destruct (_base_vector_db (load_base w)); eauto. }
  assert (Hbase : _base_vector_db (load_base w) = None -> load_base w = w).
  { unfold load_base. destruct (_base_vector_db w); [reflexivity|].
    destruct (index_file BASE_VECTOR_DIR w); [discriminate|reflexivity]. }
  rewrite (get_hierarchical_db_cases env _ _ w Hc).
  destruct (target subject_id user_id w) as [sc|] eqn:Et.
  - destruct (Hres sc eq_refl) as [db Hdb]. split.
    + intros Hid. left. destruct subject_id, user_id; eauto. destruct Hid; congruence.
    + intros e w'. destruct subject_id, user_id; intros H;
        try (rewrite H in Hdb; discriminate Hdb); discriminate H.
  - destruct (_base_vector_db (load_base w)) as [b|] eqn:Eb; split.
    + intros _. left. destruct subject_id, user_id; eauto.
    + intros e w'. destruct subject_id, user_id; discriminate.
    + intros Hid. right. rewrite (Hbase eq_refl).
      destruct subject_id, user_id; eauto. destruct Hid; congruence.
    + intros e w'. rewrite (Hbase eq_refl).
      destruct subject_id, user_id; intros H; now inversion H.
Qed.



(** X5 — what a call that returns hands back.  When
    [get_hierarchical_db] returns, what it returns is held in the
    globals it leaves: Base, the handle of a subject or of a student,
    or an entry of [_merged_dbs].  With a subject or a user given it is
    a store, never [None]; [None] comes back only from the call
    without subject and user, and only when Base is absent. *)
Theorem X5_get_hierarchical_db_returns_store
    (env : Env) (subject_id user_id : option PyId) (w w' : World) (r : option FAISS) :
  get_hierarchical_db env subject_id user_id w = (Ok r, w') ->
  (subject_id <> None \/ user_id <> None -> exists db, r = Some db)
  /\ (r = None -> subject_id = None /\ user_id = None /\ _base_vector_db w' = None)
  /\ (forall db, r = Some db ->
        _base_vector_db w' = Some db
        \/ (exists sc, handle sc w' = Some db)
        \/ (exists sc, _merged_dbs w' !! merged_key sc = Some db)).
Proof.
  intros H.
  destruct (configured_dec env) as [Hc|Hc].
  2: { rewrite (get_hierarchical_db_unconfigured env _ _ w Hc) in H. discriminate H. }
  rewrite (get_hierarchical_db_cases env _ _ w Hc) in H.
  assert (Hres : forall sc, target subject_id user_id w = Some sc ->
    resolve env sc w = (Ok r, w') ->
    exists db, r = Some db
      /\ ((exists sc, handle sc w' = Some db)
          \/ exists sc, _merged_dbs w' !! merged_key sc = Some db)).
  { intros sc Ht. destruct (target_handle _ _ _ _ Ht) as [h Hh].
    destruct (load_base_fields w) as (Fm & Fs & Fst & _).
    assert (Hh' : handle sc (load_base w) = Some h)
      by (rewrite <- Hh; now apply handle_ext).
    rewrite (resolve_handle env sc w h Hc Hh).
    destruct (_merged_dbs w !! merged_key sc) as [m|] eqn:Em.
    - intros E; inversion E; subst. exists m. split; [reflexivity|].
      right. exists sc. now rewrite Fm.
    - destruct (_base_vector_db (load_base w)) as [b|] eqn:Eb;
        intros E; inversion E; subst.
      + exists (merge_of h b). split; [reflexivity|].
        right. exists sc. simpl. apply lookup_insert_eq.
      + exists h. split; [reflexivity|]. left. now exists sc. }
  destruct (target subject_id user_id w) as [sc|] eqn:Et.
  - destruct subject_id as [s|], user_id as [u|];
      try (destruct (Hres sc eq_refl H) as (db & -> & Hw);
           split; [eauto|]; split; [discriminate|];
           intros db' E; inversion E; subst; now right).
    unfold target in Et. simpl in Et. discriminate Et.
  - destruct subject_id as [s|], user_id as [u|];
      try (destruct (_base_vector_db (load_base w)) as [b|] eqn:Eb; [|discriminate H];
           inversion H; subst;
           split; [eauto|]; split; [discriminate|];
           intros db' E; inversion E; subst; now left).
    inversion H; subst. split; [intros [E|E]; congruence|].
    split; [auto|]. intros db E. now left.
Qed.

Lemma X5_get_hierarchical_db_returns_store_witness :
  get_hierarchical_db demo_env (Some (IdInt 9)) None demo_world
    = (Ok (_base_vector_db demo_world), demo_world)
  /\ exists db, _base_vector_db demo_world = Some db.
Proof.
  assert (H : get_hierarchical_db demo_env (Some (IdInt 9)) None demo_world
              = (Ok (_base_vector_db demo_world), demo_world)).
  { vm_compute. reflexivity. }
  split; [exact H|].
  apply (proj1 (X5_get_hierarchical_db_returns_store demo_env (Some (IdInt 9)) None
                  demo_world demo_world _ H)).
  left. discriminate.
Defined.

(** ** What every call keeps *)

(** The world [generate_quiz_questions] leaves: the language model may
    have been initialised, [get_hierarchical_db] may have run, and the
    generated questions may have been committed. *)
Lemma generate_quiz_questions_world (env : Env) (sid qid n d : Z) (w : World) :
  exists w1,
    (w1 = w \/ exists l, w1 = set_llm l w)
    /\ (snd (generate_quiz_questions env sid qid n d w) = w1
        \/ snd (generate_quiz_questions env sid qid n d w)
           = snd (get_hierarchical_db env (Some (IdInt sid)) None w1)
        \/ exists qs,
             snd (generate_quiz_questions env sid qid n d w)
             = add_db_session qs (snd (get_hierarchical_db env (Some (IdInt sid)) None w1))).
Proof.
  set (X := snd (generate_quiz_questions env sid qid n d w)).
  assert (HX : X = snd (generate_quiz_questions env sid qid n d w)) by reflexivity.
  clearbody X. unfold generate_quiz_questions in HX.
  destruct (_ || _); [exists w; simpl in HX; auto|].
  destruct (_ || _); [exists w; simpl in HX; auto|].
  unfold generate_after_validation, bind, get, modify, ret, raise in HX.
  destruct (_subject_dbs w !! IdInt sid); [|exists w; simpl in HX; auto].
  destruct (subject_table env !! sid); [|exists w; simpl in HX; auto].
  destruct (quiz_table env !! qid); [|exists w; simpl in HX; auto].
  assert (Hllm : snd (_initialize_llm env w) = w
                 \/ exists l, snd (_initialize_llm env w) = set_llm l w).
  { unfold _initialize_llm, bind, get, modify, ret, raise.
    destruct (_llm w); [now left|]. destruct (falsy (GROQ_API_KEY env)); [now left|].
    right. eexists. reflexivity. }
  destruct (_initialize_llm env w) as [[llm|e] w1]; simpl in Hllm, HX;
    [|exists w1; split; [destruct Hllm as [->|[l ->]]; eauto | now left]].
  exists w1. split; [destruct Hllm as [->|[l ->]]; eauto|].
  destruct (get_hierarchical_db env (Some (IdInt sid)) None w1) as [[vdb|e] w2]; simpl in *;
    [|right; now left].
  destruct vdb as [retriever|]; [|right; now left].
  destruct (difficulty_descriptions d); [|right; now left].
  destruct (parse_response _ qid n d) as [|q0 qs]; simpl in HX; [right; now left|].
  right. right. eexists. exact HX.
Qed.

(** A property of worlds kept by the two calls of the retrieval core
    and by the writes of [_llm] and of the database is kept by every
    sequence of calls. *)
Lemma run_calls_invariant (P : World -> Prop) (env : Env) :
  (forall w fp sid uid b, P w -> P (snd (create_vector_db env fp sid uid b w))) ->
  (forall w (sid uid : option Z),
     P w -> P (snd (get_hierarchical_db env (IdInt <$> sid) (IdInt <$> uid) w))) ->
  (forall w l, P w -> P (set_llm l w)) ->
  (forall w qs, P w -> P (add_db_session qs w)) ->
  forall calls w, P w -> P (run_calls env calls w).
Proof.
  intros Hcreate Hget Hllm Hdb calls.
  induction calls as [|c calls IH]; intros w Hw; [exact Hw|].
  simpl. apply IH. destruct c as [fp sid uid b|sid uid|sid qid n d]; simpl.
  - now apply Hcreate.
  - now apply Hget.
  - destruct (generate_quiz_questions_world env sid qid n d w) as (w1 & Hw1 & Hres).
    assert (P1 : P w1) by (destruct Hw1 as [->|[l ->]]; auto).
    assert (P2 : P (snd (get_hierarchical_db env (Some (IdInt sid)) None w1)))
      by exact (Hget w1 (Some sid) None P1).
    destruct Hres as [->|[->|[qs ->]]]; auto.
Qed.

Lemma get_hierarchical_db_keeps_disk (env : Env) sid uid (w : World) :
  vector_store (snd (get_hierarchical_db env sid uid w)) = vector_store w.
Proof.
  destruct (load_base_fields w) as (_ & _ & _ & _ & _ & Fv).
  destruct (get_hierarchical_db_world env sid uid w)
    as [->|[->|(sc & h & b & _ & _ & _ & _ & ->)]];
    [reflexivity|exact Fv|exact Fv].
Qed.

(** X6 — no call writes an index.  After any sequence of calls of
    [create_vector_db], [get_hierarchical_db] and
    [generate_quiz_questions], the index files on disk are those found
    at the start: the module reads [index.faiss] and never creates,
    replaces or removes one. *)
Theorem X6_calls_keep_disk (env : Env) (calls : list call) (w : World) :
  vector_store (run_calls env calls w) = vector_store w.
Proof.
  apply (run_calls_invariant (fun w' => vector_store w' = vector_store w) env); auto.
  - intros w0 fp sid uid b H. now rewrite create_vector_db_keeps_disk.
  - intros w0 sid uid H. now rewrite get_hierarchical_db_keeps_disk.
Qed.

Lemma load_base_keeps_handle (t : Tier) (w : World) :
  is_Some (tier_handle t w) -> is_Some (tier_handle t (load_base w)).
Proof.
  unfold load_base. destruct (_base_vector_db w) eqn:Eb; [auto|].
  destruct (index_file BASE_VECTOR_DIR w); [|auto].
  destruct t as [|[a|a]]; simpl; eauto.
Qed.

(** X7 — handles stay.  Once a tier has a handle among the globals, it
    has one after every further sequence of calls: a store may be
    replaced by a rebuild or a load, but no call removes Base, a
    subject store or a student store. *)
Theorem X7_handles_persist (env : Env) (calls : list call) (t : Tier) (w : World) :
  is_Some (tier_handle t w) -> is_Some (tier_handle t (run_calls env calls w)).
Proof.
  apply (run_calls_invariant (fun w' => is_Some (tier_handle t w')) env).
  - intros w0 fp sid uid b H.
    destruct (create_vector_db env fp sid uid b w0) as [[n|e] w1] eqn:E; simpl.
    + destruct (decide (tier_of sid uid b = Some t)) as [Ht|Ht].
      * destruct (create_vector_db_registers _ _ _ _ _ _ _ _ E) as (t' & db & Ht' & Hh & _).
        rewrite Ht in Ht'. inversion Ht'; subst t'. rewrite Hh. eauto.
      * pose proof (create_vector_db_frame env fp sid uid b w0 t Ht) as Hf.
        rewrite E in Hf. simpl in Hf. now rewrite Hf.
    + apply create_vector_db_raise_globals in E as (F1 & F2 & F3 & _).
      now rewrite (tier_handle_ext t w0 w1 F1 F2 F3).
  - intros w0 sid uid H.
    destruct (get_hierarchical_db_world env (IdInt <$> sid) (IdInt <$> uid) w0)
      as [->|[->|(sc & h & b & _ & _ & _ & _ & ->)]].
    + exact H.
    + now apply load_base_keeps_handle.
    + apply load_base_keeps_handle in H. destruct t as [|[a|a]]; exact H.
  - intros w0 l H. destruct t as [|[a|a]]; exact H.
  - intros w0 qs H. destruct t as [|[a|a]]; exact H.
Qed.

Lemma X7_handles_persist_witness :
  is_Some (tier_handle (Scoped (Topic (IdInt 1))) demo_unmerged_world)
  /\ is_Some (tier_handle (Scoped (Topic (IdInt 1)))
       (run_calls demo_env
          [GetHierarchicalDb (Some 1%Z) None;
           CreateVectorDb ["new.pdf"] None None true;
           GenerateQuizQuestions 1 7 5 3] demo_unmerged_world)).
Proof.
  assert (H : is_Some (tier_handle (Scoped (Topic (IdInt 1))) demo_unmerged_world)).
  { vm_compute. eauto. }
  split; [exact H|].
  exact (X7_handles_persist demo_env _ (Scoped (Topic (IdInt 1))) demo_unmerged_world H).
Defined.

(** X8 — what the merge cache holds.  In every world reached from the
    initial globals, each entry of [_merged_dbs] sits under the key of a
    subject or of a student that has a handle, Base is loaded, and the
    entry is the store over the documents of that handle followed by
    those of Base: there is no entry for Base itself, none for a scope
    without a store, and none while Base is absent. *)
Theorem X8_merged_cache_entries
    (env : Env) (files : gmap string FAISS) (calls : list call)
    (w : World) (k : string) (m : FAISS) :
  w = run_calls env calls (initial_world files) ->
  _merged_dbs w !! k = Some m ->
  exists sc h b,
    k = merged_key sc /\ handle sc w = Some h /\ _base_vector_db w = Some b
    /\ m = merge_of h b.
Proof.
  intros -> Hm.
  destruct (consistent_run_calls env calls (initial_world files)
              (consistent_initial files)) as (H1 & _).
  destruct (H1 k m Hm) as (sc & h & b & _ & Hk & Hh & Hb & ->). eauto 10.
Qed.

Lemma X8_merged_cache_entries_witness :
  demo_world
    = run_calls demo_env
        [CreateVectorDb ["handbook.pdf"] None None true;
         CreateVectorDb ["algebra.pdf"] (Some (IdInt 1)) None false;
         CreateVectorDb ["notes.pdf"] None (Some (IdInt 5)) false;
         GetHierarchicalDb (Some 1%Z) None;
         GetHierarchicalDb None (Some 5%Z)] (initial_world ∅)
  /\ exists sc h b,
       "student_5" = merged_key sc /\ handle sc demo_world = Some h
       /\ _base_vector_db demo_world = Some b
       /\ merge_of (mkFAISS [mkDocument "text of notes.pdf" "notes.pdf"])
                   (mkFAISS [mkDocument "text of handbook.pdf" "handbook.pdf"])
          = merge_of h b.
Proof.
  assert (H : demo_world
    = run_calls demo_env
        [CreateVectorDb ["handbook.pdf"] None None true;
         CreateVectorDb ["algebra.pdf"] (Some (IdInt 1)) None false;
         CreateVectorDb ["notes.pdf"] None (Some (IdInt 5)) false;
         GetHierarchicalDb (Some 1%Z) None;
         GetHierarchicalDb None (Some 5%Z)] (initial_world ∅)) by reflexivity.
  split; [exact H|].
  refine (X8_merged_cache_entries demo_env ∅ _ demo_world "student_5" _ H _).
  vm_compute. reflexivity.
Defined.

(** ** [get_answer_from_documents] *)

Lemma _initialize_llm_ready (env : Env) (w : World) :
  llm_ready env w -> exists llm w', _initialize_llm env w = (Ok llm, w').
Proof.
  unfold llm_ready, _initialize_llm, bind, get, modify, ret, raise.
  intros [[l Hl]|Hk].
  - rewrite Hl. eauto.
  - destruct (_llm w); [eauto|]. rewrite Hk. eauto.
Qed.

Lemma get_hierarchical_db_keeps_llm (env : Env) sid uid (w : World) :
  _llm (snd (get_hierarchical_db env sid uid w)) = _llm w.
Proof.
  assert (Fl : _llm (load_base w) = _llm w).
  { unfold load_base. destruct (_base_vector_db w), (index_file BASE_VECTOR_DIR w); reflexivity. }
  destruct (get_hierarchical_db_world env sid uid w) as [->|[->|(sc & h & b & _ & _ & _ & _ & ->)]];
    [reflexivity|exact Fl|exact Fl].
Qed.

Lemma enumerate_context_lookup (docs : list Document) (start i : nat) :
  enumerate_context start docs !! i
  = (fun doc => mkContextItem (start + i + 1) (page_content doc)) <$> docs !! i.
Proof.
  revert start i. induction docs as [|doc docs IH]; intros start i; [reflexivity|].
  destruct i as [|i]; simpl.
  - now rewrite Nat.add_0_r.
  - rewrite IH. destruct (docs !! i); simpl; [|reflexivity].
    do 2 f_equal. lia.
Qed.

Lemma enumerate_context_length (docs : list Document) (start : nat) :
  length (enumerate_context start docs) = length docs.
Proof. revert start. induction docs as [|doc docs IH]; intros start; simpl; auto. Qed.

(** X9 — asking without any store.  When the scope the ids select has
    no store and Base has none either, in memory or on disk,
    [get_answer_from_documents] does not raise and returns an empty
    context list with one of four answers.  Without the embedding key
    the answer is the message of that key.  Else, with a subject or a
    user given, it is the message of the missing store.  Else
    [get_hierarchical_db] has handed back [None]: if the language model
    is not initialised and its key is missing, the answer is the
    message of that key; otherwise the call of [as_retriever] on
    [None] fails and the answer is the generic error text about
    [NoneType]. *)
Theorem X9_answer_without_store
    (env : Env) (invoke : FAISS -> string -> result Response) (question : string)
    (subject_id user_id : option PyId) (w : World) :
  target subject_id user_id w = None ->
  _base_vector_db (load_base w) = None ->
  fst (get_answer_from_documents env invoke question subject_id user_id w) =
    Ok (if falsy (GOOGLE_API_KEY env)
        then "GOOGLE_API_KEY not found in environment variables"
        else match subject_id, user_id with
             | None, None =>
                 match _llm w with
                 | Some _ =>
                     "Error processing question: 'NoneType' object has no attribute 'as_retriever'"
                 | None =>
                     if falsy (GROQ_API_KEY env)
                     then "GROQ_API_KEY not found in environment variables"
                     else "Error processing question: 'NoneType' object has no attribute 'as_retriever'"
                 end
             | _, _ => "No vector database available for this context"
             end, []).
Proof.
  intros Ht Hb. unfold get_answer_from_documents, try_except, bind at 1.
  destruct (configured_dec env) as [Hc|Hc].
  - rewrite (get_hierarchical_db_cases env _ _ w Hc), Ht, Hb.
    unfold configured in Hc. rewrite Hc.
    assert (Hl : _llm (load_base w) = _llm w).
    { unfold load_base.
      destruct (_base_vector_db w), (index_file BASE_VECTOR_DIR w); reflexivity. }
    destruct subject_id, user_id; try reflexivity.
    unfold _initialize_llm, bind, get, modify, ret, raise. rewrite Hl.
    destruct (_llm w); [reflexivity|].
    destruct (falsy (GROQ_API_KEY env)); reflexivity.
  - rewrite (get_hierarchical_db_unconfigured env _ _ w Hc).
    unfold configured in Hc. destruct (falsy (GOOGLE_API_KEY env)); [reflexivity|].
    now destruct Hc.
Qed.

Lemma X9_answer_without_store_witness :
  fst (get_answer_from_documents demo_env (fun _ _ => Raise IndexError) "What is a group?"
         None None (initial_world ∅))
    = Ok ("Error processing question: 'NoneType' object has no attribute 'as_retriever'", [])
  /\ fst (get_answer_from_documents demo_env (fun _ _ => Raise IndexError) "What is a group?"
            (Some (IdInt 1)) None (initial_world ∅))
     = Ok ("No vector database available for this context", [])
  /\ fst (get_answer_from_documents
            (mkEnv (Some "google-key") None (pdf_loader demo_env) (text_splitter demo_env)
                   (subject_table demo_env) (quiz_table demo_env) (retrieval_chain demo_env))
            (fun _ _ => Raise IndexError) "What is a group?" None None (initial_world ∅))
     = Ok ("GROQ_API_KEY not found in environment variables", []).
Proof.
  split; [|split].
  - apply (X9_answer_without_store demo_env _ _ None None (initial_world ∅)); reflexivity.
  - apply (X9_answer_without_store demo_env _ _ (Some (IdInt 1)) None (initial_world ∅));
      reflexivity.
  - apply (X9_answer_without_store
             (mkEnv (Some "google-key") None (pdf_loader demo_env) (text_splitter demo_env)
                    (subject_table demo_env) (quiz_table demo_env) (retrieval_chain demo_env))
             _ _ None None (initial_world ∅)); reflexivity.
Defined.

(** X10 — the answer and its numbered context.  When
    [get_hierarchical_db] returns a store and the chain answers over it,
    [get_answer_from_documents] returns the answer of the chain (or
    ["No answer found"] when the response has none) and one context
    entry for each document of the response, in order, the entry at
    position [i] carrying the index [i + 1] and the text of that
    document. *)
Theorem X10_answer_with_context
    (env : Env) (invoke : FAISS -> string -> result Response) (question : string)
    (subject_id user_id : option PyId) (w w1 : World) (db : FAISS) (response : Response) :
  get_hierarchical_db env subject_id user_id w = (Ok (Some db), w1) ->
  llm_ready env w ->
  invoke db question = Ok response ->
  exists context_list,
    fst (get_answer_from_documents env invoke question subject_id user_id w)
      = Ok (default "No answer found" (response_answer response), context_list)
    /\ length context_list = length (default [] (response_context response))
    /\ forall i doc,
         default [] (response_context response) !! i = Some doc ->
         context_list !! i = Some (mkContextItem (i + 1) (page_content doc)).
Proof.
  intros Hget Hl Hinv. unfold get_answer_from_documents, try_except, bind at 1.
  rewrite Hget.
  assert (Hl1 : llm_ready env w1).
  { unfold llm_ready in *.
    pose proof (get_hierarchical_db_keeps_llm env subject_id user_id w) as Hk.
    rewrite Hget in Hk. simpl in Hk. now rewrite Hk. }
  destruct (_initialize_llm_ready env w1 Hl1) as (llm & w2 & El).
  unfold bind. rewrite El, Hinv. unfold ret. simpl.
  destruct (response_context response) as [[|doc docs]|]; simpl.
  - exists []. repeat split; auto. intros i d H. rewrite lookup_nil in H. discriminate H.
  - eexists. split; [reflexivity|]. split; [simpl; now rewrite enumerate_context_length|].
    intros i d H.
    change (enumerate_context 0 (doc :: docs) !! i = Some (mkContextItem (i + 1) (page_content d))).
    rewrite enumerate_context_lookup, H. reflexivity.
  - exists []. repeat split; auto. intros i d H. rewrite lookup_nil in H. discriminate H.
Qed.

Lemma X10_answer_with_context_witness :
  llm_ready demo_env demo_world
  /\ exists context_list,
       fst (get_answer_from_documents demo_env
              (fun db _ => Ok (mkResponse (Some "A set with an operation.") (Some (docstore db))))
              "What is a group?" (Some (IdInt 1)) None demo_world)
         = Ok ("A set with an operation.", context_list)
       /\ length context_list = 2%nat
       /\ forall i doc,
            [mkDocument "text of algebra.pdf" "algebra.pdf";
             mkDocument "text of handbook.pdf" "handbook.pdf"] !! i = Some doc ->
            context_list !! i = Some (mkContextItem (i + 1) (page_content doc)).
Proof.
  assert (Hl : llm_ready demo_env demo_world) by (right; reflexivity).
  split; [exact Hl|].
  refine (X10_answer_with_context demo_env
            (fun db _ => Ok (mkResponse (Some "A set with an operation.") (Some (docstore db))))
            "What is a group?" (Some (IdInt 1)) None demo_world
            (snd (get_hierarchical_db demo_env (Some (IdInt 1)) None demo_world))
            (mkFAISS [mkDocument "text of algebra.pdf" "algebra.pdf";
                      mkDocument "text of handbook.pdf" "handbook.pdf"])
            (mkResponse (Some "A set with an operation.")
               (Some [mkDocument "text of algebra.pdf" "algebra.pdf";
                      mkDocument "text of handbook.pdf" "handbook.pdf"])) _ Hl _).
  - vm_compute. reflexivity.
  - reflexivity.
Defined.

(** X11 — no exception leaves [get_answer_from_documents].  Whatever
    the stores, the keys and the chain do, the function returns an
    answer and a context list; a [ValueError] raised while the store is
    resolved comes back as the answer, its message unchanged, with an
    empty context list and the world untouched, and so does a
    [ValueError] raised by the chain. *)
Theorem X11_answer_never_raises
    (env : Env) (invoke : FAISS -> string -> result Response) (question : string)
    (subject_id user_id : option PyId) (w : World) :
  (exists answer context_list,
     fst (get_answer_from_documents env invoke question subject_id user_id w)
       = Ok (answer, context_list))
  /\ (forall msg w',
        get_hierarchical_db env subject_id user_id w = (Raise (ValueError msg), w') ->
        get_answer_from_documents env invoke question subject_id user_id w
          = (Ok (msg, []), w))
  /\ (forall msg db w' llm w'',
        get_hierarchical_db env subject_id user_id w = (Ok (Some db), w') ->
        _initialize_llm env w' = (Ok llm, w'') ->
        invoke db question = Raise (ValueError msg) ->
        fst (get_answer_from_documents env invoke question subject_id user_id w)
          = Ok (msg, [])).
Proof.
  split; [|split].
  - unfold get_answer_from_documents, try_except.
    match goal with |- context [match ?b w with _ => _ end] => destruct (b w) as [[[a c]|e] w1] end.
    + eauto.
    + destruct e; simpl; eauto.
  - intros msg w' H.
    pose proof (proj2 (get_hierarchical_db_store_or_error env subject_id user_id w) _ _ H) as ->.
    unfold get_answer_from_documents, try_except, bind at 1. rewrite H. reflexivity.
  - intros msg db w' llm w'' Hget Hllm Hinv.
    unfold get_answer_from_documents, try_except, bind at 1. rewrite Hget.
    unfold bind. rewrite Hllm, Hinv. reflexivity.
Qed.

(** ** [initialize_from_existing_documents] *)

Lemma filter_twice {A : Type} (f : A -> bool) (l : list A) :
  List.filter f (List.filter f l) = List.filter f l.
Proof.
  induction l as [|a l IH]; simpl; [reflexivity|].
  destruct (f a) eqn:E; simpl; [rewrite E; now f_equal | exact IH].
Qed.

(** X12 — filtering before the call changes nothing.  The routes hand
    [initialize_from_existing_documents] a list they have filtered with
    the condition the function applies itself; the call on the filtered
    list does exactly what the call on the whole list does. *)
Theorem X12_initialize_filters_once
    (env : Env) (documents : list KnowledgeDocument) (subject_id user_id : option Z)
    (is_base : bool) :
  initialize_from_existing_documents env
    (filter_documents documents subject_id user_id is_base) subject_id user_id is_base
  = initialize_from_existing_documents env documents subject_id user_id is_base.
Proof.
  unfold initialize_from_existing_documents.
  assert (E : filter_documents (filter_documents documents subject_id user_id is_base)
                subject_id user_id is_base
              = filter_documents documents subject_id user_id is_base).
  { unfold filter_documents. destruct is_base; [apply filter_twice|].
    destruct subject_id; [apply filter_twice|].
    destruct user_id; [apply filter_twice|reflexivity]. }
  now rewrite E.
Qed.

(** X13 — no matching document, no load.  When no document matches the
    selection, [initialize_from_existing_documents] returns 0 and only
    prints a line: no handle is registered, even if an index of the
    tier is on disk.  A call of [create_vector_db] for the same tier
    goes to that index instead: when it returns, it returns the chunk
    count of the index and has registered it. *)
Theorem X13_initialize_without_documents
    (env : Env) (documents : list KnowledgeDocument) (subject_id user_id : option Z)
    (is_base : bool) (w : World) :
  filter_documents documents subject_id user_id is_base = [] ->
  initialize_from_existing_documents env documents subject_id user_id is_base w
    = (Ok 0%nat,
       add_stdout ("No documents found for initialization with params: subject_id="
                     +:+ str_option subject_id +:+ ", user_id=" +:+ str_option user_id
                     +:+ ", is_base=" +:+ str_bool is_base) w)
  /\ (forall t',
        tier_handle t'
          (snd (initialize_from_existing_documents env documents subject_id user_id is_base w))
        = tier_handle t' w)
  /\ (forall t db n w',
        tier_of (IdInt <$> subject_id) (IdInt <$> user_id) is_base = Some t ->
        index_file (tier_path t) w = Some db ->
        create_vector_db env [] (IdInt <$> subject_id) (IdInt <$> user_id) is_base w
          = (Ok n, w') ->
        n = chunk_count db /\ tier_handle t w' = Some db).
Proof.
  intros Hf. unfold initialize_from_existing_documents. rewrite Hf. simpl.
  split; [reflexivity|]. split; [intros [|[a|a]]; reflexivity|].
  intros t db n w' Ht Hd. rewrite create_vector_db_eq, Ht. unfold build_outcome.
  destruct (falsy (GOOGLE_API_KEY env)); [discriminate|].
  rewrite Hd. intros H; inversion H; subst.
  split; [reflexivity|apply tier_handle_set_eq].
Qed.

Lemma X13_initialize_without_documents_witness :
  filter_documents
    [mkKnowledgeDocument "handbook.pdf" None true (Some 2%Z);
     mkKnowledgeDocument "logic.pdf" (Some 4%Z) false (Some 2%Z)] (Some 1%Z) None false = []
  /\ initialize_from_existing_documents demo_env
       [mkKnowledgeDocument "handbook.pdf" None true (Some 2%Z);
        mkKnowledgeDocument "logic.pdf" (Some 4%Z) false (Some 2%Z)]
       (Some 1%Z) None false demo_disk_world
     = (Ok 0%nat,
        add_stdout
          "No documents found for initialization with params: subject_id=1, user_id=None, is_base=False"
          demo_disk_world)
  /\ tier_handle (Scoped (Topic (IdInt 1)))
       (snd (create_vector_db demo_env [] (Some (IdInt 1)) None false demo_disk_world))
     = Some (mkFAISS [mkDocument "chunk one" "algebra.pdf";
                      mkDocument "chunk two" "algebra.pdf"]).
Proof.
  assert (Hf : filter_documents
       [mkKnowledgeDocument "handbook.pdf" None true (Some 2%Z);
        mkKnowledgeDocument "logic.pdf" (Some 4%Z) false (Some 2%Z)] (Some 1%Z) None false = [])
    by reflexivity.
  split; [exact Hf|].
  pose proof (X13_initialize_without_documents demo_env _ (Some 1%Z) None false
                demo_disk_world Hf) as (H1 & _ & H3).
  split; [exact H1|].
  refine (proj2 (H3 (Scoped (Topic (IdInt 1))) _ 2%nat _ eq_refl _ _)).
  - vm_compute. reflexivity.
  - vm_compute. reflexivity.
Defined.

(** ** [get_vector_db_status] *)

Lemma status_fold_lookup {Row : Type} (row_id : Row -> Z) (entry : Row -> ScopeStatus)
    (rows : list Row) (d : gmap Z ScopeStatus) (id : Z) (st : ScopeStatus) :
  fold_left (fun d row => <[row_id row := entry row]> d) rows d !! id = Some st ->
  d !! id = Some st \/ exists row, In row rows /\ row_id row = id /\ st = entry row.
Proof.
  revert d. induction rows as [|row rows IH]; intros d H; simpl in H; [now left|].
  destruct (IH _ H) as [Hd|(row' & Hin & Hid & Hst)].
  - destruct (decide (row_id row = id)) as [E|E].
    + rewrite E, lookup_insert_eq in Hd. inversion Hd; subst.
      right. exists row. simpl. auto.
    + rewrite lookup_insert_ne in Hd by exact E. now left.
  - right. exists row'. simpl. auto.
Qed.

Lemma status_fold_keeps {Row : Type} (row_id : Row -> Z) (entry : Row -> ScopeStatus)
    (rows : list Row) (d : gmap Z ScopeStatus) (id : Z) :
  is_Some (d !! id) ->
  is_Some (fold_left (fun d row => <[row_id row := entry row]> d) rows d !! id).
Proof.
  revert d. induction rows as [|r rows IH]; intros d H; [exact H|].
  simpl. apply IH.
  destruct (decide (row_id r = id)) as [E|E].
  - rewrite E, lookup_insert_eq. eauto.
  - now rewrite lookup_insert_ne.
Qed.

Lemma status_fold_present {Row : Type} (row_id : Row -> Z) (entry : Row -> ScopeStatus)
    (rows : list Row) (d : gmap Z ScopeStatus) (row : Row) :
  In row rows ->
  is_Some (fold_left (fun d row => <[row_id row := entry row]> d) rows d !! row_id row).
Proof.
  revert d. induction rows as [|r rows IH]; intros d Hin; [destruct Hin|].
  simpl. destruct Hin as [->|Hin]; [|now apply IH].
  apply status_fold_keeps. rewrite lookup_insert_eq. eauto.
Qed.

(** Two status tables built over the same rows agree, under a view
    [f], where their entries do. *)
Lemma status_fold_rel {Row A : Type} (row_id : Row -> Z) (e1 e2 : Row -> ScopeStatus)
    (f : ScopeStatus -> A) (rows : list Row) (d1 d2 : gmap Z ScopeStatus) (id : Z) :
  (forall row, f (e1 row) = f (e2 row)) ->
  f <$> (d1 !! id) = f <$> (d2 !! id) ->
  f <$> (fold_left (fun d row => <[row_id row := e1 row]> d) rows d1 !! id)
  = f <$> (fold_left (fun d row => <[row_id row := e2 row]> d) rows d2 !! id).
Proof.
  intros He. revert d1 d2. induction rows as [|row rows IH]; intros d1 d2 Hd; [exact Hd|].
  simpl. apply IH.
  destruct (decide (row_id row = id)) as [E|E].
  - rewrite E, !lookup_insert_eq. simpl. now rewrite He.
  - now rewrite !lookup_insert_ne.
Qed.

Lemma subject_status_view (w w' : World) (row : SubjectRow) :
  _subject_dbs w' !! IdInt (subject_row_id row) = _subject_dbs w !! IdInt (subject_row_id row) ->
  status_view (subject_status w' row) = status_view (subject_status w row).
Proof.
  intros H. unfold subject_status. rewrite H.
  destruct (_subject_dbs w !! IdInt (subject_row_id row)); reflexivity.
Qed.

Lemma student_status_view (w w' : World) (row : StudentRow) :
  _student_dbs w' !! IdInt (student_row_id row) = _student_dbs w !! IdInt (student_row_id row) ->
  status_view (student_status w' row) = status_view (student_status w row).
Proof.
  intros H. unfold student_status. rewrite H.
  destruct (_student_dbs w !! IdInt (student_row_id row)); reflexivity.
Qed.

(** X14 — the status after a build.  When [create_vector_db] returns
    the count [n] for Base, or for a subject or a student named by an
    [int], [get_vector_db_status] taken next reports that tier as Ready
    with chunk count [n]: in the entry of Base, or in the entry of the
    subject or student if the tables list it.  When the id is a text,
    as in the upload route of the dashboard, the call returns its count
    all the same, but the status reports every subject and every
    student as it did before: the store sits under a key that the
    status, which looks up [subject.id], does not read. *)
Theorem X14_status_after_create
    (env : Env) (file_paths : list string) (subject_id user_id : option PyId) (is_base : bool)
    (w w' : World) (n : nat) (subjects : list SubjectRow) (students : list StudentRow) :
  create_vector_db env file_paths subject_id user_id is_base w = (Ok n, w') ->
  match tier_of subject_id user_id is_base with
  | Some Base =>
      base_status (status_base (get_vector_db_status subjects students w')) = "Ready"
      /\ base_chunk_count (status_base (get_vector_db_status subjects students w')) = n
  | Some (Scoped (Topic (IdInt sid))) =>
      forall row, In row subjects -> subject_row_id row = sid ->
        exists st,
          status_subjects (get_vector_db_status subjects students w') !! sid = Some st
          /\ status st = "Ready" /\ status_chunk_count st = n
  | Some (Scoped (Individual (IdInt uid))) =>
      forall row, In row students -> student_row_id row = uid ->
        exists st,
          status_students (get_vector_db_status subjects students w') !! uid = Some st
          /\ status st = "Ready" /\ status_chunk_count st = n
  | Some (Scoped (Topic (IdStr _))) | Some (Scoped (Individual (IdStr _))) =>
      forall id,
        status_view <$> (status_subjects (get_vector_db_status subjects students w') !! id)
        = status_view <$> (status_subjects (get_vector_db_status subjects students w) !! id)
        /\ status_view <$> (status_students (get_vector_db_status subjects students w') !! id)
           = status_view <$> (status_students (get_vector_db_status subjects students w) !! id)
  | None => False
  end.
Proof.
  intros H.
  destruct (create_vector_db_registers _ _ _ _ _ _ _ _ H) as (t & db & Ht & Hh & Hn).
  assert (Hframe : forall t', t' <> t -> tier_handle t' w' = tier_handle t' w).
  { intros t' Hne.
    pose proof (create_vector_db_frame env file_paths subject_id user_id is_base w t') as Hf.
    rewrite H in Hf. simpl in Hf. apply Hf. congruence. }
  assert (Htext : forall s, t = Scoped (Topic (IdStr s)) \/ t = Scoped (Individual (IdStr s)) ->
    forall id,
      status_view <$> (status_subjects (get_vector_db_status subjects students w') !! id)
      = status_view <$> (status_subjects (get_vector_db_status subjects students w) !! id)
      /\ status_view <$> (status_students (get_vector_db_status subjects students w') !! id)
         = status_view <$> (status_students (get_vector_db_status subjects students w) !! id)).
  { intros s Hs id. split; simpl; apply status_fold_rel; try reflexivity; intros row.
    - apply subject_status_view.
      apply (Hframe (Scoped (Topic (IdInt (subject_row_id row))))).
      destruct Hs as [->| ->]; discriminate.
    - apply student_status_view.
      apply (Hframe (Scoped (Individual (IdInt (student_row_id row))))).
      destruct Hs as [->| ->]; discriminate. }
  rewrite Ht. destruct t as [|[[sid|s]|[uid|s]]]; simpl in Hh.
  - simpl. rewrite Hh. simpl. auto.
  - intros row Hin Hid. simpl.
    destruct (status_fold_present subject_row_id (subject_status w') subjects ∅ row Hin)
      as [st Hst].
    rewrite Hid in Hst. exists st. split; [exact Hst|].
    apply status_fold_lookup in Hst as [Hst|(row' & _ & Hid' & ->)];
      [rewrite lookup_empty in Hst; discriminate Hst|].
    unfold subject_status. rewrite Hid', Hh. simpl. auto.
  - apply (Htext s). now left.
  - intros row Hin Hid. simpl.
    destruct (status_fold_present student_row_id (student_status w') students ∅ row Hin)
      as [st Hst].
    rewrite Hid in Hst. exists st. split; [exact Hst|].
    apply status_fold_lookup in Hst as [Hst|(row' & _ & Hid' & ->)];
      [rewrite lookup_empty in Hst; discriminate Hst|].
    unfold student_status. rewrite Hid', Hh. simpl. auto.
  - apply (Htext s). now right.
Qed.

(** X14 exercised on the upload of the dashboard for subject 1, named
    by the text of the form field: one chunk is returned, and the
    status still reports the subject as not initialised. *)
Lemma X14_status_after_create_witness :
  create_vector_db demo_env ["upload.pdf"] (Some (IdStr "1")) None false (initial_world ∅)
    = (Ok 1%nat,
       snd (create_vector_db demo_env ["upload.pdf"] (Some (IdStr "1")) None false
              (initial_world ∅)))
  /\ status_view <$>
       (status_subjects
          (get_vector_db_status [mkSubjectRow 1 "Algebra" "MATH1" []] []
             (snd (create_vector_db demo_env ["upload.pdf"] (Some (IdStr "1")) None false
                     (initial_world ∅)))) !! 1%Z)
     = Some ("Not initialized", 0%nat, 0%nat).
Proof.
  assert (H : create_vector_db demo_env ["upload.pdf"] (Some (IdStr "1")) None false
                (initial_world ∅)
    = (Ok 1%nat,
       snd (create_vector_db demo_env ["upload.pdf"] (Some (IdStr "1")) None false
              (initial_world ∅)))).
  { vm_compute. reflexivity. }
  split; [exact H|].
  rewrite (proj1 (X14_status_after_create demo_env _ (Some (IdStr "1")) None false
                    (initial_world ∅) _ 1%nat [mkSubjectRow 1 "Algebra" "MATH1" []] [] H 1%Z)).
  vm_compute. reflexivity.
Defined.

(** X15 — what "merged with base" means in the status.  In every world
    reached from the initial globals, an entry of the status that says
    a subject or a student is merged with Base also says that scope is
    Ready, and the entry of Base says Ready too. *)
Theorem X15_status_merged_implies_ready
    (env : Env) (files : gmap string FAISS) (calls : list call) (w : World)
    (subjects : list SubjectRow) (students : list StudentRow) (id : Z) (st : ScopeStatus) :
  w = run_calls env calls (initial_world files) ->
  status_subjects (get_vector_db_status subjects students w) !! id = Some st
  \/ status_students (get_vector_db_status subjects students w) !! id = Some st ->
  merged_with_base st = true ->
  status st = "Ready"
  /\ base_status (status_base (get_vector_db_status subjects students w)) = "Ready".
Proof.
  intros -> Hst Hm.
  destruct (consistent_run_calls env calls (initial_world files) (consistent_initial files))
    as (H1 & _).
  set (w := run_calls env calls (initial_world files)) in *.
  simpl in Hst. destruct Hst as [Hst|Hst];
    apply status_fold_lookup in Hst as [Hst|(row & _ & <- & ->)];
    try (rewrite lookup_empty in Hst; discriminate Hst).
  - unfold subject_status, has_key in *.
    destruct (_merged_dbs w !! ("subject_" +:+ str (IdInt (subject_row_id row))))
      as [m|] eqn:Em;
      [|destruct (_subject_dbs w !! IdInt (subject_row_id row)); discriminate Hm].
    destruct (H1 _ m Em) as (S & h & b & Hi & Hk & Hh & Hb & _).
    assert (E : S = Topic (IdInt (subject_row_id row)))
      by (apply merged_key_inj; [exact Hi|reflexivity|now symmetry]).
    subst S. simpl in Hh. simpl. rewrite Hh, Hb. auto.
  - unfold student_status, has_key in *.
    destruct (_merged_dbs w !! ("student_" +:+ str (IdInt (student_row_id row))))
      as [m|] eqn:Em;
      [|destruct (_student_dbs w !! IdInt (student_row_id row)); discriminate Hm].
    destruct (H1 _ m Em) as (S & h & b & Hi & Hk & Hh & Hb & _).
    assert (E : S = Individual (IdInt (student_row_id row)))
      by (apply merged_key_inj; [exact Hi|reflexivity|now symmetry]).
    subst S. simpl in Hh. simpl. rewrite Hh, Hb. auto.
Qed.

Lemma X15_status_merged_implies_ready_witness :
  demo_world
    = run_calls demo_env
        [CreateVectorDb ["handbook.pdf"] None None true;
         CreateVectorDb ["algebra.pdf"] (Some (IdInt 1)) None false;
         CreateVectorDb ["notes.pdf"] None (Some (IdInt 5)) false;
         GetHierarchicalDb (Some 1%Z) None;
         GetHierarchicalDb None (Some 5%Z)] (initial_world ∅)
  /\ status (subject_status demo_world (mkSubjectRow 1 "Algebra" "MATH1" [])) = "Ready"
  /\ base_status (status_base
       (get_vector_db_status [mkSubjectRow 1 "Algebra" "MATH1" []] [] demo_world)) = "Ready".
Proof.
  assert (H : demo_world
    = run_calls demo_env
        [CreateVectorDb ["handbook.pdf"] None None true;
         CreateVectorDb ["algebra.pdf"] (Some (IdInt 1)) None false;
         CreateVectorDb ["notes.pdf"] None (Some (IdInt 5)) false;
         GetHierarchicalDb (Some 1%Z) None;
         GetHierarchicalDb None (Some 5%Z)] (initial_world ∅)) by reflexivity.
  split; [exact H|].
  refine (X15_status_merged_implies_ready demo_env ∅ _ demo_world
            [mkSubjectRow 1 "Algebra" "MATH1" []] [] 1%Z _ H _ _).
  - left. vm_compute. reflexivity.
  - vm_compute. reflexivity.
Defined.

(** ** The parse step and [generate_quiz_questions] *)

Lemma accept_fields (quiz_id difficulty_level : Z) (block : string) (q : Question) :
  accept quiz_id difficulty_level block = Some q ->
  quiz_id_of q = quiz_id /\ difficulty_level_of q = difficulty_level.
Proof.
  unfold accept. destruct (parse_block block); [|discriminate|discriminate].
  intros H; inversion H; subst. auto.
Qed.

(** X16 — truncation.  Asked for [n] questions, with [n] at least 1, the
    parse step returns at most [n] of them, and they are the first [n]
    of what it returns when asked for more: a larger request only adds
    questions at the end.  Every question returned carries the quiz id
    and the difficulty level the call was given. *)
Theorem X16_parse_truncates
    (raw_output : string) (quiz_id n m difficulty_level : Z) :
  (1 <= n <= m)%Z ->
  parse_response raw_output quiz_id n difficulty_level
    = firstn (Z.to_nat n) (parse_response raw_output quiz_id m difficulty_level)
  /\ (length (parse_response raw_output quiz_id n difficulty_level) <= Z.to_nat n)%nat
  /\ forall q, In q (parse_response raw_output quiz_id n difficulty_level) ->
       quiz_id_of q = quiz_id /\ difficulty_level_of q = difficulty_level.
Proof.
  intros [Hn Hm]. rewrite !parse_response_take.
  replace (Z.max 1 n) with n by lia. replace (Z.max 1 m) with m by lia.
  split; [|split].
  - rewrite firstn_firstn. f_equal. lia.
  - apply firstn_le_length.
  - intros q Hq. apply list_elem_of_In in Hq. apply subseteq_take in Hq.
    apply list_elem_of_omap in Hq as (block & _ & Hacc).
    eapply accept_fields. exact Hacc.
Qed.

Lemma X16_parse_truncates_witness :
  (1 <= 1 <= 5)%Z
  /\ parse_response demo_answer 7 1 3 = firstn 1 (parse_response demo_answer 7 5 3).
Proof.
  assert (H : (1 <= 1 <= 5)%Z) by lia.
  split; [exact H|].
  exact (proj1 (X16_parse_truncates demo_answer 7 1 5 3 H)).
Defined.

Lemma get_hierarchical_db_keeps_session (env : Env) sid uid (w : World) :
  db_session (snd (get_hierarchical_db env sid uid w)) = db_session w.
Proof.
  assert (Fl : db_session (load_base w) = db_session w).
  { unfold load_base. destruct (_base_vector_db w), (index_file BASE_VECTOR_DIR w); reflexivity. }
  destruct (get_hierarchical_db_world env sid uid w) as [->|[->|(sc & h & b & _ & _ & _ & _ & ->)]];
    [reflexivity|exact Fl|exact Fl].
Qed.

(** X17 — what reaches the database.  [generate_quiz_questions] adds to
    the database exactly the questions it returns, after those already
    there; when it raises, or returns no question, the database is as
    it was. *)
Theorem X17_generate_commits_returned
    (env : Env) (subject_id quiz_id num_questions difficulty_level : Z) (w : World) :
  db_session (snd (generate_quiz_questions env subject_id quiz_id num_questions
                     difficulty_level w))
  = (db_session w ++
     match fst (generate_quiz_questions env subject_id quiz_id num_questions
                  difficulty_level w) with
     | Ok generated_questions => generated_questions
     | Raise _ => []
     end)%list.
Proof.
  set (X := generate_quiz_questions env subject_id quiz_id num_questions difficulty_level w).
  assert (HX : X = generate_quiz_questions env subject_id quiz_id num_questions
                     difficulty_level w) by reflexivity.
  clearbody X. unfold generate_quiz_questions, raise in HX.
  destruct (_ || _); [subst X; simpl; now rewrite app_nil_r|].
  destruct (_ || _); [subst X; simpl; now rewrite app_nil_r|].
  unfold generate_after_validation, bind, get, modify, ret, raise in HX.
  destruct (_subject_dbs w !! IdInt subject_id); [|subst X; simpl; now rewrite app_nil_r].
  destruct (subject_table env !! subject_id); [|subst X; simpl; now rewrite app_nil_r].
  destruct (quiz_table env !! quiz_id); [|subst X; simpl; now rewrite app_nil_r].
  assert (Hllm : db_session (snd (_initialize_llm env w)) = db_session w).
  { unfold _initialize_llm, bind, get, modify, ret, raise.
    destruct (_llm w); [reflexivity|]. destruct (falsy (GROQ_API_KEY env)); reflexivity. }
  destruct (_initialize_llm env w) as [[llm|e] w1]; simpl in Hllm, HX;
    [|subst X; simpl; now rewrite app_nil_r].
  pose proof (get_hierarchical_db_keeps_session env (Some (IdInt subject_id)) None w1) as Hget.
  destruct (get_hierarchical_db env (Some (IdInt subject_id)) None w1) as [[vdb|e] w2];
    simpl in Hget, HX; [|subst X; simpl; rewrite app_nil_r; congruence].
  destruct vdb as [retriever|]; [|subst X; simpl; rewrite app_nil_r; congruence].
  destruct (difficulty_descriptions difficulty_level);
    [|subst X; simpl; rewrite app_nil_r; congruence].
  destruct (parse_response _ quiz_id num_questions difficulty_level) as [|q0 qs];
    simpl in HX; subst X; simpl.
  - rewrite app_nil_r. congruence.
  - congruence.
Qed.

(** ** The cutting of the text into blocks *)

Lemma take_app_len (a b : string) : Py.take (Py.len a) (a +:+ b) = a.
Proof. induction a as [|c a IH]; simpl; [now destruct b | now rewrite IH]. Qed.

Lemma drop_app_len (a b : string) (k : nat) : Py.drop (Py.len a + k) (a +:+ b) = Py.drop k b.
Proof. induction a as [|c a IH]; simpl; [reflexivity | exact IH]. Qed.

Lemma find_from_contains (sub s : string) (i : Z) :
  (0 <= i)%Z -> Py.find_from sub s i <> (-1)%Z -> Py.contains sub s = true.
Proof.
  revert i. induction s as [|c s IH]; intros i Hi; simpl.
  - destruct (Py.startswith sub ""); [reflexivity | congruence].
  - destruct (Py.startswith sub (String c s)); [reflexivity|]. simpl.
    apply IH. lia.
Qed.

(** X18 — the preamble is dropped.  Whatever precedes the first
    [QUESTION:] of the answer has no effect on the blocks: the text is
    cut as if it began at that marker. *)
Theorem X18_preamble_ignored (preamble rest : string) :
  Py.find "QUESTION:" (preamble +:+ "QUESTION:" +:+ rest) = Z.of_nat (Py.len preamble) ->
  question_blocks (preamble +:+ "QUESTION:" +:+ rest) = question_blocks ("QUESTION:" +:+ rest).
Proof.
  intros Hfind. unfold question_blocks.
  assert (Hc : Py.contains "QUESTION:" (preamble +:+ "QUESTION:" +:+ rest) = true).
  { apply (find_from_contains _ _ 0); [lia|]. fold (Py.find "QUESTION:"
      (preamble +:+ "QUESTION:" +:+ rest)). rewrite Hfind. lia. }
  rewrite Hc.
  assert (Hs : item1 (Py.split_max1 "QUESTION:" (preamble +:+ "QUESTION:" +:+ rest)) = Some rest).
  { unfold Py.split_max1. rewrite Hfind.
    replace (Z.of_nat (Py.len preamble) =? -1)%Z with false by (symmetry; apply Z.eqb_neq; lia).
    rewrite Nat2Z.id. unfold item1. cbn [lookup list_lookup].
    rewrite drop_app_len. reflexivity. }
  rewrite Hs.
  assert (Hc' : Py.contains "QUESTION:" ("QUESTION:" +:+ rest) = true) by reflexivity.
  assert (Hs' : item1 (Py.split_max1 "QUESTION:" ("QUESTION:" +:+ rest)) = Some rest)
    by reflexivity.
  rewrite Hc', Hs'. reflexivity.
Qed.

Lemma X18_preamble_ignored_witness :
  Py.find "QUESTION:" ("Sure, here you go: " +:+ "QUESTION:" +:+ " one? QUESTION: two?")
    = Z.of_nat (Py.len "Sure, here you go: ")
  /\ question_blocks ("Sure, here you go: " +:+ "QUESTION:" +:+ " one? QUESTION: two?")
     = question_blocks ("QUESTION:" +:+ " one? QUESTION: two?").
Proof.
  assert (H : Py.find "QUESTION:" ("Sure, here you go: " +:+ "QUESTION:" +:+ " one? QUESTION: two?")
    = Z.of_nat (Py.len "Sure, here you go: ")) by reflexivity.
  split; [exact H|].
  exact (X18_preamble_ignored _ _ H).
Defined.

(** ** [allowed_file] *)

Lemma contains_char (c : ascii) (s : string) :
  Py.contains (String c EmptyString) s = Py.char_in c s.
Proof.
  induction s as [|x s IH]; [reflexivity|].
  cbn [Py.contains Py.startswith Py.char_in]. rewrite IH.
  destruct s; now rewrite andb_true_r.
Qed.

Lemma rpartition_none (c : ascii) (s : string) :
  rpartition (String c EmptyString) s = None <-> Py.char_in c s = false.
Proof.
  induction s as [|x s IH]; [simpl; tauto|].
  cbn [rpartition Py.startswith Py.char_in].
  destruct (rpartition (String c EmptyString) s) as [[b a]|] eqn:E.
  - split; [discriminate|]. intros H. apply orb_false_elim in H as [_ H].
    apply IH in H. discriminate H.
  - assert (Hs : Py.char_in c s = false) by now apply IH.
    rewrite Hs, orb_false_r.
    replace (match s with EmptyString => true | String _ _ => true end) with true
      by now destruct s.
    rewrite andb_true_r. destruct (Ascii.eqb c x); split; congruence.
Qed.

Lemma rpartition_some (c : ascii) (s before after : string) :
  rpartition (String c EmptyString) s = Some (before, after) <->
  s = before +:+ String c after /\ Py.char_in c after = false.
Proof.
  revert before. induction s as [|x s IH]; intros before.
  - simpl. split; [discriminate|]. intros [H _]. destruct before; discriminate H.
  - cbn [rpartition Py.startswith].
    destruct (rpartition (String c EmptyString) s) as [[b a]|] eqn:E.
    + split.
      * intros H; inversion H; subst. destruct (proj1 (IH b) eq_refl) as [-> Ha].
        split; [reflexivity|exact Ha].
      * intros [Hs Ha]. destruct before as [|y before]; simpl in Hs.
        -- inversion Hs; subst. apply rpartition_none in Ha. congruence.
        -- inversion Hs; subst.
           assert (H : Some (b, a) = Some (before, after)) by (apply IH; auto).
           inversion H; now subst.
    + apply rpartition_none in E.
      replace (match s with EmptyString => true | String _ _ => true end) with true
        by now destruct s.
      rewrite andb_true_r. destruct (Ascii.eqb c x) eqn:Ec.
      * apply Ascii.eqb_eq in Ec. subst x. split.
        -- intros H; inversion H; subst. simpl. auto.
        -- intros [Hs Ha]. destruct before as [|y before]; simpl in Hs.
           ++ inversion Hs; subst. reflexivity.
           ++ inversion Hs; subst. exfalso.
              clear -E. induction before as [|z before IH]; simpl in E.
              ** rewrite Ascii.eqb_refl in E. discriminate E.
              ** apply orb_false_elim in E as [_ E]. now apply IH.
      * split; [discriminate|]. intros [Hs Ha].
        destruct before as [|y before]; simpl in Hs.
        -- inversion Hs; subst. rewrite Ascii.eqb_refl in Ec. discriminate Ec.
        -- inversion Hs; subst. exfalso.
           clear -E. induction before as [|z before IH]; simpl in E.
           ++ rewrite Ascii.eqb_refl in E. discriminate E.
           ++ apply orb_false_elim in E as [_ E]. now apply IH.
Qed.

(** X19 — which file names are allowed.  [allowed_file] never raises,
    and it accepts a name exactly when the name has a dot and the text
    after its last dot is [pdf] in any mix of upper and lower case. *)
Theorem X19_allowed_file_characterised (filename : string) :
  (exists b, allowed_file filename = Ok b)
  /\ (allowed_file filename = Ok true <->
      exists stem extension,
        filename = stem +:+ "." +:+ extension
        /\ Py.char_in "."%char extension = false
        /\ lower extension = "pdf").
Proof.
  unfold allowed_file, rsplit_max1.
  change "." with (String "."%char EmptyString) at 1 2 3 4.
  rewrite contains_char.
  destruct (rpartition (String "."%char EmptyString) filename) as [[b a]|] eqn:E.
  - destruct (proj1 (rpartition_some _ _ _ _) E) as [Hf Ha].
    assert (Hin : Py.char_in "."%char filename = true).
    { subst filename. clear. induction b as [|z b IH]; simpl.
      - reflexivity.
      - rewrite IH. apply orb_true_r. }
    rewrite Hin. cbn [item1 lookup list_lookup]. split; [eauto|]. split.
    + intros H. assert (Hl : String.eqb (lower a) "pdf" = true) by congruence.
      apply String.eqb_eq in Hl.
      exists b, a. split; [exact Hf|]. split; [exact Ha|exact Hl].
    + intros (stem & ext & Hs & He & Hl).
      assert (H : Some (b, a) = Some (stem, ext)).
      { rewrite <- E. apply rpartition_some. auto. }
      inversion H; subst. rewrite Hl. reflexivity.
  - apply rpartition_none in E. rewrite E. split; [eauto|]. split; [discriminate|].
    intros (stem & ext & Hs & _). exfalso. subst filename. clear -E.
    induction stem as [|z stem IH]; simpl in E.
    + discriminate E.
    + apply orb_false_elim in E as [_ E]. now apply IH.
Qed.

(** ** A block in the requested format *)

Lemma find_from_one_line (sub q rest : string) (i : Z) :
  one_line q -> Py.startswith sub rest = true ->
  Py.find_from (String "010"%char sub) (q +:+ String "010"%char rest) i
    = (i + Z.of_nat (Py.len q))%Z.
Proof.
  unfold one_line. intros Hq Hs. revert i.
  induction q as [|c q IH]; intros i.
  - change (EmptyString +:+ String "010"%char rest) with (String "010"%char rest).
    cbn [Py.find_from Py.startswith]. rewrite Ascii.eqb_refl, Hs. simpl. lia.
  - cbn [Py.char_in] in Hq. apply orb_false_elim in Hq as [Hc Hq].
    change (String c q +:+ String "010"%char rest)
      with (String c (q +:+ String "010"%char rest)).
    cbn [Py.find_from Py.startswith]. rewrite Hc. cbn [andb].
    rewrite (IH Hq). unfold Py.len. simpl String.length. lia.
Qed.

Lemma split_go_line (line rest : string) :
  one_line line ->
  Py.split_go newline (line +:+ String "010"%char rest) 0
    = line :: Py.split_go newline rest 0.
Proof.
  unfold one_line. intros Hl. induction line as [|c line IH].
  - change (EmptyString +:+ String "010"%char rest) with (String "010"%char rest).
    unfold newline. cbn [Py.split_go Py.startswith]. rewrite Ascii.eqb_refl.
    destruct rest; reflexivity.
  - cbn [Py.char_in] in Hl. apply orb_false_elim in Hl as [Hc Hl].
    change (String c line +:+ String "010"%char rest)
      with (String c (line +:+ String "010"%char rest)).
    unfold newline in *. cbn [Py.split_go Py.startswith]. rewrite Hc. cbn [andb].
    rewrite (IH Hl). reflexivity.
Qed.

Lemma split_go_last (line : string) :
  one_line line -> Py.split_go newline line 0 = [line].
Proof.
  unfold one_line. intros Hl. induction line as [|c line IH]; [reflexivity|].
  cbn [Py.char_in] in Hl. apply orb_false_elim in Hl as [Hc Hl].
  unfold newline in *. cbn [Py.split_go Py.startswith]. rewrite Hc. cbn [andb].
  rewrite (IH Hl). reflexivity.
Qed.

(** Splitting at the newlines undoes the joining of one-line texts. *)
Lemma split_join_lines (lines : list string) :
  lines <> [] -> Forall one_line lines ->
  Py.split newline (join_lines lines) = lines.
Proof.
  unfold Py.split. induction lines as [|line rest IH]; [congruence|].
  intros _ Hall. apply Forall_cons in Hall as [Hl Hrest].
  destruct rest as [|line' rest'].
  - now apply split_go_last.
  - change (join_lines (line :: line' :: rest'))
      with (line +:+ String "010"%char (join_lines (line' :: rest'))).
    rewrite (split_go_line _ _ Hl). f_equal. apply IH; [discriminate|exact Hrest].
Qed.

Lemma last_outside_app (p : ascii -> bool) (s t : string) :
  last_outside p t = true -> last_outside p (s +:+ t) = true.
Proof.
  intros Ht. induction s as [|c s IH]; [exact Ht|].
  change (String c s +:+ t) with (String c (s +:+ t)).
  cbn [last_outside]. rewrite IH.
  destruct (s +:+ t) eqn:E; [|reflexivity].
  discriminate IH.
Qed.

Lemma rstrip_last_outside (p : ascii -> bool) (s : string) :
  last_outside p s = true -> Py.rstrip_with p s = s.
Proof.
  induction s as [|c s IH]; [discriminate|].
  destruct s as [|c' s'].
  - cbn. intros H. apply negb_true_iff in H. now rewrite H.
  - intros H. cbn [last_outside] in H.
    change (Py.rstrip_with p (String c (String c' s')))
      with (let r := Py.rstrip_with p (String c' s') in
            if Py.is_empty r && p c then EmptyString else String c r).
    rewrite (IH H). reflexivity.
Qed.

Lemma one_line_app (s t : string) : one_line s -> one_line t -> one_line (s +:+ t).
Proof.
  unfold one_line. intros Hs Ht. induction s as [|c s IH]; [exact Ht|].
  cbn [Py.char_in] in Hs. apply orb_false_elim in Hs as [Hc Hs].
  change (String c s +:+ t) with (String c (s +:+ t)).
  cbn [Py.char_in]. now rewrite Hc, IH.
Qed.

Lemma lstrip_app (p : ascii -> bool) (s t : string) :
  Py.lstrip_with p s <> "" -> Py.lstrip_with p (s +:+ t) = Py.lstrip_with p s +:+ t.
Proof.
  induction s as [|c s IH]; intros H; [now destruct H|].
  change (String c s +:+ t) with (String c (s +:+ t)).
  cbn [Py.lstrip_with] in *. destruct (p c); [now apply IH|reflexivity].
Qed.

Lemma lstrip_idempotent (p : ascii -> bool) (s : string) :
  Py.lstrip_with p (Py.lstrip_with p s) = Py.lstrip_with p s.
Proof.
  induction s as [|c s IH]; [reflexivity|].
  cbn [Py.lstrip_with]. destruct (p c) eqn:E; [exact IH|].
  cbn [Py.lstrip_with]. now rewrite E.
Qed.

Lemma one_line_lstrip (p : ascii -> bool) (s : string) :
  one_line s -> one_line (Py.lstrip_with p s).
Proof.
  unfold one_line. induction s as [|c s IH]; intros H; [exact H|].
  cbn [Py.lstrip_with]. destruct (p c); [|exact H].
  cbn [Py.char_in] in H. apply orb_false_elim in H as [_ H]. now apply IH.
Qed.

(** The parse of a block in the requested format, taken as it is. *)
Lemma parse_block_well_formed (question a b c d letter : string) :
  one_line question -> one_line a -> one_line b -> one_line c -> one_line d ->
  In letter label_keys ->
  parse_block (well_formed_block question a b c d letter)
    = Accepted (Py.strip question)
        [("A", Py.strip a); ("B", Py.strip b); ("C", Py.strip c); ("D", Py.strip d)]
        letter.
Proof.
  intros Hq Ha Hb Hc Hd Hletter.
  set (lines := ["A: " +:+ a; "B: " +:+ b; "C: " +:+ c; "D: " +:+ d; "CORRECT: " +:+ letter]).
  assert (Hlines : Forall one_line lines).
  { assert (Hlit : forall lit t, one_line lit -> one_line t -> one_line (lit +:+ t))
      by (intros; now apply one_line_app).
    assert (Hl : one_line letter).
    { destruct Hletter as [<-|[<-|[<-|[<-|[]]]]]; reflexivity. }
    subst lines. repeat constructor; apply Hlit; try assumption; reflexivity. }
  assert (Hblock : well_formed_block question a b c d letter
                   = question +:+ String "010"%char (join_lines lines)) by reflexivity.
  assert (Hhead : join_lines lines
                  = String "A"%char (String ":"%char (String " "%char
                      (a +:+ String "010"%char
                         (join_lines ["B: " +:+ b; "C: " +:+ c; "D: " +:+ d;
                                      "CORRECT: " +:+ letter]))))) by reflexivity.
  assert (Hlast : last_outside Py.isspace (join_lines lines) = true).
  { subst lines. cbn [join_lines].
    repeat apply last_outside_app.
    destruct Hletter as [<-|[<-|[<-|[<-|[]]]]]; reflexivity. }
  assert (Hstrip : Py.strip (String "010"%char (join_lines lines)) = join_lines lines).
  { unfold Py.strip, Py.strip_with.
    assert (E : Py.lstrip_with Py.isspace (String "010"%char (join_lines lines))
                = join_lines lines) by (rewrite Hhead; reflexivity).
    rewrite E. now apply rstrip_last_outside. }
  unfold parse_block. rewrite Hblock.
  unfold Py.find.
  rewrite (find_from_one_line "A:" question (join_lines lines) 0 Hq)
    by (rewrite Hhead; reflexivity).
  replace (0 + Z.of_nat (Py.len question) =? -1)%Z with false
    by (symmetry; apply Z.eqb_neq; lia).
  replace (Z.to_nat (0 + Z.of_nat (Py.len question))) with (Py.len question) by lia.
  rewrite take_app_len.
  replace (Py.len question) with (Py.len question + 0)%nat at 1 by lia.
  rewrite drop_app_len. cbn [Py.drop].
  rewrite Hstrip.
  change (String "010"%char EmptyString) with newline.
  rewrite (split_join_lines lines) by (try discriminate; exact Hlines).
  subst lines.
  destruct Hletter as [<-|[<-|[<-|[<-|[]]]]]; reflexivity.
Qed.


(** X20 — the requested format is accepted.  A block made of a
    one-line question that is not blank, the four lines [A: ..],
    [B: ..], [C: ..], [D: ..] with one-line option texts, and a line
    [CORRECT: X] with [X] one of the four letters passes the validation
    gate once stripped, as the loop strips every block before parsing
    it: the loop goes on with the stripped question, the four stripped
    option texts under A, B, C, D in this order, and [X] as the correct
    key. *)
Theorem X20_well_formed_block_accepted (question a b c d letter : string) :
  one_line question -> one_line a -> one_line b -> one_line c -> one_line d ->
  In letter label_keys ->
  Py.strip question <> "" ->
  parse_block (Py.strip (well_formed_block question a b c d letter))
    = Accepted (Py.strip question)
        [("A", Py.strip a); ("B", Py.strip b); ("C", Py.strip c); ("D", Py.strip d)]
        letter.
Proof.
  intros Hq Ha Hb Hc Hd Hletter Hne.
  set (q := Py.lstrip_with Py.isspace question).
  assert (Hq0 : q <> "").
  { intros E. apply Hne. unfold Py.strip, Py.strip_with. fold q. now rewrite E. }
  assert (Hstripq : Py.strip q = Py.strip question).
  { unfold Py.strip, Py.strip_with. subst q. now rewrite lstrip_idempotent. }
  set (rest := String "010"%char
                 (join_lines ["A: " +:+ a; "B: " +:+ b; "C: " +:+ c; "D: " +:+ d;
                              "CORRECT: " +:+ letter])).
  assert (Hblock : forall x, well_formed_block x a b c d letter = x +:+ rest)
    by reflexivity.
  assert (Hlast : last_outside Py.isspace (q +:+ rest) = true).
  { apply last_outside_app. subst rest.
    change (String "010"%char ?x) with ((String "010"%char EmptyString) +:+ x).
    apply last_outside_app. cbn [join_lines].
    repeat apply last_outside_app.
    destruct Hletter as [<-|[<-|[<-|[<-|[]]]]]; reflexivity. }
  assert (Hstrip : Py.strip (well_formed_block question a b c d letter)
                   = well_formed_block q a b c d letter).
  { rewrite !Hblock. unfold Py.strip, Py.strip_with.
    rewrite lstrip_app by exact Hq0. fold q. now apply rstrip_last_outside. }
  rewrite Hstrip, <- Hstripq.
  apply parse_block_well_formed; try assumption.
  subst q. now apply one_line_lstrip.
Qed.

Lemma X20_well_formed_block_accepted_witness :
  one_line "  What is 2 + 2? " /\ one_line "three" /\ one_line "four " /\ one_line " five"
  /\ one_line "six" /\ In "B" label_keys /\ Py.strip "  What is 2 + 2? " <> ""
  /\ parse_block (Py.strip (well_formed_block "  What is 2 + 2? " "three" "four " " five" "six" "B"))
     = Accepted "What is 2 + 2?" [("A", "three"); ("B", "four"); ("C", "five"); ("D", "six")] "B".
Proof.
  assert (H1 : one_line "  What is 2 + 2? ") by reflexivity.
  assert (H2 : one_line "three") by reflexivity.
  assert (H3 : one_line "four ") by reflexivity.
  assert (H4 : one_line " five") by reflexivity.
  assert (H5 : one_line "six") by reflexivity.
  assert (H6 : In "B" label_keys) by (simpl; auto).
  assert (H7 : Py.strip "  What is 2 + 2? " <> "") by (vm_compute; discriminate).
  repeat (split; [assumption|]).
  exact (X20_well_formed_block_accepted _ _ _ _ _ _ H1 H2 H3 H4 H5 H6 H7).
Defined.

(** ** Indexes found on disk *)

(** X21 — only Base is loaded on demand.  A subject or a student
    without a handle in memory, even one whose index is on disk, has no
    handle after [get_hierarchical_db] either, whatever the call does:
    the index of a scope is read by [create_vector_db] alone.  When the
    call for such a scope returns, it returns Base, which was in memory
    or is the index of Base the call has just loaded; with Base neither
    in memory nor on disk it raises the error of the missing store and
    changes nothing.  The call without subject and user, when Base is
    not in memory and the call returns, returns the index of Base if
    there is one on disk, which is Base from then on, and [None] if
    there is none. *)
Theorem X21_only_base_is_loaded_on_demand (env : Env) (S : Scope) (w : World) :
  handle S w = None ->
  handle S (snd (resolve env S w)) = None
  /\ (forall r w', resolve env S w = (Ok r, w') ->
        exists b,
          r = Some b /\ _base_vector_db w' = Some b
          /\ (_base_vector_db w = Some b
              \/ (_base_vector_db w = None /\ index_file BASE_VECTOR_DIR w = Some b)))
  /\ (configured env -> _base_vector_db w = None -> index_file BASE_VECTOR_DIR w = None ->
        resolve env S w
          = (Raise (ValueError "No vector database available for this context"), w))
  /\ (forall r w', get_hierarchical_db env None None w = (Ok r, w') ->
        _base_vector_db w = None ->
        r = index_file BASE_VECTOR_DIR w /\ _base_vector_db w' = r).
Proof.
  intros Hh.
  assert (Ht : match S with
               | Topic sid => target (Some sid) None w
               | Individual uid => target None (Some uid) w
               end = None).
  { destruct S as [sid|uid]; unfold target, lookup_id; simpl in Hh; now rewrite Hh. }
  assert (Hres : configured env ->
    resolve env S w =
      match _base_vector_db (load_base w) with
      | Some b => (Ok (Some b), load_base w)
      | None => (Raise (ValueError "No vector database available for this context"),
                 load_base w)
      end).
  { intros Hc. destruct S as [sid|uid]; unfold resolve;
      rewrite (get_hierarchical_db_cases env _ _ w Hc), Ht; reflexivity. }
  assert (Hun : ~ configured env ->
    resolve env S w
      = (Raise (ValueError "GOOGLE_API_KEY not found in environment variables"), w)).
  { intros Hc. destruct S; apply get_hierarchical_db_unconfigured; exact Hc. }
  assert (Hl : handle S (load_base w) = None).
  { rewrite <- Hh. apply handle_ext; apply (load_base_fields w). }
  repeat conj.
  - destruct (configured_dec env) as [Hc|Hc]; [|now rewrite (Hun Hc)].
    rewrite (Hres Hc). destruct (_base_vector_db (load_base w)); exact Hl.
  - intros r w' H.
    destruct (configured_dec env) as [Hc|Hc]; [|rewrite (Hun Hc) in H; discriminate H].
    rewrite (Hres Hc) in H.
    destruct (_base_vector_db (load_base w)) as [b|] eqn:Eb; [|discriminate H].
    inversion H; subst. exists b. split; [reflexivity|]. split; [exact Eb|].
    unfold load_base in Eb. destruct (_base_vector_db w) as [b0|] eqn:E0;
      [left; simpl in Eb; congruence|].
    destruct (index_file BASE_VECTOR_DIR w) as [d|] eqn:Ed; [|simpl in Eb; congruence].
    right. simpl in Eb. split; [reflexivity|exact Eb].
  - intros Hc Hb Hd. rewrite (Hres Hc).
    assert (E : load_base w = w) by (unfold load_base; now rewrite Hb, Hd).
    now rewrite E, Hb.
  - intros r w' H Hb.
    destruct (configured_dec env) as [Hc|Hc];
      [|rewrite (get_hierarchical_db_unconfigured env _ _ w Hc) in H; discriminate H].
    rewrite (get_hierarchical_db_cases env None None w Hc) in H.
    inversion H; subst. unfold load_base. rewrite Hb.
    destruct (index_file BASE_VECTOR_DIR w); auto.
Qed.

Lemma X21_only_base_is_loaded_on_demand_witness :
  handle (Topic (IdInt 1)) demo_disk_world = None
  /\ is_Some (index_file (scope_path (Topic (IdInt 1))) demo_disk_world)
  /\ resolve demo_env (Topic (IdInt 1)) demo_disk_world
     = (Raise (ValueError "No vector database available for this context"), demo_disk_world)
  /\ handle (Topic (IdInt 1)) (snd (resolve demo_env (Topic (IdInt 1)) demo_disk_world)) = None.
Proof.
  assert (Hh : handle (Topic (IdInt 1)) demo_disk_world = None) by reflexivity.
  split; [exact Hh|]. split; [vm_compute; eauto|].
  pose proof (X21_only_base_is_loaded_on_demand demo_env (Topic (IdInt 1)) demo_disk_world Hh)
    as (H1 & _ & H3 & _).
  split; [|exact H1].
  apply H3; reflexivity.
Defined.

(** ** The embedding work of a build *)

Lemma save_path_of_tier (subject_id user_id : option PyId) (is_base : bool) :
  save_path_of subject_id user_id is_base = tier_path <$> tier_of subject_id user_id is_base.
Proof.
  unfold save_path_of, tier_of.
  destruct is_base; [reflexivity|]. destruct subject_id; [reflexivity|].
  destruct user_id; reflexivity.
Qed.

(** X22 — what a build embeds.  A call of [create_vector_db] that
    returns the count [n] has handed [n] texts to the embedding model
    when the tier had no index on disk, and none when it had one. *)
Theorem X22_create_vector_db_embedding_work
    (env : Env) (file_paths : list string) (subject_id user_id : option PyId)
    (is_base : bool) (w w' : World) (n : nat) (path : string) :
  create_vector_db env file_paths subject_id user_id is_base w = (Ok n, w') ->
  save_path_of subject_id user_id is_base = Some path ->
  embedded_texts w' =
    match index_file path w with
    | Some _ => embedded_texts w
    | None => (embedded_texts w + n)%nat
    end.
Proof.
  intros H Hp. rewrite create_vector_db_eq in H. rewrite save_path_of_tier in Hp.
  destruct (tier_of subject_id user_id is_base) as [t|]; [|discriminate H].
  simpl in Hp. inversion Hp; subst path. unfold build_outcome in H.
  pose proof (made_fields t w) as (_ & _ & _ & _ & _ & _ & Fe & _).
  destruct (falsy (GOOGLE_API_KEY env)); [discriminate H|].
  destruct (index_file (tier_path t) w) as [db|].
  - inversion H; subst. rewrite <- Fe. destruct t as [|[a|a]]; reflexivity.
  - destruct (chunks_of env file_paths) as [|d ds]; [discriminate H|].
    inversion H; subst. rewrite <- Fe. destruct t as [|[a|a]]; reflexivity.
Qed.

Lemma X22_create_vector_db_embedding_work_witness :
  create_vector_db demo_env ["a.pdf"; "b.pdf"] (Some (IdInt 1)) None false demo_world
    = (Ok 2%nat,
       snd (create_vector_db demo_env ["a.pdf"; "b.pdf"] (Some (IdInt 1)) None false demo_world))
  /\ save_path_of (Some (IdInt 1)) None false = Some (scope_path (Topic (IdInt 1)))
  /\ embedded_texts
       (snd (create_vector_db demo_env ["a.pdf"; "b.pdf"] (Some (IdInt 1)) None false demo_world))
     = match index_file (scope_path (Topic (IdInt 1))) demo_world with
       | Some _ => embedded_texts demo_world
       | None => (embedded_texts demo_world + 2)%nat
       end.
Proof.
  assert (H : create_vector_db demo_env ["a.pdf"; "b.pdf"] (Some (IdInt 1)) None false demo_world
    = (Ok 2%nat,
       snd (create_vector_db demo_env ["a.pdf"; "b.pdf"] (Some (IdInt 1)) None false demo_world))).
  { vm_compute. reflexivity. }
  assert (Hp : save_path_of (Some (IdInt 1)) None false = Some (scope_path (Topic (IdInt 1))))
    by reflexivity.
  split; [exact H|]. split; [exact Hp|].
  exact (X22_create_vector_db_embedding_work _ _ _ _ _ _ _ _ _ H Hp).
Defined.
